(** * ZabbixProgram: time ranges, trend statistics, report assembly

    A shallow embedding of the computational core of the Zabbix chart
    extractor and the properties its specification states about it:

    - [ChartDownloader]: [calculate_time_range] and [_sanitize_filename]
      of [chart_downloader.py];
    - [PyDatetime]: the part of Python's naive [datetime] the time-range
      code calls (proleptic Gregorian ordinals, [replace], subtraction of
      a [timedelta]);
    - [TimeRange] and [TrendAnalyzer]: [_convert_time_range] and
      [calculate_statistics] of [trend_analyzer.py];
    - [PdfGenerator]: [add_item_data], [generate_report] and [clear_data]
      of [pdf_generator.py].

    Conventions.  A Python [str] whose characters matter is a list of
    Unicode code points; other strings are [string].  A pandas float
    column is a list of [option Q]: [None] is NaN (what
    [pd.to_numeric(errors='coerce')] gives for a field that does not
    parse), [Some q] an exact rational, so the arithmetic is the exact one
    that the floats approximate.  A function that may raise returns a
    [result]. *)

From Stdlib Require Import ZArith NArith QArith Qround Qabs List Bool Lia Lqa.
From Stdlib Require Import Permutation Sorted OrderedTypeEx.
From Stdlib Require Import Strings.String Strings.Ascii DecimalString.
From stdpp Require Import gmap strings.
Import ListNotations.

#[local] Open Scope Z_scope.

Set Warnings "-register-all".

(** ** Results of calls that may raise *)

Inductive exn : Type :=
| ValueError
| OverflowError
| OutOfBoundsDatetime.

Inductive result (A : Type) : Type :=
| Ok (a : A)
| Raise (e : exn).

Arguments Ok {A} a.
Arguments Raise {A} e.

Definition bind {A B : Type} (r : result A) (k : A -> result B) : result B :=
  match r with
  | Ok a => k a
  | Raise e => Raise e
  end.

Notation "'let!' x ':=' r 'in' k" := (bind r (fun x => k))
  (at level 10, x name, r at level 100, k at level 200).

(** ** chart_downloader.py *)

Module ChartDownloader.

(** A [str] as the sequence of its code points. *)
Definition pystr : Type := list N.

Definition of_string (s : string) : pystr :=
  List.map N_of_ascii (list_ascii_of_string s).

Definition underscore : N := 95%N.

(** The characters of the first pattern's class: less-than,
    greater-than, colon, double quote, slash, backslash, bar, question
    mark and star. *)
Definition invalid_chars : list N :=
  [60; 62; 58; 34; 47; 92; 124; 63; 42]%N.

Definition is_invalid_char (c : N) : bool :=
  existsb (N.eqb c) invalid_chars.

(** [\s] in a [str] pattern: the code points for which
    [Py_UNICODE_ISSPACE] holds. *)
Definition is_space (c : N) : bool :=
  ((9 <=? c) && (c <=? 13) || (28 <=? c) && (c <=? 32)
   || (c =? 133) || (c =? 160) || (c =? 5760)
   || (8192 <=? c) && (c <=? 8202)
   || (c =? 8232) || (c =? 8233) || (c =? 8239) || (c =? 8287)
   || (c =? 12288))%N.

(** [re.sub('[...]', '_', s)] for a one-character class. *)
Definition sub_class (p : N -> bool) (s : pystr) : pystr :=
  List.map (fun c => if p c then underscore else c) s.

(** [re.sub('X+', '_', s)]: every maximal run of characters of the
    class becomes a single underscore.  [in_run] tells that the
    previous character belonged to the run being replaced. *)
Fixpoint sub_runs (p : N -> bool) (in_run : bool) (s : pystr) : pystr :=
  match s with
  | [] => []
  | c :: t =>
      if p c then
        if in_run then sub_runs p true t
        else underscore :: sub_runs p true t
      else c :: sub_runs p false t
  end.

Fixpoint lstrip (c : N) (s : pystr) : pystr :=
  match s with
  | [] => []
  | x :: t => if N.eqb x c then lstrip c t else s
  end.

Definition rstrip (c : N) (s : pystr) : pystr :=
  rev (lstrip c (rev s)).

(** [s.strip('_')] *)
Definition strip (c : N) (s : pystr) : pystr :=
  rstrip c (lstrip c s).

Definition _sanitize_filename (name : pystr) : pystr :=
  let safe_name := sub_class is_invalid_char name in
  let safe_name := sub_runs is_space false safe_name in
  let safe_name := sub_runs (N.eqb underscore) false safe_name in
  strip underscore (firstn 100 safe_name).

(** A character that may remain in a sanitized name. *)
Definition clean (c : N) : Prop :=
  is_invalid_char c = false /\ is_space c = false.

(** The symbolic periods of the download dialog. *)
Definition calculate_time_range (period_type : string)
  : result (string * string) :=
  if String.eqb period_type "last_30_days" then Ok ("now-30d", "now")%string
  else if String.eqb period_type "previous_month" then
    Ok ("now-1M/M", "now-1M/M")%string
  else if String.eqb period_type "current_month" then
    Ok ("now/M", "now")%string
  else Raise ValueError.

(** *** process_image and save_full_image *)

(** A decoded image: its width and its rows of pixels, top row
    first; every row has [width] pixels. *)
Record Image : Type := mkimage {
  width : Z;
  rows : list (list N)
}.

Definition height (im : Image) : Z := Z.of_nat (List.length (rows im)).

(** [im.crop((left, upper, right, lower))] for a box that lies within
    the image. *)
Definition crop (im : Image) (left upper right lower : Z) : Image :=
  {| width := right - left;
     rows :=
       List.map
         (fun row => firstn (Z.to_nat (right - left)) (skipn (Z.to_nat left) row))
         (firstn (Z.to_nat (lower - upper)) (skipn (Z.to_nat upper) (rows im)))
  |}.

(** [int(height * 0.75)]: three quarters of a height are exact in
    binary floating point, and [int] drops the fraction. *)
Definition split_point (height : Z) : Z := height * 3 / 4.

(** The image files of a directory tree, newest first. *)
Definition ImageFiles : Type := list (pystr * Image).

Section Images.

(** What the model takes from outside: the decoder of the imaging
    library ([None] when it raises), [os.path.join], and whether creating
    the directory or saving a file raises. *)
Variable image_open : list N -> option Image.
Variable path_join : pystr -> pystr -> pystr.
Variable makedirs_raises : pystr -> bool.
Variable save_raises : pystr -> Image -> bool.

(** [image.save(path, 'PNG')] *)
Definition save (fs : ImageFiles) (path : pystr) (im : Image)
  : option ImageFiles :=
  if save_raises path im then None else Some ((path, im) :: fs).

(** The paths returned ([None] when the call raises) and the files
    afterwards. *)
Definition process_image (fs : ImageFiles) (image_bytes : list N)
    (item_name output_dir : pystr)
  : option (pystr * pystr) * ImageFiles :=
  if makedirs_raises output_dir then (None, fs)
  else
    match image_open image_bytes with
    | None => (None, fs)
    | Some image =>
        let width := width image in
        let height := height image in
        let split_point := split_point height in
        let chart_image := crop image 0 0 width split_point in
        let legend_image := crop image 0 split_point width height in
        let safe_name := _sanitize_filename item_name in
        let chart_path :=
          path_join output_dir
                    (safe_name ++ of_string "_grafico_superior.png") in
        let legend_path :=
          path_join output_dir
                    (safe_name ++ of_string "_datos_leyenda.png") in
        match save fs chart_path chart_image with
        | None => (None, fs)
        | Some fs1 =>
            match save fs1 legend_path legend_image with
            | None => (None, fs1)
            | Some fs2 => (Some (chart_path, legend_path), fs2)
            end
        end
    end.

Definition save_full_image (fs : ImageFiles) (image_bytes : list N)
    (item_name output_dir : pystr) : option pystr * ImageFiles :=
  if makedirs_raises output_dir then (None, fs)
  else
    let safe_name := _sanitize_filename item_name in
    let full_path :=
      path_join output_dir (safe_name ++ of_string "_completo.png") in
    match image_open image_bytes with
    | None => (None, fs)
    | Some image =>
        match save fs full_path image with
        | None => (None, fs)
        | Some fs1 => (Some full_path, fs1)
        end
    end.

End Images.

(** *** download_chart *)

(** What the downloader reads of a response: the status, the
    [Content-Type] header (empty when absent) and the body. *)
Record Response : Type := mkresponse {
  status_code : Z;
  content_type : string;
  content : list N
}.

(** [sub in s] *)
Fixpoint contains (sub s : string) : bool :=
  String.prefix sub s
  || match s with
     | EmptyString => false
     | String _ t => contains sub t
     end.

(** [str(n)] *)
Definition str_of_int (n : Z) : string := NilZero.string_of_int (Z.to_int n).

(** The URL of a request for a chart. *)
Definition chart_url (base_chart_url item_id time_from time_to : string)
    (width height : Z) : string :=
  (base_chart_url ++ "?"
   ++ "itemids[]=" ++ item_id ++ "&"
   ++ "from=" ++ time_from ++ "&"
   ++ "to=" ++ time_to ++ "&"
   ++ "width=" ++ str_of_int width ++ "&"
   ++ "height=" ++ str_of_int height ++ "&"
   ++ "profileIdx=web.item.graph")%string.

Section Download.

(** [self.session.get(url, timeout=30)]; [None] when it raises
    [RequestException]. *)
Variable session_get : string -> option Response.

(** The result ([None] for no image) and the requests made so far,
    oldest first. *)
Definition _try_download_chart (requests : list string)
    (base_chart_url item_id time_from time_to : string) (width height : Z)
  : option (list N) * list string :=
  let chart_url :=
    chart_url base_chart_url item_id time_from time_to width height in
  let requests := requests ++ [chart_url] in
  match session_get chart_url with
  | None => (None, requests)
  | Some response =>
      if negb (status_code response =? 200) then (None, requests)
      else if contains "image" (content_type response) then
        (Some (content response), requests)
      else (None, requests)
  end.

(** The truth value of an [Optional[bytes]]. *)
Definition truthy (result : option (list N)) : bool :=
  match result with
  | Some (_ :: _) => true
  | _ => false
  end.

Definition download_chart (requests : list string)
    (base_url item_id time_from time_to : string) (width height : Z)
  : option (list N) * list string :=
  let '(result, requests) :=
    _try_download_chart requests (base_url ++ "/chart.php")
                        item_id time_from time_to width height in
  if truthy result then (result, requests)
  else
    _try_download_chart requests (base_url ++ "/chart2.php")
                        item_id time_from time_to width height.

End Download.

(** The server answered [url] with an image whose body is [body]. *)
Definition served_image (session_get : string -> option Response)
    (url : string) (body : list N) : Prop :=
  exists response,
    session_get url = Some response /\ status_code response = 200
    /\ contains "image" (content_type response) = true
    /\ content response = body.

End ChartDownloader.

(** ** The naive datetime of Python's standard library

    Only what the time-range code calls: construction with range checks,
    [replace], and subtraction of a [timedelta] of whole days and seconds,
    which goes through proleptic Gregorian ordinals as the library's
    reference implementation does. *)

Module PyDatetime.

Record datetime : Type := mkdatetime {
  year : Z; month : Z; day : Z;
  hour : Z; minute : Z; second : Z; microsecond : Z
}.

Definition MINYEAR : Z := 1.
Definition MAXYEAR : Z := 9999.
Definition MAXORDINAL : Z := 3652059.

Definition _is_leap (y : Z) : bool :=
  (y mod 4 =? 0) && (negb (y mod 100 =? 0) || (y mod 400 =? 0)).

(** [_DAYS_IN_MONTH], indexed from 1. *)
Definition _DAYS_IN_MONTH : list Z :=
  [-1; 31; 28; 31; 30; 31; 30; 31; 31; 30; 31; 30; 31].

(** [_DAYS_BEFORE_MONTH], indexed from 1. *)
Definition _DAYS_BEFORE_MONTH : list Z :=
  [-1; 0; 31; 59; 90; 120; 151; 181; 212; 243; 273; 304; 334].

Definition index (l : list Z) (i : Z) : Z := nth (Z.to_nat i) l 0.

Definition _days_in_month (y m : Z) : Z :=
  if (m =? 2) && _is_leap y then 29 else index _DAYS_IN_MONTH m.

Definition _days_before_year (y : Z) : Z :=
  let y1 := y - 1 in y1 * 365 + y1 / 4 - y1 / 100 + y1 / 400.

Definition _days_before_month (y m : Z) : Z :=
  index _DAYS_BEFORE_MONTH m + (if (m >? 2) && _is_leap y then 1 else 0).

Definition _ymd2ord (y m d : Z) : Z :=
  _days_before_year y + _days_before_month y m + d.

Definition _DI400Y : Z := 146097.
Definition _DI100Y : Z := 36524.
Definition _DI4Y : Z := 1461.

Definition _ord2ymd (n : Z) : Z * Z * Z :=
  let n := n - 1 in
  let n400 := n / _DI400Y in
  let n := n mod _DI400Y in
  let year := n400 * 400 + 1 in
  let n100 := n / _DI100Y in
  let n := n mod _DI100Y in
  let n4 := n / _DI4Y in
  let n := n mod _DI4Y in
  let n1 := n / 365 in
  let n := n mod 365 in
  let year := year + n100 * 100 + n4 * 4 + n1 in
  if (n1 =? 4) || (n100 =? 4) then (year - 1, 12, 31)
  else
    let leapyear := (n1 =? 3) && (negb (n4 =? 24) || (n100 =? 3)) in
    let month := Z.shiftr (n + 50) 5 in
    let preceding :=
      index _DAYS_BEFORE_MONTH month
      + (if (month >? 2) && leapyear then 1 else 0) in
    if preceding >? n then
      let month := month - 1 in
      let preceding :=
        preceding
        - (index _DAYS_IN_MONTH month
           + (if (month =? 2) && leapyear then 1 else 0)) in
      (year, month, n - preceding + 1)
    else (year, month, n - preceding + 1).

(** The checks of the constructor ([_check_date_fields] and
    [_check_time_fields]). *)
Definition valid (d : datetime) : bool :=
  (MINYEAR <=? year d) && (year d <=? MAXYEAR)
  && (1 <=? month d) && (month d <=? 12)
  && (1 <=? day d) && (day d <=? _days_in_month (year d) (month d))
  && (0 <=? hour d) && (hour d <=? 23)
  && (0 <=? minute d) && (minute d <=? 59)
  && (0 <=? second d) && (second d <=? 59)
  && (0 <=? microsecond d) && (microsecond d <=? 999999).

Definition make (y mo d h mi s us : Z) : result datetime :=
  let dt := mkdatetime y mo d h mi s us in
  if valid dt then Ok dt else Raise ValueError.

(** [dt.replace(day=1, hour=0, minute=0, second=0, microsecond=0)] *)
Definition replace_first_midnight (dt : datetime) : result datetime :=
  make (year dt) (month dt) 1 0 0 0 0.

Definition toordinal (dt : datetime) : Z :=
  _ymd2ord (year dt) (month dt) (day dt).

(** [dt - timedelta(days=days, seconds=seconds)]: the library adds the
    negated delta to the delta made of the ordinal and the time of
    day, normalises, and rebuilds the date from the ordinal. *)
Definition sub_timedelta (dt : datetime) (days seconds : Z)
  : result datetime :=
  let total :=
    toordinal dt * 86400 + hour dt * 3600 + minute dt * 60 + second dt
    - (days * 86400 + seconds) in
  let delta_days := total / 86400 in
  let delta_seconds := total mod 86400 in
  let h := delta_seconds / 3600 in
  let rem := delta_seconds mod 3600 in
  if (0 <? delta_days) && (delta_days <=? MAXORDINAL) then
    let '(y, m, d) := _ord2ymd delta_days in
    make y m d h (rem / 60) (rem mod 60) (microsecond dt)
  else Raise OverflowError.

End PyDatetime.

(** ** trend_analyzer.py: time ranges *)

Module TimeRange.
Import PyDatetime.

Section ConvertTimeRange.

(** [int(dt.timestamp())]: seconds since the epoch of a naive local
    datetime; it depends on the time zone of the host. *)
Variable int_timestamp : datetime -> Z.

(** [int(t)] on a string; [None] when it raises [ValueError]. *)
Variable py_int : string -> option Z.

(** [datetime.now()] *)
Variable now : datetime.

Definition now_ts : Z := int_timestamp now.

Definition parse_time (t : string) (is_to : bool) : result Z :=
  if String.eqb t "now" then Ok now_ts
  else if String.eqb t "now-30d" then Ok (now_ts - 30 * 24 * 3600)
  else if String.eqb t "now-1M/M" then
    let! first_of_current := replace_first_midnight now in
    if is_to then
      let! last_of_prev := sub_timedelta first_of_current 0 1 in
      Ok (int_timestamp last_of_prev)
    else
      let! prev_month := sub_timedelta first_of_current 1 0 in
      let! first_of_prev := replace_first_midnight prev_month in
      Ok (int_timestamp first_of_prev)
  else if String.eqb t "now/M" then
    let! first_of_month := replace_first_midnight now in
    Ok (int_timestamp first_of_month)
  else
    match py_int t with
    | Some n => Ok n
    | None => Raise ValueError
    end.

Definition _convert_time_range (time_from time_to : string)
  : result (Z * Z) :=
  let! from_ts := parse_time time_from false in
  let! to_ts := parse_time time_to true in
  Ok (from_ts, to_ts).

(** The resolver as the download loop uses it: the period of the
    dialog, then the conversion in [get_trends]. *)
Definition resolve (period_type : string) : result (Z * Z) :=
  let! range := ChartDownloader.calculate_time_range period_type in
  _convert_time_range (fst range) (snd range).

End ConvertTimeRange.

(** [int(dt.timestamp())] on a host whose local time is UTC; the
    ordinal of the epoch is 719163. *)
Definition utc_timestamp (d : datetime) : Z :=
  (toordinal d - 719163) * 86400 + hour d * 3600 + minute d * 60 + second d.

(** The calendar month before the month of a date, in the words of
    the specification: the pair of its year and its month number. *)
Definition month_before (y m : Z) : Z * Z :=
  if m =? 1 then (y - 1, 12) else (y, m - 1).

Definition first_instant_of (ym : Z * Z) : datetime :=
  mkdatetime (fst ym) (snd ym) 1 0 0 0 0.

Definition last_instant_of (ym : Z * Z) : datetime :=
  mkdatetime (fst ym) (snd ym) (_days_in_month (fst ym) (snd ym)) 23 59 59 0.

(** The day before the first of month [m] of year [y] is the last
    day of the month before. *)
Definition ends_month_before (y m : Z) : bool :=
  let ym := month_before y m in
  match _ord2ymd (_ymd2ord y m 1 - 1) with
  | (py, pm, pd) =>
      (py =? fst ym) && (pm =? snd ym)
      && (pd =? _days_in_month (fst ym) (snd ym))
  end.

End TimeRange.

(** ** trend_analyzer.py: statistics *)

Module TrendAnalyzer.

(** One trend row of the monitoring API after the numeric conversion:
    [clock] in whole seconds since the epoch, and the three values as
    parsed ([None] where a field does not parse as a number). *)
Record TrendPoint : Type := mkpoint {
  clock : Z;
  num : Z;
  value_min : option Q;
  value_avg : option Q;
  value_max : option Q
}.

(** *** Series (columns) *)

(** [pd.to_numeric(col, errors='coerce')]: the number in lowest
    terms, so that equal numbers are equal terms; NaN stays NaN. *)
Definition to_numeric (v : option Q) : option Q := option_map Qred v.

Fixpoint dropna (col : list (option Q)) : list Q :=
  match col with
  | [] => []
  | Some x :: t => x :: dropna t
  | None :: t => dropna t
  end.

Definition Qsum (xs : list Q) : Q := fold_right Qplus 0%Q xs.

Definition Qlen (xs : list Q) : Q := inject_Z (Z.of_nat (List.length xs)).

(** [col.mean()]: NaN values are skipped; NaN when nothing is left. *)
Definition mean (col : list (option Q)) : option Q :=
  match dropna col with
  | [] => None
  | xs => Some (Qred (Qsum xs / Qlen xs))
  end.

Definition Qmax' (x y : Q) : Q := if Qle_bool x y then y else x.
Definition Qmin' (x y : Q) : Q := if Qle_bool x y then x else y.

(** [col.max()] and [col.min()] *)
Definition col_max (col : list (option Q)) : option Q :=
  match dropna col with
  | [] => None
  | x :: xs => Some (fold_left Qmax' xs x)
  end.

Definition col_min (col : list (option Q)) : option Q :=
  match dropna col with
  | [] => None
  | x :: xs => Some (fold_left Qmin' xs x)
  end.

Fixpoint insert_asc (x : Q) (l : list Q) : list Q :=
  match l with
  | [] => [x]
  | y :: t => if Qle_bool x y then x :: l else y :: insert_asc x t
  end.

Definition sort_asc (xs : list Q) : list Q := fold_right insert_asc [] xs.

(** [col.quantile(q)] with the default linear interpolation: on the
    sorted values, position [(n - 1) * q], interpolated between the
    two neighbouring ranks. *)
Definition quantile (q : Q) (col : list (option Q)) : option Q :=
  match sort_asc (dropna col) with
  | [] => None
  | x :: xs =>
      let sorted := x :: xs in
      let n := List.length sorted in
      let h := (inject_Z (Z.of_nat (n - 1)) * q)%Q in
      let lo := Z.to_nat (Qfloor h) in
      let gamma := (h - inject_Z (Qfloor h))%Q in
      let a := nth lo sorted x in
      let b := nth (Nat.min (S lo) (n - 1)) sorted x in
      Some (Qred (a + (b - a) * gamma))
  end.

(** The sum of the squared deviations from the mean, over one less
    than the number of values. *)
Definition sample_variance (xs : list Q) : Q :=
  let m := (Qsum xs / Qlen xs)%Q in
  let sq := List.map (fun x => ((x - m) * (x - m))%Q) xs in
  (Qsum sq / (Qlen xs - 1))%Q.

(** Sample variance, [ddof = 1]: NaN for fewer than two values. *)
Definition variance (col : list (option Q)) : option Q :=
  match dropna col with
  | [] | [_] => None
  | xs => Some (sample_variance xs)
  end.

(** *** Rounding *)

(** Round to the nearest integer, halves to the even one ([rint]). *)
Definition round_half_even (x : Q) : Z :=
  let f := Qfloor x in
  match Qcompare (x - inject_Z f) (1 # 2) with
  | Lt => f
  | Gt => f + 1
  | Eq => if Z.even f then f else f + 1
  end.

(** [round(x, 2)] on a number. *)
Definition round2 (x : Q) : Q :=
  Qred (inject_Z (round_half_even (x * 100)) / 100).

(** [round(x, 2)] on a float that may be NaN. *)
Definition round2_opt (x : option Q) : option Q := option_map round2 x.

(** [round(sqrt(v), 2)] for [0 <= v], computed exactly.  With
    [s = floor (2 * sqrt (10000 * v))], the nearest integer to
    [100 * sqrt v] is [s / 2] when [s] is even and [s / 2 + 1] when
    [s] is odd, except that an exact half goes to the even one. *)
Definition round2_sqrt (v : Q) : Q :=
  let r4 := (v * 40000)%Q in
  let s := Z.sqrt (Qfloor r4) in
  let k :=
    if Z.even s then s / 2
    else if Qeq_bool (inject_Z (s * s)) r4 && Z.even (s / 2) then s / 2
    else s / 2 + 1 in
  Qred (inject_Z k / 100).

(** [round(col.std(), 2)] *)
Definition round2_std (col : list (option Q)) : option Q :=
  option_map round2_sqrt (variance col).

(** *** Timestamps *)

(** [pd.to_datetime(clock, unit='s')] keeps nanoseconds in 64 bits. *)
Definition in_bounds (c : Z) : bool :=
  (-9223372036 <=? c) && (c <=? 9223372036).

(** [.dt.hour] *)
Definition hour_of (c : Z) : Z := (c mod 86400) / 3600.

(** Day of the week with Monday = 0; the epoch was a Thursday. *)
Definition weekday_of (c : Z) : Z := (c / 86400 + 3) mod 7.

Definition day_names : list string :=
  ["Monday"; "Tuesday"; "Wednesday"; "Thursday"; "Friday"; "Saturday";
   "Sunday"]%string.

(** [.dt.day_name()] *)
Definition day_name_of (c : Z) : string :=
  nth (Z.to_nat (weekday_of c)) day_names ""%string.

Definition digit (n : Z) : ascii := ascii_of_nat (48 + Z.to_nat (n mod 10)).

(** [f'{n:02d}'] for [0 <= n < 100] *)
Definition fmt02 (n : Z) : string :=
  String (digit (n / 10)) (String (digit n) EmptyString).

(** [f'{n:04d}'] for [0 <= n < 10000] *)
Definition fmt04 (n : Z) : string :=
  String (digit (n / 1000)) (String (digit (n / 100)) (fmt02 n)).

(** [f'{h:02d}:00'] *)
Definition fmt_hour (h : Z) : string := (fmt02 h ++ ":00")%string.

(** [ts.strftime('%Y-%m-%d')] of the instant [c] seconds after the
    epoch, whose ordinal is 719163. *)
Definition strftime_ymd (c : Z) : string :=
  let '(y, m, d) := PyDatetime._ord2ymd (719163 + c / 86400) in
  (fmt04 y ++ "-" ++ fmt02 m ++ "-" ++ fmt02 d)%string.

(** *** groupby and nlargest *)

Section GroupBy.
Context {K : Type}.
Variable leb : K -> K -> bool.
Variable eqb : K -> K -> bool.

(** The distinct keys in ascending order, as [groupby] sorts them. *)
Fixpoint insert_key (k : K) (ks : list K) : list K :=
  match ks with
  | [] => [k]
  | k' :: t =>
      if eqb k k' then ks
      else if leb k k' then k :: ks
      else k' :: insert_key k t
  end.

Definition group_keys (keys : list K) : list K :=
  fold_right insert_key [] keys.

Definition group_values (rows : list (K * option Q)) (k : K)
  : list (option Q) :=
  List.map snd (List.filter (fun r => eqb (fst r) k) rows).

(** [df.groupby(key)[col].mean()]: a series indexed by the sorted
    distinct keys. *)
Definition groupby_mean (rows : list (K * option Q))
  : list (K * option Q) :=
  List.map (fun k => (k, mean (group_values rows k)))
           (group_keys (List.map fst rows)).

(** Stable descending sort of the entries that have a value. *)
Fixpoint insert_desc (e : K * Q) (l : list (K * Q)) : list (K * Q) :=
  match l with
  | [] => [e]
  | e' :: t =>
      if Qle_bool (snd e') (snd e) then e :: l
      else e' :: insert_desc e t
  end.

Definition sort_desc (l : list (K * Q)) : list (K * Q) :=
  fold_right insert_desc [] l.

Fixpoint with_value (s : list (K * option Q)) : list (K * Q) :=
  match s with
  | [] => []
  | (k, Some v) :: t => (k, v) :: with_value t
  | (_, None) :: t => with_value t
  end.

Fixpoint nan_index (s : list (K * option Q)) : list K :=
  match s with
  | [] => []
  | (_, Some _) :: t => nan_index t
  | (k, None) :: t => k :: nan_index t
  end.

(** [s.nlargest(n).index.tolist()]: the entries with a value by
    descending value, equal values in the order of the series, then
    the NaN entries; the first [n] labels. *)
Definition nlargest_index (n : nat) (s : list (K * option Q)) : list K :=
  firstn n (List.map fst (sort_desc (with_value s)) ++ nan_index s).

End GroupBy.

(** *** calculate_statistics *)

Record Stats : Type := mkstats {
  total_data_points : nat;
  avg_monthly : option Q;
  max_absolute : option Q;
  min_absolute : option Q;
  p95 : option Q;
  p99 : option Q;
  std_deviation : option Q;
  peak_hours : list string;
  peak_days : list string;
  period_start : string;
  period_end : string
}.

Definition clock_min (c : Z) (cs : list Z) : Z := fold_left Z.min cs c.
Definition clock_max (c : Z) (cs : list Z) : Z := fold_left Z.max cs c.

(** A numeric column of the data frame. *)
Definition column (field : TrendPoint -> option Q) (trends : list TrendPoint)
  : list (option Q) :=
  List.map (fun p => to_numeric (field p)) trends.

Definition hourly_avg (trends : list TrendPoint) : list (Z * option Q) :=
  groupby_mean Z.leb Z.eqb
    (List.map (fun p => (hour_of (clock p), to_numeric (value_avg p))) trends).

Definition daily_avg (trends : list TrendPoint) : list (string * option Q) :=
  groupby_mean String.leb String.eqb
    (List.map (fun p => (day_name_of (clock p), to_numeric (value_avg p)))
              trends).

(** The result is a dict: [None] is the empty dict of the early
    return, [Some s] the populated one. *)
Definition calculate_statistics (trends : list TrendPoint)
  : result (option Stats) :=
  match trends with
  | [] => Ok None
  | p :: ps =>
      if forallb (fun p => in_bounds (clock p)) trends then
        Ok (Some {|
          total_data_points := List.length trends;
          avg_monthly := round2_opt (mean (column value_avg trends));
          max_absolute := round2_opt (col_max (column value_max trends));
          min_absolute := round2_opt (col_min (column value_min trends));
          p95 := round2_opt (quantile (95 # 100) (column value_avg trends));
          p99 := round2_opt (quantile (99 # 100) (column value_avg trends));
          std_deviation := round2_std (column value_avg trends);
          peak_hours :=
            List.map fmt_hour (nlargest_index 3 (hourly_avg trends));
          peak_days := nlargest_index 3 (daily_avg trends);
          period_start :=
            strftime_ymd (clock_min (clock p) (List.map clock ps));
          period_end :=
            strftime_ymd (clock_max (clock p) (List.map clock ps))
        |})
      else Raise OutOfBoundsDatetime
  end.

(** *** Words of the specification *)


(** [x] is [exact] rounded to two decimals: a whole number of
    hundredths, at most half a hundredth away from [exact]. *)
Definition rounded_to_cents (exact x : Q) : Prop :=
  (exists k : Z, x == inject_Z k / 100)%Q /\ (Qabs (x - exact) <= 1 # 200)%Q.

(** [x] is the square root of [v] rounded to two decimals. *)
Definition sqrt_rounded_to_cents (v x : Q) : Prop :=
  (exists k : Z, x == inject_Z k / 100)%Q /\ (0 <= x)%Q
  /\ (v <= (x + (1 # 200)) * (x + (1 # 200)))%Q
  /\ (x == 0 \/ (x - (1 # 200)) * (x - (1 # 200)) <= v)%Q.

(** Two floats that are both NaN, or both numbers and related. *)
Definition both (R : Q -> Q -> Prop) (a b : option Q) : Prop :=
  match a, b with
  | Some x, Some y => R x y
  | None, None => True
  | _, _ => False
  end.







(** Alphabetical order of two names. *)
Definition name_lt (a b : string) : Prop := String.ltb a b = true.


(** A point whose three values parse and are ordered, and whose
    time stamp pandas can represent. *)
Definition well_formed (p : TrendPoint) : Prop :=
  in_bounds (clock p) = true
  /\ exists lo av hi : Q,
       value_min p = Some lo /\ value_avg p = Some av /\ value_max p = Some hi
       /\ (lo <= av)%Q /\ (av <= hi)%Q.

(** *** Sample series *)

(** Three hourly points whose mean, one third, has no exact
    two-decimal form. *)
Definition thirds : list TrendPoint :=
  [mkpoint 0 60 (Some 0%Q) (Some 0%Q) (Some 0%Q);
   mkpoint 3600 60 (Some 0%Q) (Some 0%Q) (Some 0%Q);
   mkpoint 7200 60 (Some 1%Q) (Some 1%Q) (Some 1%Q)].

(** Two points with the same average: Monday 5 January 1970 and
    Friday 2 January 1970, both at midnight. *)
Definition monday_friday : list TrendPoint :=
  [mkpoint 345600 60 (Some 5%Q) (Some 10%Q) (Some 15%Q);
   mkpoint 86400 60 (Some 5%Q) (Some 10%Q) (Some 15%Q)].

(** *** The month named in the prompt *)

Definition month_names : list string :=
  ["enero"; "febrero"; "marzo"; "abril"; "mayo"; "junio"; "julio"; "agosto";
   "septiembre"; "octubre"; "noviembre"; "diciembre"]%string.

Definition code (c : ascii) : Z := Z.of_nat (nat_of_ascii c).

Definition digit_between (lo hi : Z) (c : ascii) : bool :=
  (48 + lo <=? code c) && (code c <=? 48 + hi).

Definition digit_value (c : ascii) : Z := code c - 48.

Definition is_hyphen (c : ascii) : bool := code c =? 45.

(** [datetime.strptime(text, '%Y-%m-%d')] on a text of ASCII
    characters; [None] when it raises [ValueError].  The library matches
    the text against the pattern of the format: four digits, a hyphen,
    then the first that fits of [1[0-2]], [0[1-9]], [[1-9]], a hyphen,
    then the first that fits of [3[01]], [[12]\d], [0[1-9]], [[1-9]],
    a space and [[1-9]]; nothing may remain, and the date must exist. *)
Definition match_year (s : list ascii) : option (Z * list ascii) :=
  match s with
  | a :: b :: c :: d :: rest =>
      if digit_between 0 9 a && digit_between 0 9 b && digit_between 0 9 c
         && digit_between 0 9 d
      then Some (digit_value a * 1000 + digit_value b * 100
                 + digit_value c * 10 + digit_value d, rest)
      else None
  | _ => None
  end.

(** The month and the hyphen after it. *)
Definition match_month (s : list ascii) : option (Z * list ascii) :=
  match s with
  | a :: b :: rest =>
      match rest with
      | c :: rest' =>
          if (code a =? 49) && digit_between 0 2 b && is_hyphen c
          then Some (10 + digit_value b, rest')
          else if (code a =? 48) && digit_between 1 9 b && is_hyphen c
          then Some (digit_value b, rest')
          else if digit_between 1 9 a && is_hyphen b
          then Some (digit_value a, rest)
          else None
      | [] =>
          if digit_between 1 9 a && is_hyphen b
          then Some (digit_value a, rest)
          else None
      end
  | _ => None
  end.

Definition match_day (s : list ascii) : option (Z * list ascii) :=
  match s with
  | [] => None
  | a :: rest =>
      match rest with
      | b :: rest' =>
          if (code a =? 51) && digit_between 0 1 b
          then Some (30 + digit_value b, rest')
          else if digit_between 1 2 a && digit_between 0 9 b
          then Some (digit_value a * 10 + digit_value b, rest')
          else if (code a =? 48) && digit_between 1 9 b
          then Some (digit_value b, rest')
          else if digit_between 1 9 a
          then Some (digit_value a, rest)
          else if (code a =? 32) && digit_between 1 9 b
          then Some (digit_value b, rest')
          else None
      | [] =>
          if digit_between 1 9 a then Some (digit_value a, rest) else None
      end
  end.

Definition strptime_ymd (text : string) : option (Z * Z * Z) :=
  match match_year (list_ascii_of_string text) with
  | Some (y, s) =>
      match s with
      | h :: s =>
          if is_hyphen h then
            match match_month s with
            | Some (m, s) =>
                match match_day s with
                | Some (d, []) =>
                    if (PyDatetime.MINYEAR <=? y)
                       && (d <=? PyDatetime._days_in_month y m)
                    then Some (y, m, d)
                    else None
                | _ => None
                end
            | None => None
            end
          else None
      | [] => None
      end
  | None => None
  end.

(** The month that [get_ai_conclusion] names in the prompt: the
    month of [period_start], or a fixed phrase when that text does not
    parse as a date ([stats.get('period_start', '')] on the empty dict is
    the empty text). *)
Definition prompt_month_name (stats : option Stats) : string :=
  let text :=
    match stats with
    | Some s => period_start s
    | None => ""%string
    end in
  match strptime_ymd text with
  | Some (_, m, _) => nth (Z.to_nat (m - 1)) month_names ""%string
  | None => "el mes anterior"%string
  end.

(** *** The analysis of one item *)

(** [s.replace(old, new)] for one-character [old] and [new]. *)
Definition replace_char (old new : N) (s : ChartDownloader.pystr)
  : ChartDownloader.pystr :=
  List.map (fun c => if N.eqb c old then new else c) s.

(** The stem of the files of one item, as [save_csv] and
    [save_conclusion_txt] compute it:
    [f"{host_name}_{item_name}".replace(" ", "_").replace("/", "_")[:50]] *)
Definition safe_name (host_name item_name : ChartDownloader.pystr)
  : ChartDownloader.pystr :=
  firstn 50
    (replace_char 47 95
       (replace_char 32 95
          (host_name ++ [ChartDownloader.underscore] ++ item_name))).

(** [s.strip()]: white space off both ends. *)
Fixpoint lstrip_space (s : ChartDownloader.pystr) : ChartDownloader.pystr :=
  match s with
  | [] => []
  | c :: t => if ChartDownloader.is_space c then lstrip_space t else s
  end.

Definition strip_space (s : ChartDownloader.pystr) : ChartDownloader.pystr :=
  rev (lstrip_space (rev (lstrip_space s))).

(** The dict of [generate_summary_json]. *)
Record Summary : Type := mksummary {
  summary_item_name : ChartDownloader.pystr;
  summary_host : ChartDownloader.pystr;
  summary_period : ChartDownloader.pystr;
  summary_statistics : option Stats
}.

Definition generate_summary_json (item_name host_name : ChartDownloader.pystr)
    (stats : option Stats) (period : ChartDownloader.pystr) : Summary :=
  {| summary_item_name := item_name;
     summary_host := host_name;
     summary_period := period;
     summary_statistics := stats |}.

(** What the analysis does to the world outside, in the order in
    which it does it: a file that it sets out to write (the CSV file with
    its number of rows, header included; the text file with the
    conclusion), a request sent to the language model. *)
Inductive event : Type :=
| WriteCsv (path : ChartDownloader.pystr) (rows : nat)
| WriteConclusion (path : ChartDownloader.pystr)
                  (conclusion : ChartDownloader.pystr)
| AskModel (summary : Summary).

(** A call returns a value or raises; the events up to then stay. *)
Inductive outcome (A : Type) : Type :=
| Returned (a : A)
| Raised.

Arguments Returned {A} a.
Arguments Raised {A}.

(** The answer of the language model to a request: the text of the
    first choice, a failure that [get_ai_conclusion] catches (a failed
    request, a response without the expected keys), or one that it does
    not catch. *)
Inductive reply : Type :=
| Content (text : ChartDownloader.pystr)
| Caught
| Uncaught.

Section Analysis.

(** What the model takes from outside: the clock and the conversions
    of the time range, the trend API ([None] when the call raises), the
    language model, [os.path.join], and whether writing a file raises:
    for the CSV file, [open], a write, or [datetime.fromtimestamp] on a
    time stamp that the platform cannot convert; for the text file,
    [open] or a write. *)
Variable int_timestamp : PyDatetime.datetime -> Z.
Variable py_int : string -> option Z.
Variable now : PyDatetime.datetime.
Variable api_trend_get : string -> Z -> Z -> option (list TrendPoint).
Variable deepseek_api_key : option ChartDownloader.pystr.
Variable deepseek : Summary -> reply.
Variable path_join
  : ChartDownloader.pystr -> ChartDownloader.pystr -> ChartDownloader.pystr.
Variable csv_raises : ChartDownloader.pystr -> list TrendPoint -> bool.
Variable txt_raises
  : ChartDownloader.pystr -> ChartDownloader.pystr -> option Stats
    -> ChartDownloader.pystr -> ChartDownloader.pystr -> bool.

Definition get_trends (item_id time_from time_to : string)
  : outcome (list TrendPoint) :=
  match TimeRange._convert_time_range int_timestamp py_int now
          time_from time_to with
  | Raise _ => Raised
  | Ok (from_ts, to_ts) =>
      match api_trend_get item_id from_ts to_ts with
      | Some trends => Returned trends
      | None => Returned []
      end
  end.

(** The path returned (empty when there is nothing to save) and the
    events. *)
Definition save_csv (log : list event) (trends : list TrendPoint)
    (filepath item_name host_name : ChartDownloader.pystr)
  : outcome ChartDownloader.pystr * list event :=
  match trends with
  | [] => (Returned [], log)
  | _ =>
      let csv_path :=
        path_join filepath
          (safe_name host_name item_name
           ++ ChartDownloader.of_string "_trends.csv") in
      let log := log ++ [WriteCsv csv_path (S (List.length trends))] in
      if csv_raises csv_path trends then (Raised, log)
      else (Returned csv_path, log)
  end.

(** The truth value of an [Optional[str]]. *)
Definition nonempty (s : option ChartDownloader.pystr) : bool :=
  match s with
  | Some (_ :: _) => true
  | _ => false
  end.

Definition get_ai_conclusion (log : list event) (summary : Summary)
  : outcome (option ChartDownloader.pystr) * list event :=
  if negb (nonempty deepseek_api_key) then (Returned None, log)
  else
    let log := log ++ [AskModel summary] in
    match deepseek summary with
    | Content text => (Returned (Some (strip_space text)), log)
    | Caught => (Returned None, log)
    | Uncaught => (Raised, log)
    end.

Definition save_conclusion_txt (log : list event)
    (conclusion : ChartDownloader.pystr) (stats : option Stats)
    (item_name host_name output_dir : ChartDownloader.pystr)
  : outcome ChartDownloader.pystr * list event :=
  let txt_path :=
    path_join output_dir
      (safe_name host_name item_name
       ++ ChartDownloader.of_string "_conclusion.txt") in
  let log := log ++ [WriteConclusion txt_path conclusion] in
  if txt_raises txt_path conclusion stats item_name host_name
  then (Raised, log)
  else (Returned txt_path, log).

(** The statistics ([None] for the empty dict), the conclusion and
    the raw trends. *)
Definition analyze_item (log : list event) (item_id : string)
    (item_name host_name : ChartDownloader.pystr) (time_from time_to : string)
    (period_name output_dir : ChartDownloader.pystr)
  : outcome (option Stats * option ChartDownloader.pystr * list TrendPoint)
    * list event :=
  match get_trends item_id time_from time_to with
  | Raised => (Raised, log)
  | Returned [] => (Returned (None, None, []), log)
  | Returned trends =>
      match save_csv log trends output_dir item_name host_name with
      | (Raised, log) => (Raised, log)
      | (Returned csv_path, log) =>
          match calculate_statistics trends with
          | Raise _ => (Raised, log)
          | Ok stats =>
              let summary :=
                generate_summary_json item_name host_name stats period_name in
              match get_ai_conclusion log summary with
              | (Raised, log) => (Raised, log)
              | (Returned conclusion, log) =>
                  match conclusion with
                  | Some (c :: text) =>
                      match save_conclusion_txt log (c :: text) stats
                              item_name host_name output_dir with
                      | (Raised, log) => (Raised, log)
                      | (Returned _, log) =>
                          (Returned (stats, conclusion, trends), log)
                      end
                  | _ => (Returned (stats, conclusion, trends), log)
                  end
              end
          end
      end
  end.

End Analysis.

End TrendAnalyzer.

(** ** pdf_generator.py *)

Module PdfGenerator.
Import TrendAnalyzer.

(** One entry of [items_data]: the dict that [add_item_data] stores. *)
Record ItemData : Type := mkitem {
  host : string;
  item : string;
  trends : list TrendPoint;
  stats : option Stats;
  conclusion : option string
}.

(** The flowables that the report hands to the layout library.  The
    composite ones are named after the helper that builds them. *)
Inductive flowable : Type :=
| PageBreak
| Paragraph (text : string) (style : string)
| Spacer (width height : Z)
| Divider
| Table (data : list (list string))
| ItemTitle (title : string)
| Chart (points : list TrendPoint) (item_name : string)
| DataCards (cards : list (string * string))
| KeepTogether (content : list flowable).

(** The generator object.  [items_data] is the accumulating list. *)
Record Generator : Type := mkgen {
  output_dir : string;
  items_data : list ItemData;
  report_config : gmap string string;
  report_defaults : gmap string string;
  host_configs : gmap string (gmap string string);
  current_host : string
}.

(** The files that rendering has written, newest first. *)
Definition FileSystem : Type := list (string * list flowable).

Definition default_report_defaults : gmap string string :=
  list_to_map
    [("incidentes", "No se presentan incidentes de servicio.");
     ("riesgos", "No se registran riesgos del servicio durante el periodo.");
     ("alertas",
      "No se evidencian alertas que afecten la continuidad operativa.");
     ("dim_rendimiento", "Sin observaciones");
     ("dim_contingencia", "Sin observaciones");
     ("dim_soporte", "Sin observaciones");
     ("dim_actualizaciones", "Sin observaciones");
     ("dim_respaldos", "Sin observaciones")]%string.

(** [PDFReportGenerator(output_dir)] *)
Definition init (dir : string) : Generator :=
  {| output_dir := dir;
     items_data := [];
     report_config := ∅;
     report_defaults := default_report_defaults;
     host_configs := ∅;
     current_host := "" |}.

Definition set_report_config (g : Generator) (config : gmap string string)
    (defaults : option (gmap string string)) : Generator :=
  {| output_dir := output_dir g;
     items_data := items_data g;
     report_config := config;
     report_defaults :=
       match defaults with
       | Some d => if decide (d = ∅) then report_defaults g else d
       | None => report_defaults g
       end;
     host_configs := host_configs g;
     current_host := current_host g |}.

Definition set_host_configs (g : Generator)
    (configs : gmap string (gmap string string)) : Generator :=
  {| output_dir := output_dir g;
     items_data := items_data g;
     report_config := report_config g;
     report_defaults := report_defaults g;
     host_configs := configs;
     current_host := current_host g |}.

Definition add_item_data (g : Generator) (host_name item_name : string)
    (trends : list TrendPoint) (stats : option Stats)
    (conclusion : option string) : Generator :=
  {| output_dir := output_dir g;
     items_data :=
       items_data g ++ [mkitem host_name item_name trends stats conclusion];
     report_config := report_config g;
     report_defaults := report_defaults g;
     host_configs := host_configs g;
     current_host := current_host g |}.

Definition clear_data (g : Generator) : Generator :=
  {| output_dir := output_dir g;
     items_data := [];
     report_config := report_config g;
     report_defaults := report_defaults g;
     host_configs := host_configs g;
     current_host := current_host g |}.

Definition set_current_host (g : Generator) (h : string) : Generator :=
  {| output_dir := output_dir g;
     items_data := items_data g;
     report_config := report_config g;
     report_defaults := report_defaults g;
     host_configs := host_configs g;
     current_host := h |}.

(** The dict [hosts] of [generate_report]: keys in insertion order,
    each with the list of its entries. *)
Fixpoint hosts_append (h : string) (x : ItemData)
    (hosts : list (string * list ItemData)) : list (string * list ItemData) :=
  match hosts with
  | [] => [(h, [x])]
  | (h', xs) :: t =>
      if String.eqb h h' then (h', xs ++ [x]) :: t
      else (h', xs) :: hosts_append h x t
  end.

Definition group_by_host (items : list ItemData)
  : list (string * list ItemData) :=
  fold_left (fun hosts x => hosts_append (host x) x hosts) items [].

Definition nonblank (s : string) : bool := negb (String.eqb s "").



Section Report.

(** What the model takes from outside: string methods of the
    language, the text of a float, the date line written for the
    [i]-th host (each from its own reading of the clock), the time
    stamp of the file name, and whether drawing a chart or building
    the document raises. *)
Variable py_strip : string -> string.
Variable py_upper : string -> string.
Variable newlines_to_spaces : string -> string.
Variable str_of_float : option Q -> string.
Variable date_info : nat -> string.
Variable file_timestamp : string.
Variable path_join : string -> string -> string.
Variable chart_raises : list TrendPoint -> string -> bool.
Variable build_raises : string -> list flowable -> bool.

Definition _get_config_value (g : Generator) (key : string) : string :=
  let value := py_strip (default ""%string (report_config g !! key)) in
  if nonblank value then value
  else default ""%string (report_defaults g !! key).

Definition _get_host_config_value (g : Generator) (key : string) : string :=
  let host_config := default ∅ (host_configs g !! current_host g) in
  let value := py_strip (default ""%string (host_config !! key)) in
  if nonblank value then value
  else default ""%string (report_defaults g !! key).

Definition _create_operative_block (g : Generator) : list flowable :=
  [Paragraph
     ("A continuación, se presentan los principales tópicos operativos "
      ++ "del servicio, incluyendo incidentes, riesgos y alertas "
      ++ "relevantes del periodo.") "Analysis";
   Spacer 1 10;
   Paragraph ("<b>Incidentes del Servicio:</b> "
              ++ _get_host_config_value g "incidentes") "Analysis";
   Spacer 1 5;
   Paragraph ("<b>Riesgos del Servicio:</b> "
              ++ _get_host_config_value g "riesgos") "Analysis";
   Spacer 1 5;
   Paragraph ("<b>Incidentes de Alerta:</b> "
              ++ _get_host_config_value g "alertas") "Analysis";
   Spacer 1 15]%string.

Definition _create_severity_glossary : list flowable :=
  [Paragraph "<b>Glosario de Gravedad</b>" "ItemTitle";
   Spacer 1 10;
   Table [["Símbolo"; "Nivel"; "Descripción"];
          ["G"; "Grave"; "Requiere atención inmediata"];
          ["M"; "Medio"; "Requiere seguimiento"];
          ["B"; "Bajo"; "Informativo"]];
   Spacer 1 20]%string.

Definition _create_dimensions_table (g : Generator) : list flowable :=
  [Paragraph "<b>Tabla Resumen de Dimensiones</b>" "ItemTitle";
   Spacer 1 10;
   Table [["Dimensión"; "Estado"];
          ["Rendimiento"; _get_config_value g "dim_rendimiento"];
          ["Contingencia"; _get_config_value g "dim_contingencia"];
          ["Soporte"; _get_config_value g "dim_soporte"];
          ["Actualizaciones"; _get_config_value g "dim_actualizaciones"];
          ["Respaldos"; _get_config_value g "dim_respaldos"]];
   Spacer 1 20]%string.

Definition _create_uptime_section (g : Generator) : list flowable :=
  let get key := py_strip (default ""%string (report_config g !! key)) in
  let uptime_fecha := get "uptime_fecha"%string in
  let uptime_servidor := get "uptime_servidor"%string in
  let uptime_bd := get "uptime_bd"%string in
  if negb (nonblank uptime_fecha || nonblank uptime_servidor
           || nonblank uptime_bd)
  then []
  else
    [Paragraph "<b>Información de Uptime</b>" "ItemTitle";
     Spacer 1 10;
     Table ([["Métrica"; "Valor"]]
            ++ (if nonblank uptime_fecha
                then [["Fecha Último Inicio"; uptime_fecha]] else [])
            ++ (if nonblank uptime_servidor
                then [["Uptime Servidor"; uptime_servidor]] else [])
            ++ (if nonblank uptime_bd
                then [["Uptime BD"; uptime_bd]] else []));
     Spacer 1 20]%string.

Definition _create_data_cards (s : Stats) : flowable :=
  DataCards
    [("PROMEDIO", str_of_float (avg_monthly s) ++ "%");
     ("MÍNIMO", str_of_float (min_absolute s) ++ "%");
     ("MÁXIMO", str_of_float (max_absolute s) ++ "%");
     ("P95", str_of_float (p95 s) ++ "%")]%string.

(** The flowables that one entry adds to the story. *)
Definition item_flowables (x : ItemData) : list flowable :=
  let item_section :=
    [ItemTitle (py_upper (item x)); Spacer 1 10]
    ++ (match trends x with
        | [] => []
        | _ => if chart_raises (trends x) (item x) then []
               else [Chart (trends x) (item x); Spacer 1 10]
        end)
    ++ (match stats x with
        | Some s => [_create_data_cards s; Spacer 1 15]
        | None => []
        end) in
  (match conclusion x with
   | Some c =>
       if nonblank c then
         [KeepTogether item_section;
          Paragraph ("<b>Análisis:</b> "
                     ++ py_strip (newlines_to_spaces c)) "Analysis"]
       else [KeepTogether item_section]
   | None => [KeepTogether item_section]
   end)%string
  ++ [Spacer 1 25].

(** The body of the loop over the hosts, for the host at position
    [host_idx]; the generator has [current_host] set to it. *)
Definition host_flowables (g : Generator) (host_idx : nat)
    (host_name : string) (items : list ItemData) : list flowable :=
  (if (0 <? host_idx)%nat then [PageBreak] else [])
  ++ [Paragraph host_name "HostHeader"; Spacer 1 10; Divider; Spacer 1 20;
      Paragraph (date_info host_idx) "Analysis"; Spacer 1 15]%string
  ++ _create_operative_block g
  ++ _create_severity_glossary
  ++ _create_dimensions_table g
  ++ _create_uptime_section g
  ++ [Paragraph "<b>Ítems de Monitoreo</b>" "ItemTitle";
      Spacer 1 15]%string
  ++ flat_map item_flowables items.

(** The loop over [enumerate(hosts.items())]: the generator and
    the story after the hosts from position [host_idx] on. *)
Fixpoint hosts_loop (g : Generator) (host_idx : nat)
    (hosts : list (string * list ItemData)) (story : list flowable)
  : Generator * list flowable :=
  match hosts with
  | [] => (g, story)
  | (host_name, items) :: rest =>
      let g := set_current_host g host_name in
      hosts_loop g (S host_idx) rest
        (story ++ host_flowables g host_idx host_name items)
  end.

Definition build_story (g : Generator) : Generator * list flowable :=
  hosts_loop g 0%nat (group_by_host (items_data g)) [].

(** [generate_report]: the path returned (empty on failure), the
    generator and the file system afterwards. *)
Definition generate_report (g : Generator) (fs : FileSystem)
    (report_name : string) : string * Generator * FileSystem :=
  match items_data g with
  | [] => (""%string, g, fs)
  | _ =>
      let pdf_path :=
        path_join (output_dir g)
                  (report_name ++ "_" ++ file_timestamp ++ ".pdf")%string in
      let '(g, story) := build_story g in
      if build_raises pdf_path story then (""%string, g, fs)
      else (pdf_path, g, (pdf_path, story) :: fs)
  end.

End Report.

(** [generate_report] where no chart and no build raises, the string
    methods leave their argument as it is, and the clock stands still. *)
Definition generate_report_quiet
  : Generator -> FileSystem -> string -> string * Generator * FileSystem :=
  generate_report (fun s => s) (fun s => s) (fun s => s)
    (fun _ => "0.0"%string) (fun _ => "Reporte generado: 1 de enero de 2024"%string)
    "20240101_000000"%string
    (fun dir name => (dir ++ "/" ++ name)%string)
    (fun _ _ => false) (fun _ _ => false).

(** A generator that holds one entry, and one that holds three entries
    of two hosts. *)
Definition one_entry : Generator :=
  add_item_data (init "out") "db01" "CPU utilization"
    [mkpoint 0 1 (Some 10%Q) (Some 20%Q) (Some 30%Q)] None None.

Definition three_entries : Generator :=
  add_item_data
    (add_item_data one_entry "web01" "Memory utilization"
       [mkpoint 0 1 (Some 1%Q) (Some 2%Q) (Some 3%Q)] None (Some "ok"%string))
    "db01" "Disk space" [] None None.

(** *** The outline of a story *)

Inductive mark : Type :=
| Break
| HostSection (name : string)
| ItemSection (title : string).

(** What a flowable contributes to the outline of the story. *)
Definition mark_of (f : flowable) : list mark :=
  match f with
  | PageBreak => [Break]
  | Paragraph text style =>
      if String.eqb style "HostHeader" then [HostSection text] else []
  | KeepTogether (ItemTitle title :: _) => [ItemSection title]
  | _ => []
  end.

(** The page breaks, host headers and item titles of a story, in
    the order in which they occur. *)
Definition outline (story : list flowable) : list mark :=
  flat_map mark_of story.

Definition is_page_break (f : flowable) : bool :=
  match f with
  | PageBreak => true
  | _ => false
  end.

Definition page_breaks (story : list flowable) : nat :=
  List.length (List.filter is_page_break story).

(** The distinct host names in the order of their first occurrence. *)
Fixpoint first_seen (names : list string) : list string :=
  match names with
  | [] => []
  | h :: t => h :: List.filter (fun h' => negb (String.eqb h' h)) (first_seen t)
  end.

(** The entries of one host, in the order in which they were added. *)
Definition items_of_host (h : string) (items : list ItemData)
  : list ItemData :=
  List.filter (fun x => String.eqb (host x) h) items.

(** The partition of the entries that the specification describes:
    one group per host, hosts by first occurrence. *)
Definition partition_by_host (items : list ItemData)
  : list (string * list ItemData) :=
  List.map (fun h => (h, items_of_host h items))
           (first_seen (List.map host items)).

(** The outline that the specification describes for the groups from
    position [host_idx] on: every host section starts with its header,
    preceded by a page break unless it is the first one, and lists its
    items in order; [title] gives the title shown for an item name. *)
Fixpoint sections_outline (title : string -> string) (host_idx : nat)
    (groups : list (string * list ItemData)) : list mark :=
  match groups with
  | [] => []
  | (h, xs) :: rest =>
      (if (0 <? host_idx)%nat then [Break] else [])
      ++ HostSection h :: List.map (fun x => ItemSection (title (item x))) xs
      ++ sections_outline title (S host_idx) rest
  end.

End PdfGenerator.

(** * Properties *)

(** ** The file-name sanitizer *)

Section Sanitizer.
Import ChartDownloader.

Lemma clean_underscore : clean underscore.
Proof. split; reflexivity. Qed.

Lemma sub_class_valid s :
  Forall (fun c => is_invalid_char c = false) (sub_class is_invalid_char s).
Proof.
  unfold sub_class. induction s as [|c t IH]; simpl; constructor; auto.
  destruct (is_invalid_char c) eqn:E; [reflexivity | exact E].
Qed.

(** Replacing the runs of a class leaves underscores and the
    characters outside the class. *)
Lemma sub_runs_Forall (P : N -> Prop) p b s :
  P underscore ->
  (forall c, In c s -> p c = false -> P c) ->
  Forall P (sub_runs p b s).
Proof.
  intros Hu. revert b; induction s as [|c t IH]; intros b Hs; simpl.
  - constructor.
  - destruct (p c) eqn:E.
    + destruct b; [|constructor; [exact Hu|]];
        apply IH; intros; apply Hs; simpl; auto.
    + constructor; [apply Hs; simpl; auto|].
      apply IH; intros; apply Hs; simpl; auto.
Qed.

Lemma lstrip_split c s :
  exists k, s = repeat c k ++ lstrip c s.
Proof.
  induction s as [|x t [k IH]]; simpl.
  - exists 0%nat; reflexivity.
  - destruct (N.eqb_spec x c) as [->|Hne].
    + exists (S k); simpl; f_equal; exact IH.
    + exists 0%nat; reflexivity.
Qed.

Lemma lstrip_head c s t : lstrip c s <> c :: t.
Proof.
  induction s as [|x u IH]; simpl; [discriminate|].
  destruct (N.eqb_spec x c) as [->|Hne]; [exact IH|].
  intros H; injection H as H _; contradiction.
Qed.

Lemma rstrip_split c s :
  exists k, s = rstrip c s ++ repeat c k.
Proof.
  unfold rstrip. destruct (lstrip_split c (rev s)) as [k Hk].
  exists k. rewrite <- (rev_involutive s), Hk at 1.
  rewrite rev_app_distr, rev_repeat. reflexivity.
Qed.

Lemma rstrip_last c s t : rstrip c s <> t ++ [c].
Proof.
  unfold rstrip; intros H.
  apply (f_equal (@rev N)) in H.
  rewrite rev_involutive, rev_app_distr in H; simpl in H.
  exact (lstrip_head _ _ _ H).
Qed.

Lemma strip_head c s t : strip c s <> c :: t.
Proof.
  unfold strip; intros H.
  destruct (rstrip_split c (lstrip c s)) as [k Hk].
  rewrite H in Hk; simpl in Hk.
  exact (lstrip_head _ _ _ Hk).
Qed.

Lemma strip_incl c s : incl (strip c s) s.
Proof.
  unfold strip; intros x Hx.
  destruct (rstrip_split c (lstrip c s)) as [k Hk].
  destruct (lstrip_split c s) as [j Hj].
  rewrite Hj, Hk. apply in_or_app; right. apply in_or_app; left. exact Hx.
Qed.

Lemma strip_length c s : (List.length (strip c s) <= List.length s)%nat.
Proof.
  unfold strip.
  destruct (rstrip_split c (lstrip c s)) as [k Hk].
  destruct (lstrip_split c s) as [j Hj].
  rewrite Hj at 2. rewrite Hk at 2.
  rewrite !length_app. lia.
Qed.

Lemma firstn_incl (n : nat) (s : pystr) : incl (firstn n s) s.
Proof.
  intros x Hx. rewrite <- (firstn_skipn n s). apply in_or_app; left; exact Hx.
Qed.

Lemma sanitized_clean name c :
  In c (_sanitize_filename name) -> clean c.
Proof.
  unfold _sanitize_filename; intros Hc.
  apply strip_incl in Hc. apply firstn_incl in Hc.
  revert c Hc. apply List.Forall_forall.
  apply sub_runs_Forall; [exact clean_underscore|].
  intros c Hc _. revert c Hc. apply List.Forall_forall.
  apply sub_runs_Forall; [exact clean_underscore|].
  intros c Hc Hsp. split; [|exact Hsp].
  exact (proj1 (List.Forall_forall _ _) (sub_class_valid name) c Hc).
Qed.

(** C10.  For every input string, the sanitized file name has at most
    100 characters, contains none of the characters less-than,
    greater-than, colon, double quote, slash, backslash, bar, question
    mark and star, contains no white-space character, and neither
    starts nor ends with an underscore. *)
Theorem sanitize_filename_safe (name : pystr) :
  let safe := _sanitize_filename name in
  (List.length safe <= 100)%nat
  /\ (forall c, In c safe -> ~ In c invalid_chars /\ is_space c = false)
  /\ (forall t, safe <> underscore :: t)
  /\ (forall t, safe <> t ++ [underscore]).
Proof.
  cbv zeta. split; [|split; [|split]].
  - unfold _sanitize_filename.
    etransitivity; [apply strip_length|]. apply firstn_le_length.
  - intros c Hc. destruct (sanitized_clean _ _ Hc) as [Hi Hs].
    split; [|exact Hs].
    intros Hin. unfold is_invalid_char in Hi.
    assert (existsb (N.eqb c) invalid_chars = true) as E.
    { apply List.existsb_exists. exists c. split; [exact Hin|apply N.eqb_refl]. }
    congruence.
  - intros t. apply strip_head.
  - intros t. apply rstrip_last.
Qed.
End Sanitizer.

(** ** The previous calendar month *)

Section PreviousMonth.
Import PyDatetime TimeRange.

(** *** The cycle of 400 years *)

Lemma is_leap_cycle (y q : Z) : _is_leap (y + 400 * q) = _is_leap y.
Proof.
  unfold _is_leap.
  replace (y + 400 * q) with (y + (100 * q) * 4) at 1 by lia.
  replace (y + 400 * q) with (y + (4 * q) * 100) at 1 by lia.
  replace (y + 400 * q) with (y + q * 400) by lia.
  rewrite !Z.mod_add by lia. reflexivity.
Qed.

Lemma days_before_year_cycle (y q : Z) :
  _days_before_year (y + 400 * q) = _days_before_year y + 146097 * q.
Proof.
  unfold _days_before_year. cbv zeta.
  replace (y + 400 * q - 1) with (y - 1 + (100 * q) * 4) at 2 by lia.
  replace (y + 400 * q - 1) with (y - 1 + (4 * q) * 100) at 2 by lia.
  replace (y + 400 * q - 1) with (y - 1 + q * 400) at 2 by lia.
  rewrite !Z.div_add by lia. lia.
Qed.

Lemma ymd2ord_cycle (y q m d : Z) :
  _ymd2ord (y + 400 * q) m d = _ymd2ord y m d + 146097 * q.
Proof.
  unfold _ymd2ord, _days_before_month.
  rewrite days_before_year_cycle, is_leap_cycle. lia.
Qed.

Lemma days_in_month_cycle (y q m : Z) :
  _days_in_month (y + 400 * q) m = _days_in_month y m.
Proof. unfold _days_in_month. rewrite is_leap_cycle. reflexivity. Qed.

Lemma ord2ymd_cycle (n q : Z) :
  _ord2ymd (n + 146097 * q)
  = (fst (fst (_ord2ymd n)) + 400 * q, snd (fst (_ord2ymd n)),
     snd (_ord2ymd n)).
Proof.
  unfold _ord2ymd. cbv zeta.
  replace (n + 146097 * q - 1) with (n - 1 + q * _DI400Y)
    by (unfold _DI400Y; lia).
  rewrite Z.div_add, Z.mod_add by (unfold _DI400Y; lia).
  set (r := (n - 1) mod _DI400Y).
  set (n400 := (n - 1) / _DI400Y).
  repeat match goal with
         | |- context [if ?b then _ else _] => destruct b
         end; cbn [fst snd]; f_equal; try f_equal; lia.
Qed.

Lemma month_before_cycle (y q m : Z) :
  month_before (y + 400 * q) m
  = (fst (month_before y m) + 400 * q, snd (month_before y m)).
Proof.
  unfold month_before. destruct (m =? 1); cbn [fst snd]; f_equal; lia.
Qed.

Lemma ends_month_before_cycle (y q m : Z) :
  ends_month_before (y + 400 * q) m = ends_month_before y m.
Proof.
  unfold ends_month_before. cbv zeta.
  rewrite ymd2ord_cycle.
  replace (_ymd2ord y m 1 + 146097 * q - 1)
    with (_ymd2ord y m 1 - 1 + 146097 * q) by lia.
  rewrite ord2ymd_cycle, month_before_cycle. cbn [fst snd].
  rewrite days_in_month_cycle.
  destruct (_ord2ymd (_ymd2ord y m 1 - 1)) as [[py pm] pd]. cbn [fst snd].
  f_equal. f_equal.
  destruct (Z.eqb_spec py (fst (month_before y m)));
    destruct (Z.eqb_spec (py + 400 * q) (fst (month_before y m) + 400 * q));
    try reflexivity; lia.
Qed.

(** One cycle, checked month by month: the years 2 to 401, and the
    first year but for its first month. *)
Lemma cycle_checked :
  forallb (fun ij => ends_month_before (2 + Z.of_nat (fst ij))
                                       (Z.of_nat (snd ij)))
          (list_prod (seq 0 400) (seq 1 12)) = true.
Proof. vm_compute. reflexivity. Qed.

Lemma first_year_checked :
  forallb (fun j => ends_month_before 1 (Z.of_nat j)) (seq 2 11) = true.
Proof. vm_compute. reflexivity. Qed.

Lemma cycle_month_checked (i j : nat) :
  In i (seq 0 400) -> In j (seq 1 12) ->
  ends_month_before (2 + Z.of_nat i) (Z.of_nat j) = true.
Proof.
  intros Hi Hj.
  exact (proj1 (List.forallb_forall
                  (fun ij => ends_month_before (2 + Z.of_nat (fst ij))
                                               (Z.of_nat (snd ij)))
                  (list_prod (seq 0 400) (seq 1 12)))
               cycle_checked (i, j) (in_prod _ _ _ _ Hi Hj)).
Qed.

Lemma first_year_month_checked (j : nat) :
  In j (seq 2 11) -> ends_month_before 1 (Z.of_nat j) = true.
Proof.
  exact (proj1 (List.forallb_forall
                  (fun j => ends_month_before 1 (Z.of_nat j)) (seq 2 11))
               first_year_checked j).
Qed.

Lemma ends_month_before_always (y m : Z) :
  1 <= y -> 1 <= m <= 12 -> (y, m) <> (1, 1) ->
  ends_month_before y m = true.
Proof.
  intros Hy Hm Hne.
  destruct (Z.eq_dec y 1) as [->|Hy1].
  - assert (m <> 1) by congruence.
    assert (In (Z.to_nat m) (seq 2 11)) as Hin by (apply in_seq; lia).
    pose proof (first_year_month_checked _ Hin) as H1.
    replace (Z.of_nat (Z.to_nat m)) with m in H1 by lia.
    exact H1.
  - pose proof (Z.div_mod (y - 2) 400 ltac:(lia)) as Hdm.
    pose proof (Z.mod_pos_bound (y - 2) 400 ltac:(lia)) as Hb.
    assert (In (Z.to_nat m) (seq 1 12)) as Hinm by (apply in_seq; lia).
    assert (In (Z.to_nat ((y - 2) mod 400)) (seq 0 400)) as Hini
      by (apply in_seq; lia).
    pose proof (cycle_month_checked _ _ Hini Hinm) as H2.
    replace (Z.of_nat (Z.to_nat ((y - 2) mod 400))) with ((y - 2) mod 400)
      in H2 by lia.
    replace (Z.of_nat (Z.to_nat m)) with m in H2 by lia.
    rewrite <- (ends_month_before_cycle _ ((y - 2) / 400)) in H2.
    replace (2 + (y - 2) mod 400 + 400 * ((y - 2) / 400)) with y in H2 by lia.
    exact H2.
Qed.

(** *** Ranges *)

Lemma month_cases (m : Z) :
  1 <= m <= 12 ->
  m = 1 \/ m = 2 \/ m = 3 \/ m = 4 \/ m = 5 \/ m = 6 \/ m = 7 \/ m = 8
  \/ m = 9 \/ m = 10 \/ m = 11 \/ m = 12.
Proof. lia. Qed.

Lemma days_in_month_range (y m : Z) :
  1 <= m <= 12 -> 28 <= _days_in_month y m <= 31.
Proof.
  intros Hm. unfold _days_in_month.
  destruct (month_cases m Hm) as [H|H]; repeat (destruct H as [H|H]);
    subst m; destruct (_is_leap y); vm_compute; split; discriminate.
Qed.

Lemma days_before_month_range (y m : Z) :
  1 <= m <= 12 ->
  0 <= _days_before_month y m <= 335
  /\ (m <> 1 -> 31 <= _days_before_month y m).
Proof.
  intros Hm. unfold _days_before_month.
  destruct (month_cases m Hm) as [H|H]; repeat (destruct H as [H|H]);
    subst m; destruct (_is_leap y); vm_compute;
    (split; [split; discriminate|]);
    first [intros _; discriminate | intros H; exfalso; apply H; reflexivity].
Qed.

Lemma days_before_year_range (y : Z) :
  MINYEAR <= y <= MAXYEAR ->
  0 <= _days_before_year y <= 3651695
  /\ (y <> 1 -> 365 <= _days_before_year y).
Proof.
  unfold MINYEAR, MAXYEAR, _days_before_year. cbv zeta. intros Hy.
  Z.div_mod_to_equations. lia.
Qed.

Lemma valid_fields (d : datetime) :
  valid d = true ->
  MINYEAR <= year d <= MAXYEAR /\ 1 <= month d <= 12
  /\ 1 <= day d <= _days_in_month (year d) (month d).
Proof.
  unfold valid. intros H.
  repeat (apply andb_prop in H; destruct H as [H ?]).
  lia.
Qed.

Lemma valid_intro (y m d h mi s us : Z) :
  MINYEAR <= y <= MAXYEAR -> 1 <= m <= 12 -> 1 <= d <= _days_in_month y m ->
  0 <= h <= 23 -> 0 <= mi <= 59 -> 0 <= s <= 59 -> 0 <= us <= 999999 ->
  valid (mkdatetime y m d h mi s us) = true.
Proof.
  intros. unfold valid. cbn [year month day hour minute second microsecond].
  repeat (apply andb_true_intro; split); lia.
Qed.

Lemma month_before_range (y m : Z) :
  MINYEAR <= y <= MAXYEAR -> 1 <= m <= 12 -> (y, m) <> (1, 1) ->
  MINYEAR <= fst (month_before y m) <= MAXYEAR
  /\ 1 <= snd (month_before y m) <= 12.
Proof.
  unfold MINYEAR, MAXYEAR, month_before. intros Hy Hm Hne.
  destruct (Z.eqb_spec m 1) as [->|Hm1]; cbn [fst snd]; [|lia].
  assert (y <> 1) by congruence. lia.
Qed.

Lemma ends_month_before_eq (y m : Z) :
  ends_month_before y m = true ->
  _ord2ymd (_ymd2ord y m 1 - 1)
  = (fst (month_before y m), snd (month_before y m),
     _days_in_month (fst (month_before y m)) (snd (month_before y m))).
Proof.
  unfold ends_month_before. cbv zeta.
  destruct (_ord2ymd (_ymd2ord y m 1 - 1)) as [[py pm] pd].
  intros H.
  apply andb_prop in H; destruct H as [H Epd].
  apply andb_prop in H; destruct H as [Epy Epm].
  apply Z.eqb_eq in Epy, Epm, Epd. congruence.
Qed.

(** The day before the first of a month has an ordinal in range, and
    it is the last day of the month before, which the constructor
    accepts. *)
Lemma day_before_first (y m : Z) :
  MINYEAR <= y <= MAXYEAR -> 1 <= m <= 12 -> (y, m) <> (1, 1) ->
  0 < _ymd2ord y m 1 - 1 <= MAXORDINAL
  /\ valid (first_instant_of (month_before y m)) = true
  /\ (forall h mi s, 0 <= h <= 23 -> 0 <= mi <= 59 -> 0 <= s <= 59 ->
      valid (mkdatetime (fst (month_before y m)) (snd (month_before y m))
               (_days_in_month (fst (month_before y m))
                               (snd (month_before y m))) h mi s 0) = true)
  /\ _ord2ymd (_ymd2ord y m 1 - 1)
     = (fst (month_before y m), snd (month_before y m),
        _days_in_month (fst (month_before y m)) (snd (month_before y m))).
Proof.
  intros Hy Hm Hne.
  destruct (month_before_range y m Hy Hm Hne) as [Hpy Hpm].
  pose proof (days_in_month_range (fst (month_before y m)) _ Hpm) as Hdim.
  destruct (days_before_year_range y Hy) as [Hdby Hdby1].
  destruct (days_before_month_range y m Hm) as [Hdbm Hdbm1].
  assert (y <> 1 \/ m <> 1) as Hor.
  { destruct (Z.eq_dec y 1) as [->|]; [right; congruence|left; assumption]. }
  split; [unfold _ymd2ord, MAXORDINAL; lia|].
  split; [unfold first_instant_of; apply valid_intro; lia|].
  split; [intros h mi s Hh Hmi Hs; apply valid_intro; lia|].
  apply ends_month_before_eq, ends_month_before_always;
    unfold MINYEAR in Hy; [lia|exact Hm|exact Hne].
Qed.

Lemma replace_first_midnight_ok (d : datetime) :
  valid d = true ->
  replace_first_midnight d = Ok (mkdatetime (year d) (month d) 1 0 0 0 0).
Proof.
  intros H. destruct (valid_fields d H) as (Hy & Hm & Hd).
  unfold replace_first_midnight, make.
  rewrite valid_intro; [reflexivity| | | | | | |]; lia.
Qed.

(** Subtracting a duration from a datetime whose seconds since the
    first day of the calendar, less the duration, are [r] seconds
    into the day of ordinal [q]. *)
Lemma sub_timedelta_eq (dt : datetime) (days seconds q r : Z) :
  toordinal dt * 86400 + hour dt * 3600 + minute dt * 60 + second dt
  - (days * 86400 + seconds) = q * 86400 + r ->
  0 <= r < 86400 -> 0 < q <= MAXORDINAL ->
  sub_timedelta dt days seconds
  = (let '(y, m, d) := _ord2ymd q in
     make y m d (r / 3600) (r mod 3600 / 60) (r mod 3600 mod 60)
          (microsecond dt)).
Proof.
  intros H Hr Hq. unfold sub_timedelta. cbv zeta. rewrite H.
  assert ((q * 86400 + r) / 86400 = q) as Ed
    by (rewrite Z.add_comm, Z.div_add by lia; rewrite Z.div_small; lia).
  assert ((q * 86400 + r) mod 86400 = r) as Em
    by (rewrite Z.add_comm, Z.mod_add by lia; apply Z.mod_small; lia).
  rewrite Ed, Em.
  rewrite (proj2 (Z.ltb_lt 0 q)) by lia.
  rewrite (proj2 (Z.leb_le q MAXORDINAL)) by lia.
  reflexivity.
Qed.

(** One day before the first midnight of a month is midnight of the
    last day of the month before. *)
Lemma day_before_first_midnight (y m : Z) :
  MINYEAR <= y <= MAXYEAR -> 1 <= m <= 12 -> (y, m) <> (1, 1) ->
  sub_timedelta (mkdatetime y m 1 0 0 0 0) 1 0
  = Ok (mkdatetime (fst (month_before y m)) (snd (month_before y m))
          (_days_in_month (fst (month_before y m))
                          (snd (month_before y m))) 0 0 0 0).
Proof.
  intros Hy Hm Hne.
  destruct (day_before_first y m Hy Hm Hne) as (Hord & _ & Hlast & Hymd).
  rewrite (sub_timedelta_eq _ 1 0 (_ymd2ord y m 1 - 1) 0);
    [| unfold toordinal; cbn [year month day hour minute second]; lia
     | lia | exact Hord].
  rewrite Hymd. cbn [microsecond].
  change (0 / 3600) with 0. change (0 mod 3600) with 0.
  change (0 / 60) with 0. change (0 mod 60) with 0.
  unfold make. rewrite Hlast by lia. reflexivity.
Qed.

(** One second before the first midnight of a month is the last
    second of the month before. *)
Lemma second_before_first_midnight (y m : Z) :
  MINYEAR <= y <= MAXYEAR -> 1 <= m <= 12 -> (y, m) <> (1, 1) ->
  sub_timedelta (mkdatetime y m 1 0 0 0 0) 0 1
  = Ok (last_instant_of (month_before y m)).
Proof.
  intros Hy Hm Hne.
  destruct (day_before_first y m Hy Hm Hne) as (Hord & _ & Hlast & Hymd).
  rewrite (sub_timedelta_eq _ 0 1 (_ymd2ord y m 1 - 1) 86399);
    [| unfold toordinal; cbn [year month day hour minute second]; lia
     | lia | exact Hord].
  rewrite Hymd. cbn [microsecond].
  change (86399 / 3600) with 23. change (86399 mod 3600) with 3599.
  change (3599 / 60) with 59. change (3599 mod 60) with 59.
  unfold make. rewrite Hlast by lia. reflexivity.
Qed.

Section Resolve.
Variable int_timestamp : datetime -> Z.
Variable py_int : string -> option Z.
Variable now : datetime.
Hypothesis now_valid : valid now = true.
Hypothesis has_month_before : (year now, month now) <> (1, 1).

Lemma first_of_prev_month :
  parse_time int_timestamp py_int now "now-1M/M" false
  = Ok (int_timestamp
          (first_instant_of (month_before (year now) (month now)))).
Proof.
  destruct (valid_fields now now_valid) as (Hy & Hm & _).
  destruct (day_before_first _ _ Hy Hm has_month_before)
    as (_ & Hfirst & _ & _).
  unfold parse_time.
  change (String.eqb "now-1M/M" "now") with false.
  change (String.eqb "now-1M/M" "now-30d") with false.
  change (String.eqb "now-1M/M" "now-1M/M") with true.
  cbv iota. rewrite (replace_first_midnight_ok now now_valid).
  unfold bind at 1.
  rewrite (day_before_first_midnight _ _ Hy Hm has_month_before).
  unfold bind at 1. unfold replace_first_midnight, make.
  cbn [year month]. unfold first_instant_of in Hfirst |- *.
  rewrite Hfirst. reflexivity.
Qed.

Lemma last_of_prev_month :
  parse_time int_timestamp py_int now "now-1M/M" true
  = Ok (int_timestamp
          (last_instant_of (month_before (year now) (month now)))).
Proof.
  destruct (valid_fields now now_valid) as (Hy & Hm & _).
  unfold parse_time.
  change (String.eqb "now-1M/M" "now") with false.
  change (String.eqb "now-1M/M" "now-30d") with false.
  change (String.eqb "now-1M/M" "now-1M/M") with true.
  cbv iota. rewrite (replace_first_midnight_ok now now_valid).
  unfold bind at 1.
  rewrite (second_before_first_midnight _ _ Hy Hm has_month_before).
  reflexivity.
Qed.
End Resolve.

(** C2.  Whatever the instant [now] of the call (any valid datetime
    but one in the very first month of the calendar, which has no
    month before it), resolving [previous_month] gives the time stamps
    of the first instant and of the last instant (the last second) of
    the calendar month before the month of [now]; the day of the month
    of [now] plays no part. *)
Theorem previous_month_is_complete_prior_month
    (int_timestamp : datetime -> Z) (py_int : string -> option Z)
    (now : datetime) :
  valid now = true ->
  (year now, month now) <> (1, 1) ->
  resolve int_timestamp py_int now "previous_month"
  = Ok (int_timestamp
          (first_instant_of (month_before (year now) (month now))),
        int_timestamp
          (last_instant_of (month_before (year now) (month now)))).
Proof.
  intros Hv Hne. unfold resolve.
  change (ChartDownloader.calculate_time_range "previous_month")
    with (Ok ("now-1M/M", "now-1M/M")%string).
  unfold bind at 1. cbn [fst snd]. unfold _convert_time_range.
  rewrite (first_of_prev_month _ _ _ Hv Hne).
  rewrite (last_of_prev_month _ _ _ Hv Hne).
  reflexivity.
Qed.

Lemma previous_month_is_complete_prior_month_witness :
  resolve utc_timestamp (fun _ => None) (mkdatetime 2024 3 31 13 45 10 250)
          "previous_month"
  = Ok (utc_timestamp (mkdatetime 2024 2 1 0 0 0 0),
        utc_timestamp (mkdatetime 2024 2 29 23 59 59 0)).
Proof.
  apply (previous_month_is_complete_prior_month
           utc_timestamp (fun _ => None)
           (mkdatetime 2024 3 31 13 45 10 250)).
  - reflexivity.
  - discriminate.
Defined.
End PreviousMonth.

(** ** The report aggregator *)

Section ReportAggregator.
Import TrendAnalyzer PdfGenerator.

(** *** Grouping by host *)

Lemma first_seen_In (h : string) (names : list string) :
  In h (first_seen names) <-> In h names.
Proof.
  induction names as [|a t IH]; simpl; [tauto|].
  rewrite List.filter_In, IH.
  destruct (String.eqb_spec h a) as [->|Hne]; simpl; split; intros H.
  - left; reflexivity.
  - left; reflexivity.
  - destruct H as [H|[H _]]; [left; exact H | right; exact H].
  - destruct H as [H|H]; [left; exact H | right; split; [exact H|reflexivity]].
Qed.

Lemma filter_snoc {A : Type} (f : A -> bool) (l : list A) (x : A) :
  List.filter f (l ++ [x]) = List.filter f l ++ (if f x then [x] else []).
Proof. rewrite List.filter_app. reflexivity. Qed.

(** A name seen before changes nothing; a new one comes last. *)
Lemma first_seen_snoc (names : list string) (h : string) :
  first_seen (names ++ [h])
  = if existsb (String.eqb h) names then first_seen names
    else first_seen names ++ [h].
Proof.
  induction names as [|a t IH]; simpl; [reflexivity|].
  rewrite IH. destruct (String.eqb_spec h a) as [->|Hne]; simpl.
  - destruct (existsb (String.eqb a) t); [reflexivity|].
    rewrite filter_snoc, String.eqb_refl. simpl. rewrite app_nil_r. reflexivity.
  - destruct (existsb (String.eqb h) t); [reflexivity|].
    rewrite filter_snoc.
    destruct (String.eqb_spec h a) as [->|_]; [contradiction|reflexivity].
Qed.

Lemma hosts_append_new (h : string) (x : ItemData)
    (hosts : list (string * list ItemData)) :
  existsb (String.eqb h) (List.map fst hosts) = false ->
  hosts_append h x hosts = hosts ++ [(h, [x])].
Proof.
  induction hosts as [|[h' xs] t IH]; simpl; [reflexivity|].
  intros H. apply orb_false_elim in H. destruct H as [Hh Ht].
  rewrite Hh, (IH Ht). reflexivity.
Qed.

Lemma items_of_host_snoc (h : string) (items : list ItemData) (x : ItemData) :
  items_of_host h (items ++ [x])
  = items_of_host h items ++ (if String.eqb (host x) h then [x] else []).
Proof. unfold items_of_host. rewrite List.filter_app. reflexivity. Qed.

(** Appending to the group of a host that is present, in a dict whose
    groups are the entries of the hosts of [names]. *)
Lemma hosts_append_old (x : ItemData) (items : list ItemData)
    (names : list string) :
  List.NoDup names -> In (host x) names ->
  hosts_append (host x) x
    (List.map (fun h => (h, items_of_host h items)) names)
  = List.map (fun h => (h, items_of_host h (items ++ [x]))) names.
Proof.
  induction names as [|a t IH]; simpl; [tauto|].
  intros Hnd Hin. inversion Hnd as [|? ? Hnotin Hnd']; subst.
  rewrite (items_of_host_snoc a).
  destruct (String.eqb_spec (host x) a) as [E|Hne].
  - f_equal. apply map_ext_in. intros h Hh.
    rewrite items_of_host_snoc.
    destruct (String.eqb_spec (host x) h) as [E'|_].
    + exfalso. apply Hnotin. rewrite <- E, E'. exact Hh.
    + rewrite app_nil_r. reflexivity.
  - rewrite app_nil_r. f_equal. apply IH; [exact Hnd'|].
    destruct Hin as [Hin|Hin]; [congruence|exact Hin].
Qed.

Lemma items_of_host_absent (h : string) (items : list ItemData) :
  ~ In h (List.map host items) -> items_of_host h items = [].
Proof.
  induction items as [|x t IH]; simpl; [reflexivity|].
  intros H. destruct (String.eqb_spec (host x) h) as [E|_].
  - exfalso; apply H; left; exact E.
  - apply IH. intros Hin; apply H; right; exact Hin.
Qed.

Lemma first_seen_NoDup (names : list string) : List.NoDup (first_seen names).
Proof.
  induction names as [|a t IH]; simpl; constructor.
  - rewrite List.filter_In, String.eqb_refl. simpl. intros [_ H]; discriminate.
  - apply List.NoDup_filter. exact IH.
Qed.

Lemma existsb_eqb_In (h : string) (names : list string) :
  existsb (String.eqb h) names = true <-> In h names.
Proof.
  rewrite List.existsb_exists. split.
  - intros (y & Hy & E). apply String.eqb_eq in E. subst; exact Hy.
  - intros H. exists h. split; [exact H|apply String.eqb_refl].
Qed.

Lemma group_by_host_snoc (items : list ItemData) (x : ItemData) :
  group_by_host (items ++ [x])
  = hosts_append (host x) x (group_by_host items).
Proof. unfold group_by_host. rewrite fold_left_app. reflexivity. Qed.

(** The dict of the hosts is the partition by host, hosts in the
    order of their first occurrence and entries in the order added. *)
Lemma group_by_host_partition (items : list ItemData) :
  group_by_host items = partition_by_host items.
Proof.
  induction items as [|x items IH] using rev_ind; [reflexivity|].
  rewrite group_by_host_snoc, IH. unfold partition_by_host.
  rewrite List.map_app. simpl List.map. rewrite first_seen_snoc.
  destruct (existsb (String.eqb (host x)) (List.map host items)) eqn:E.
  - apply hosts_append_old; [apply first_seen_NoDup|].
    apply first_seen_In, existsb_eqb_In, E.
  - assert (~ In (host x) (List.map host items)) as Hnew.
    { intros Hin. apply existsb_eqb_In in Hin. congruence. }
    rewrite hosts_append_new.
    + rewrite List.map_app. simpl. f_equal.
      * apply map_ext_in. intros h Hh. f_equal.
        rewrite items_of_host_snoc.
        destruct (String.eqb_spec (host x) h) as [E'|_];
          [|rewrite app_nil_r; reflexivity].
        apply (proj1 (first_seen_In _ _)) in Hh. subst h. contradiction.
      * rewrite items_of_host_snoc, String.eqb_refl.
        rewrite (items_of_host_absent _ _ Hnew). reflexivity.
    + rewrite List.map_map. simpl. rewrite List.map_id.
      destruct (existsb (String.eqb (host x))
                  (first_seen (List.map host items))) eqn:E2; [|reflexivity].
      apply existsb_eqb_In in E2. apply (proj1 (first_seen_In _ _)) in E2.
      contradiction.
Qed.

(** *** The story *)

Section Story.
Variable py_strip : string -> string.
Variable py_upper : string -> string.
Variable newlines_to_spaces : string -> string.
Variable str_of_float : option Q -> string.
Variable date_info : nat -> string.
Variable file_timestamp : string.
Variable path_join : string -> string -> string.
Variable chart_raises : list TrendPoint -> string -> bool.
Variable build_raises : string -> list flowable -> bool.

Abbreviation item_flowables :=
  (item_flowables py_strip py_upper newlines_to_spaces str_of_float
                  chart_raises).
Abbreviation host_flowables :=
  (host_flowables py_strip py_upper newlines_to_spaces str_of_float
                  date_info chart_raises).
Abbreviation hosts_loop :=
  (hosts_loop py_strip py_upper newlines_to_spaces str_of_float
              date_info chart_raises).
Abbreviation build_story :=
  (build_story py_strip py_upper newlines_to_spaces str_of_float
               date_info chart_raises).
Abbreviation generate_report :=
  (generate_report py_strip py_upper newlines_to_spaces str_of_float
                   date_info file_timestamp path_join chart_raises
                   build_raises).

Lemma outline_app (a b : list flowable) :
  outline (a ++ b) = outline a ++ outline b.
Proof. apply List.flat_map_app. Qed.

Lemma outline_item_flowables (x : ItemData) :
  outline (item_flowables x) = [ItemSection (py_upper (item x))].
Proof.
  unfold PdfGenerator.item_flowables.
  destruct (conclusion x) as [c|]; [destruct (nonblank c)|]; reflexivity.
Qed.

Lemma outline_items (items : list ItemData) :
  outline (flat_map item_flowables items)
  = List.map (fun x => ItemSection (py_upper (item x))) items.
Proof.
  induction items as [|x t IH]; [reflexivity|].
  simpl flat_map. rewrite outline_app, outline_item_flowables, IH.
  reflexivity.
Qed.

Lemma outline_uptime_section (g : Generator) :
  outline (_create_uptime_section py_strip g) = [].
Proof.
  unfold _create_uptime_section.
  match goal with |- context [if ?b then _ else _] => destruct b end;
    reflexivity.
Qed.

Lemma outline_host_flowables (g : Generator) (host_idx : nat)
    (host_name : string) (items : list ItemData) :
  outline (host_flowables g host_idx host_name items)
  = (if (0 <? host_idx)%nat then [Break] else [])
    ++ HostSection host_name
       :: List.map (fun x => ItemSection (py_upper (item x))) items.
Proof.
  unfold PdfGenerator.host_flowables.
  rewrite !outline_app, outline_uptime_section, outline_items.
  destruct (0 <? host_idx)%nat; reflexivity.
Qed.

Lemma outline_hosts_loop (hosts : list (string * list ItemData)) :
  forall (g : Generator) (host_idx : nat) (story : list flowable),
    outline (snd (hosts_loop g host_idx hosts story))
    = outline story ++ sections_outline py_upper host_idx hosts.
Proof.
  induction hosts as [|[h xs] rest IH]; intros g host_idx story; simpl.
  - rewrite app_nil_r. reflexivity.
  - rewrite IH, outline_app, outline_host_flowables.
    rewrite <- !app_assoc. reflexivity.
Qed.

Lemma page_breaks_app (a b : list flowable) :
  page_breaks (a ++ b) = (page_breaks a + page_breaks b)%nat.
Proof. unfold page_breaks. rewrite List.filter_app. apply length_app. Qed.

Lemma page_breaks_items (items : list ItemData) :
  page_breaks (flat_map item_flowables items) = 0%nat.
Proof.
  induction items as [|x t IH]; [reflexivity|].
  simpl flat_map. rewrite page_breaks_app, IH.
  unfold PdfGenerator.item_flowables.
  destruct (conclusion x) as [c|]; [destruct (nonblank c)|]; reflexivity.
Qed.

Lemma page_breaks_host_flowables (g : Generator) (host_idx : nat)
    (host_name : string) (items : list ItemData) :
  page_breaks (host_flowables g host_idx host_name items)
  = if (0 <? host_idx)%nat then 1%nat else 0%nat.
Proof.
  unfold PdfGenerator.host_flowables.
  rewrite !page_breaks_app, page_breaks_items.
  replace (page_breaks (_create_uptime_section py_strip g)) with 0%nat.
  - destruct (0 <? host_idx)%nat; reflexivity.
  - unfold _create_uptime_section.
    match goal with |- context [if ?b then _ else _] => destruct b end;
      reflexivity.
Qed.

(** Every host section after the first one brings one page break. *)
Lemma page_breaks_later_hosts (hosts : list (string * list ItemData)) :
  forall (g : Generator) (host_idx : nat) (story : list flowable),
    page_breaks (snd (hosts_loop g (S host_idx) hosts story))
    = (page_breaks story + List.length hosts)%nat.
Proof.
  induction hosts as [|[h xs] rest IH]; intros g host_idx story; simpl.
  - lia.
  - rewrite IH, page_breaks_app, page_breaks_host_flowables. simpl. lia.
Qed.

Lemma page_breaks_story (g : Generator) :
  items_data g <> [] ->
  S (page_breaks (snd (build_story g)))
  = List.length (group_by_host (items_data g)).
Proof.
  intros Hne. unfold PdfGenerator.build_story.
  destruct (group_by_host (items_data g)) as [|[h xs] rest] eqn:E.
  - exfalso. rewrite group_by_host_partition in E.
    unfold partition_by_host in E. apply map_eq_nil in E.
    destruct (items_data g) as [|x t]; [contradiction|discriminate].
  - cbn [PdfGenerator.hosts_loop].
    rewrite page_breaks_later_hosts, page_breaks_app.
    rewrite page_breaks_host_flowables. reflexivity.
Qed.

(** The loop over the hosts only moves [current_host]. *)
Lemma hosts_loop_frame (hosts : list (string * list ItemData)) :
  forall (g : Generator) (host_idx : nat) (story : list flowable),
    let g' := fst (hosts_loop g host_idx hosts story) in
    items_data g' = items_data g /\ output_dir g' = output_dir g
    /\ report_config g' = report_config g
    /\ report_defaults g' = report_defaults g
    /\ host_configs g' = host_configs g.
Proof.
  induction hosts as [|[h xs] rest IH]; intros g host_idx story; simpl.
  - repeat split.
  - exact (IH (set_current_host g h) (S host_idx) _).
Qed.

Lemma generate_report_frame (g : Generator) (fs : FileSystem)
    (report_name : string) :
  items_data (snd (fst (generate_report g fs report_name))) = items_data g.
Proof.
  unfold PdfGenerator.generate_report.
  destruct (items_data g) as [|x t] eqn:E; [exact E|].
  unfold PdfGenerator.build_story.
  pose proof (hosts_loop_frame (group_by_host (items_data g)) g 0%nat [])
    as [Hf _].
  destruct (hosts_loop g 0 (group_by_host (items_data g)) []) as [g' story].
  simpl in Hf.
  match goal with |- context [if ?b then _ else _] => destruct b end;
    simpl; congruence.
Qed.

(** C8.  Rendering a generator to which no entry was added returns the
    empty path, the marker of failure, and writes no file: generator and
    file system are as before. *)
Theorem render_nothing_on_empty (g : Generator) (fs : FileSystem)
    (report_name : string) :
  items_data g = [] ->
  generate_report g fs report_name = (""%string, g, fs).
Proof.
  intros E. unfold PdfGenerator.generate_report. rewrite E. reflexivity.
Qed.

(** C9.  For the entries added, spanning the distinct host names
    [hosts] in the order of their first occurrence: the dict of the
    hosts is the partition of the entries by host name in that order,
    each group in the order in which its entries were added; the story
    lists, host after host, a page break unless the host is the first,
    the header of the host and its items in order; and it has one page
    break fewer than there are hosts. *)
Theorem story_partitioned_by_host (g : Generator) :
  items_data g <> [] ->
  let items := items_data g in
  let hosts := first_seen (List.map host items) in
  let story := snd (build_story g) in
  group_by_host items
  = List.map (fun h => (h, items_of_host h items)) hosts
  /\ outline story
     = sections_outline py_upper 0
         (List.map (fun h => (h, items_of_host h items)) hosts)
  /\ S (page_breaks story) = List.length hosts.
Proof.
  intros Hne items hosts story.
  pose proof (group_by_host_partition items) as Hp.
  unfold partition_by_host in Hp. fold hosts in Hp.
  split; [exact Hp|split].
  - unfold story, PdfGenerator.build_story.
    rewrite outline_hosts_loop. fold items. rewrite Hp. reflexivity.
  - unfold story. rewrite (page_breaks_story g Hne).
    fold items. rewrite Hp. apply length_map.
Qed.

(** C4, as the code has it.  Adding an entry appends exactly that
    entry to the accumulated list and changes nothing else; rendering,
    successful or not, leaves the accumulated list as it was; only
    [clear_data] empties it, and it changes nothing else. *)
Theorem entries_append_only_until_cleared (g : Generator)
    (host_name item_name : string) (trends : list TrendPoint)
    (stats : option Stats) (conclusion : option string)
    (fs : FileSystem) (report_name : string) :
  let added := add_item_data g host_name item_name trends stats conclusion in
  let rendered := snd (fst (generate_report g fs report_name)) in
  (items_data added
   = items_data g ++ [mkitem host_name item_name trends stats conclusion]
   /\ output_dir added = output_dir g
   /\ report_config added = report_config g
   /\ report_defaults added = report_defaults g
   /\ host_configs added = host_configs g
   /\ current_host added = current_host g)
  /\ items_data rendered = items_data g
  /\ (items_data (clear_data g) = []
      /\ output_dir (clear_data g) = output_dir g
      /\ report_config (clear_data g) = report_config g
      /\ report_defaults (clear_data g) = report_defaults g
      /\ host_configs (clear_data g) = host_configs g
      /\ current_host (clear_data g) = current_host g).
Proof.
  cbv zeta. split; [repeat split|split; [|repeat split]].
  apply generate_report_frame.
Qed.

End Story.

Lemma story_partitioned_by_host_witness :
  outline (snd (build_story (fun s => s) (fun s => s) (fun s => s)
                  (fun _ => "0.0"%string) (fun _ => "hoy"%string)
                  (fun _ _ => false) three_entries))
  = [HostSection "db01"; ItemSection "CPU utilization";
     ItemSection "Disk space"; Break; HostSection "web01";
     ItemSection "Memory utilization"].
Proof.
  assert (items_data three_entries <> []) as Hne by discriminate.
  exact (proj1 (proj2 (story_partitioned_by_host
                         (fun s => s) (fun s => s) (fun s => s)
                         (fun _ => "0.0"%string) (fun _ => "hoy"%string)
                         (fun _ _ => false) three_entries Hne))).
Defined.

Lemma render_nothing_on_empty_witness :
  generate_report_quiet (init "out") [] "informe_ejecutivo"
  = (""%string, init "out", []).
Proof.
  apply render_nothing_on_empty. reflexivity.
Defined.

(** A successful render returns a path and writes the file, and the
    entry added before is still in the list. *)
Lemma render_keeps_entries :
  fst (fst (generate_report_quiet one_entry [] "informe_ejecutivo"))
  = "out/informe_ejecutivo_20240101_000000.pdf"%string
  /\ List.map fst (snd (generate_report_quiet one_entry [] "informe_ejecutivo"))
     = ["out/informe_ejecutivo_20240101_000000.pdf"%string]
  /\ items_data
       (snd (fst (generate_report_quiet one_entry [] "informe_ejecutivo")))
     <> [].
Proof.
  vm_compute. repeat split. discriminate.
Qed.

End ReportAggregator.

(** ** Rounding to two decimals *)

Section Rounding.
Import TrendAnalyzer.
#[local] Open Scope Q_scope.

Lemma floor_bounds (x : Q) :
  inject_Z (Qfloor x) <= x /\ x < inject_Z (Qfloor x) + 1.
Proof.
  split; [apply Qfloor_le|].
  pose proof (Qlt_floor x) as H. rewrite inject_Z_plus in H. exact H.
Qed.

(** The rounded integer is either the floor or the next integer. *)
Lemma round_half_even_cases (x : Q) :
  (round_half_even x = Qfloor x /\ x - inject_Z (Qfloor x) <= 1 # 2)
  \/ (round_half_even x = (Qfloor x + 1)%Z
      /\ 1 # 2 <= x - inject_Z (Qfloor x)).
Proof.
  unfold round_half_even.
  destruct (Qcompare_spec (x - inject_Z (Qfloor x)) (1 # 2)) as [E|L|G].
  - destruct (Z.even (Qfloor x)); [left|right]; split; try reflexivity;
      rewrite E; apply Qle_refl.
  - left; split; [reflexivity|apply Qlt_le_weak, L].
  - right; split; [reflexivity|apply Qlt_le_weak, G].
Qed.

Lemma round_half_even_near (x : Q) :
  Qabs (inject_Z (round_half_even x) - x) <= 1 # 2.
Proof.
  apply Qabs_Qle_condition.
  destruct (floor_bounds x) as [Hlo Hhi].
  destruct (round_half_even_cases x) as [[-> H]|[-> H]].
  - split; lra.
  - rewrite inject_Z_plus. change (inject_Z 1) with 1. split; lra.
Qed.


Lemma round_half_even_mono (x y : Q) :
  x <= y -> (round_half_even x <= round_half_even y)%Z.
Proof.
  intros Hxy. pose proof (Qfloor_resp_le _ _ Hxy) as Hf.
  destruct (Z.eq_dec (Qfloor x) (Qfloor y)) as [E|Hne].
  - unfold round_half_even. rewrite E.
    destruct (Qcompare_spec (x - inject_Z (Qfloor y)) (1 # 2)) as [Ex|Lx|Gx];
      destruct (Qcompare_spec (y - inject_Z (Qfloor y)) (1 # 2)) as [Ey|Ly|Gy];
      try destruct (Z.even (Qfloor y)); try lia; exfalso; lra.
  - destruct (round_half_even_cases x) as [[-> _]|[-> _]];
      destruct (round_half_even_cases y) as [[-> _]|[-> _]]; lia.
Qed.

Lemma round2_eq (x : Q) :
  round2 x == inject_Z (round_half_even (x * 100)) * (1 # 100).
Proof. unfold round2. apply Qred_correct. Qed.

Lemma round2_spec (x : Q) : rounded_to_cents x (round2 x).
Proof.
  split.
  - exists (round_half_even (x * 100)). apply round2_eq.
  - rewrite round2_eq. apply Qabs_Qle_condition.
    pose proof (round_half_even_near (x * 100)) as H.
    apply Qabs_Qle_condition in H. destruct H as [H1 H2].
    split; lra.
Qed.


Lemma round2_mono (x y : Q) : x <= y -> round2 x <= round2 y.
Proof.
  intros H. rewrite !round2_eq.
  assert (inject_Z (round_half_even (x * 100))
          <= inject_Z (round_half_even (y * 100))) as Hz.
  { rewrite <- Zle_Qle. apply round_half_even_mono. lra. }
  lra.
Qed.

(** The integer that [round2_sqrt] picks, from [s], the floor of twice
    the root. *)
Lemma half_cases (s : Z) :
  (0 <= s)%Z ->
  exists m : Z, (0 <= m)%Z /\ (s / 2 = m)%Z
    /\ ((Z.even s = true /\ s = 2 * m)%Z
        \/ (Z.even s = false /\ s = 2 * m + 1)%Z).
Proof.
  intros Hs. exists (s / 2)%Z. split; [apply Z.div_pos; lia|].
  split; [reflexivity|].
  pose proof (Z.div_mod s 2 ltac:(lia)) as Hdm.
  pose proof (Z.mod_pos_bound s 2 ltac:(lia)) as Hb.
  destruct (Z.even s) eqn:E.
  - left. split; [reflexivity|].
    apply Z.even_spec in E. destruct E as [m ->].
    rewrite Z.mul_comm, Z.div_mul by lia. lia.
  - right. split; [reflexivity|].
    rewrite <- Z.negb_odd in E. apply negb_false_iff in E.
    apply Z.odd_spec in E. destruct E as [m ->].
    rewrite Z.mul_comm, Z.div_add_l by lia. change (1 / 2)%Z with 0%Z. lia.
Qed.

Lemma round2_sqrt_eq (v : Q) :
  exists k : Z,
    round2_sqrt v == inject_Z k * (1 # 100)
    /\ (0 <= k)%Z
    /\ v * 40000 <= (2 * inject_Z k + 1) * (2 * inject_Z k + 1)
    /\ (k = 0%Z
        \/ (2 * inject_Z k - 1) * (2 * inject_Z k - 1) <= v * 40000).
Proof.
  unfold round2_sqrt.
  set (r4 := v * 40000).
  destruct (floor_bounds r4) as [Hlo Hhi].
  set (t := Qfloor r4) in *.
  destruct (Z_lt_le_dec t 0) as [Hneg|Hpos].
  - (* a negative argument: the integer root is 0 *)
    exists 0%Z. rewrite (Z.sqrt_neg t Hneg). simpl Z.even. cbv iota.
    split; [rewrite Qred_correct; reflexivity|].
    split; [lia|]. split; [|left; reflexivity].
    assert (inject_Z t <= -1) as Ht.
    { change (-1) with (inject_Z (-1)). rewrite <- Zle_Qle. lia. }
    change (inject_Z 0) with 0. lra.
  - pose proof (Z.sqrt_spec t Hpos) as Hs. cbv zeta in Hs.
    pose proof (Z.sqrt_nonneg t) as Hs0.
    set (s := Z.sqrt t) in *.
    assert (inject_Z s * inject_Z s <= r4) as HS1.
    { rewrite <- inject_Z_mult. apply Qle_trans with (inject_Z t); [|exact Hlo].
      rewrite <- Zle_Qle. lia. }
    assert (r4 < (inject_Z s + 1) * (inject_Z s + 1)) as HS2.
    { apply Qlt_le_trans with (inject_Z t + 1); [exact Hhi|].
      change 1 with (inject_Z 1).
      rewrite <- !inject_Z_plus, <- inject_Z_mult, <- Zle_Qle. lia. }
    destruct (half_cases s Hs0) as (m & Hm0 & Hdiv & [[Hev Hs2]|[Hod Hs2]]);
      rewrite Hev || rewrite Hod; rewrite Hdiv.
    + exists m. split; [rewrite Qred_correct; reflexivity|].
      split; [exact Hm0|].
      assert (inject_Z s == 2 * inject_Z m) as ES
        by (rewrite Hs2, inject_Z_mult; reflexivity).
      rewrite ES in HS1, HS2.
      split; [apply Qlt_le_weak, HS2|].
      destruct (Z.eq_dec m 0%Z) as [E0|Hne]; [left; exact E0|right].
      assert (1 <= inject_Z m) as HM
        by (change 1 with (inject_Z 1); rewrite <- Zle_Qle; lia).
      clearbody r4. revert HS1 HM. generalize (inject_Z m) as M.
      clear. intros M HS1 HM. nra.
    + assert (inject_Z s == 2 * inject_Z m + 1) as ES
        by (rewrite Hs2, inject_Z_plus, inject_Z_mult; reflexivity).
      rewrite ES in HS1, HS2.
      assert (0 <= inject_Z m) as HM
        by (change 0 with (inject_Z 0); rewrite <- Zle_Qle; exact Hm0).
      destruct (Qeq_bool (inject_Z (s * s)) r4 && Z.even m) eqn:Tie.
      * apply andb_prop in Tie. destruct Tie as [Tie _].
        apply Qeq_bool_eq in Tie. rewrite inject_Z_mult, ES in Tie.
        exists m. split; [rewrite Qred_correct; reflexivity|].
        split; [exact Hm0|].
        split; [rewrite <- Tie; apply Qle_refl|].
        destruct (Z.eq_dec m 0%Z) as [E0|Hne]; [left; exact E0|right].
        assert (1 <= inject_Z m) as HM1
          by (change 1 with (inject_Z 1); rewrite <- Zle_Qle; lia).
        clearbody r4. revert Tie HM1. generalize (inject_Z m) as M.
        clear. intros M Tie HM1. nra.
      * exists (m + 1)%Z. split; [rewrite Qred_correct; reflexivity|].
        split; [lia|]. rewrite inject_Z_plus. change (inject_Z 1) with 1.
        clearbody r4. revert HS1 HS2 HM. generalize (inject_Z m) as M.
        clear. intros M HS1 HS2 HM. split; [nra|right; nra].
Qed.

Lemma round2_sqrt_spec (v : Q) :
  0 <= v -> sqrt_rounded_to_cents v (round2_sqrt v).
Proof.
  intros Hv. destruct (round2_sqrt_eq v) as (k & E & Hk & Hup & Hdown).
  assert (0 <= inject_Z k) as HK
    by (change 0 with (inject_Z 0); rewrite <- Zle_Qle; exact Hk).
  unfold sqrt_rounded_to_cents.
  split; [exists k; rewrite E; reflexivity|].
  split; [rewrite E; lra|]. split; [rewrite E; lra|].
  destruct Hdown as [E0|Hdown].
  - left. rewrite E, E0. reflexivity.
  - right. rewrite E. lra.
Qed.


End Rounding.

(** ** Columns: minimum, maximum and mean *)

Section Columns.
Import TrendAnalyzer.
#[local] Open Scope Q_scope.

Lemma in_dropna (col : list (option Q)) (x : Q) :
  In x (dropna col) <-> In (Some x) col.
Proof.
  induction col as [|[y|] t IH]; simpl; [tauto| |].
  - rewrite IH. split; (intros [H|H]; [left; congruence|right; exact H]).
  - rewrite IH. split; [auto|]. intros [H|H]; [discriminate|exact H].
Qed.

Lemma in_column (field : TrendPoint -> option Q) (trends : list TrendPoint)
    (x : Q) :
  In x (dropna (column field trends))
  <-> exists p v, In p trends /\ field p = Some v /\ x = Qred v.
Proof.
  rewrite in_dropna. unfold column. rewrite in_map_iff. split.
  - intros (p & E & Hp). unfold to_numeric in E.
    destruct (field p) as [v|] eqn:Ev; [|discriminate].
    exists p, v. simpl in E. injection E as E. auto.
  - intros (p & v & Hp & Ev & ->). exists p. rewrite Ev. auto.
Qed.

Lemma Qlen_cons (x : Q) (xs : list Q) : Qlen (x :: xs) == Qlen xs + 1.
Proof.
  unfold Qlen. cbn [List.length]. rewrite Nat2Z.inj_succ, <- Z.add_1_r.
  rewrite inject_Z_plus. reflexivity.
Qed.

Lemma Qlen_nonneg (xs : list Q) : 0 <= Qlen xs.
Proof.
  unfold Qlen. change 0 with (inject_Z 0). rewrite <- Zle_Qle. lia.
Qed.

Lemma Qsum_lower (a : Q) (xs : list Q) :
  (forall x, In x xs -> a <= x) -> a * Qlen xs <= Qsum xs.
Proof.
  induction xs as [|x t IH]; intros H.
  - change (a * 0 <= 0). lra.
  - rewrite Qlen_cons. cbn [Qsum fold_right]. fold (Qsum t).
    pose proof (H x (or_introl eq_refl)) as Hx.
    pose proof (IH (fun y Hy => H y (or_intror Hy))) as Ht.
    lra.
Qed.

Lemma Qsum_upper (b : Q) (xs : list Q) :
  (forall x, In x xs -> x <= b) -> Qsum xs <= b * Qlen xs.
Proof.
  induction xs as [|x t IH]; intros H.
  - change (0 <= b * 0). lra.
  - rewrite Qlen_cons. cbn [Qsum fold_right]. fold (Qsum t).
    pose proof (H x (or_introl eq_refl)) as Hx.
    pose proof (IH (fun y Hy => H y (or_intror Hy))) as Ht.
    lra.
Qed.

Lemma mean_eq (col : list (option Q)) (m : Q) :
  mean col = Some m ->
  dropna col <> [] /\ m == Qsum (dropna col) / Qlen (dropna col).
Proof.
  unfold mean. destruct (dropna col) as [|x xs]; [discriminate|].
  intros E. injection E as <-. split; [discriminate|apply Qred_correct].
Qed.

Lemma Qlen_pos (xs : list Q) : xs <> [] -> 0 < Qlen xs.
Proof.
  destruct xs as [|x t]; [contradiction|]. intros _.
  rewrite Qlen_cons. pose proof (Qlen_nonneg t). lra.
Qed.

(** The mean lies between any two bounds of the values. *)
Lemma mean_between (col : list (option Q)) (a b m : Q) :
  mean col = Some m ->
  (forall x, In x (dropna col) -> a <= x /\ x <= b) ->
  a <= m /\ m <= b.
Proof.
  intros Hm Hb. destruct (mean_eq _ _ Hm) as [Hne E].
  pose proof (Qlen_pos _ Hne) as Hlen.
  rewrite E. split.
  - apply Qle_shift_div_l; [exact Hlen|].
    apply Qsum_lower. intros x Hx. apply Hb, Hx.
  - apply Qle_shift_div_r; [exact Hlen|].
    apply Qsum_upper. intros x Hx. apply Hb, Hx.
Qed.

Lemma Qmin'_le (x y : Q) : Qmin' x y <= x /\ Qmin' x y <= y.
Proof.
  unfold Qmin'. destruct (Qle_bool x y) eqn:E.
  - apply Qle_bool_iff in E. split; [apply Qle_refl|exact E].
  - split; [|apply Qle_refl].
    destruct (Qlt_le_dec y x) as [H|H]; [apply Qlt_le_weak, H|].
    apply Qle_bool_iff in H. congruence.
Qed.

Lemma Qmax'_ge (x y : Q) : x <= Qmax' x y /\ y <= Qmax' x y.
Proof.
  unfold Qmax'. destruct (Qle_bool x y) eqn:E.
  - apply Qle_bool_iff in E. split; [exact E|apply Qle_refl].
  - split; [apply Qle_refl|].
    destruct (Qlt_le_dec y x) as [H|H]; [apply Qlt_le_weak, H|].
    apply Qle_bool_iff in H. congruence.
Qed.

Lemma fold_min_lower (xs : list Q) :
  forall x y, In y (x :: xs) -> fold_left Qmin' xs x <= y.
Proof.
  induction xs as [|z t IH]; intros x y Hy; simpl.
  - destruct Hy as [->|[]]. apply Qle_refl.
  - destruct (Qmin'_le x z) as [H1 H2].
    destruct Hy as [<-|[<-|Hy]].
    + apply Qle_trans with (Qmin' x z); [|exact H1].
      apply IH. left; reflexivity.
    + apply Qle_trans with (Qmin' x z); [|exact H2].
      apply IH. left; reflexivity.
    + apply IH. right; exact Hy.
Qed.

Lemma fold_max_upper (xs : list Q) :
  forall x y, In y (x :: xs) -> y <= fold_left Qmax' xs x.
Proof.
  induction xs as [|z t IH]; intros x y Hy; simpl.
  - destruct Hy as [->|[]]. apply Qle_refl.
  - destruct (Qmax'_ge x z) as [H1 H2].
    destruct Hy as [<-|[<-|Hy]].
    + apply Qle_trans with (Qmax' x z); [exact H1|].
      apply IH. left; reflexivity.
    + apply Qle_trans with (Qmax' x z); [exact H2|].
      apply IH. left; reflexivity.
    + apply IH. right; exact Hy.
Qed.

Lemma fold_min_in (xs : list Q) :
  forall x, In (fold_left Qmin' xs x) (x :: xs).
Proof.
  induction xs as [|z t IH]; intros x; simpl; [left; reflexivity|].
  destruct (IH (Qmin' x z)) as [H|H]; [|right; right; exact H].
  rewrite <- H. unfold Qmin'. destruct (Qle_bool x z); auto.
Qed.

Lemma fold_max_in (xs : list Q) :
  forall x, In (fold_left Qmax' xs x) (x :: xs).
Proof.
  induction xs as [|z t IH]; intros x; simpl; [left; reflexivity|].
  destruct (IH (Qmax' x z)) as [H|H]; [|right; right; exact H].
  rewrite <- H. unfold Qmax'. destruct (Qle_bool x z); auto.
Qed.

(** [col.min()] is one of the values and a lower bound of all. *)
Lemma col_min_spec (col : list (option Q)) (lo : Q) :
  col_min col = Some lo ->
  In lo (dropna col) /\ forall x, In x (dropna col) -> lo <= x.
Proof.
  unfold col_min. destruct (dropna col) as [|x xs]; [discriminate|].
  intros E. injection E as <-. split; [apply fold_min_in|].
  intros y Hy. apply fold_min_lower, Hy.
Qed.

Lemma col_max_spec (col : list (option Q)) (hi : Q) :
  col_max col = Some hi ->
  In hi (dropna col) /\ forall x, In x (dropna col) -> x <= hi.
Proof.
  unfold col_max. destruct (dropna col) as [|x xs]; [discriminate|].
  intros E. injection E as <-. split; [apply fold_max_in|].
  intros y Hy. apply fold_max_upper, Hy.
Qed.

Lemma square_nonneg (q : Q) : 0 <= q * q.
Proof.
  destruct (Qlt_le_dec q 0) as [H|H].
  - assert (q * q == (- q) * (- q)) as E by ring. rewrite E.
    apply Qmult_le_0_compat; lra.
  - apply Qmult_le_0_compat; exact H.
Qed.

Lemma Qsum_squares_nonneg (m : Q) (xs : list Q) :
  0 <= Qsum (List.map (fun x => (x - m) * (x - m)) xs).
Proof.
  induction xs as [|z l IH]; [apply Qle_refl|].
  change (0 <= (z - m) * (z - m)
               + Qsum (List.map (fun x => (x - m) * (x - m)) l)).
  pose proof (square_nonneg (z - m)) as Hsq.
  revert IH Hsq.
  generalize (Qsum (List.map (fun x => (x - m) * (x - m)) l)) as S.
  generalize ((z - m) * (z - m)) as d. clear. intros d S IH Hsq. lra.
Qed.

Lemma variance_nonneg (col : list (option Q)) (v : Q) :
  variance col = Some v -> 0 <= v.
Proof.
  unfold variance. destruct (dropna col) as [|x [|y t]]; try discriminate.
  intros E. injection E as <-. unfold sample_variance.
  assert (0 < Qlen (x :: y :: t) - 1) as Hn.
  { rewrite !Qlen_cons. pose proof (Qlen_nonneg t). lra. }
  apply Qle_shift_div_l; [exact Hn|]. rewrite Qmult_0_l.
  exact (Qsum_squares_nonneg
           (Qsum (x :: y :: t) / Qlen (x :: y :: t)) (x :: y :: t)).
Qed.

End Columns.

(** ** The summary *)

Section Summary.
Import TrendAnalyzer.
#[local] Open Scope Q_scope.

(** A populated summary comes from a series that is not empty and
    whose time stamps are all in range. *)
Lemma calculate_statistics_populated (trends : list TrendPoint) (s : Stats) :
  calculate_statistics trends = Ok (Some s) ->
  trends <> []
  /\ s = {| total_data_points := List.length trends;
            avg_monthly := round2_opt (mean (column value_avg trends));
            max_absolute := round2_opt (col_max (column value_max trends));
            min_absolute := round2_opt (col_min (column value_min trends));
            p95 := round2_opt (quantile (95 # 100) (column value_avg trends));
            p99 := round2_opt (quantile (99 # 100) (column value_avg trends));
            std_deviation := round2_std (column value_avg trends);
            peak_hours :=
              List.map fmt_hour (nlargest_index 3 (hourly_avg trends));
            peak_days := nlargest_index 3 (daily_avg trends);
            period_start :=
              strftime_ymd
                (clock_min (clock (hd (mkpoint 0 0 None None None) trends))
                           (List.map clock (tl trends)));
            period_end :=
              strftime_ymd
                (clock_max (clock (hd (mkpoint 0 0 None None None) trends))
                           (List.map clock (tl trends))) |}.
Proof.
  unfold calculate_statistics. destruct trends as [|p ps]; [discriminate|].
  destruct (forallb (fun p0 => in_bounds (clock p0)) (p :: ps));
    [|discriminate].
  intros E. injection E as <-. split; [discriminate|reflexivity].
Qed.

(** A series that is not empty and whose time stamps are all in range
    has a summary. *)
Lemma calculate_statistics_returns (trends : list TrendPoint) :
  trends <> [] ->
  (forall p, In p trends -> in_bounds (clock p) = true) ->
  exists s, calculate_statistics trends = Ok (Some s).
Proof.
  intros Hne Hb. unfold calculate_statistics.
  destruct trends as [|p ps]; [contradiction|].
  replace (forallb (fun p0 => in_bounds (clock p0)) (p :: ps)) with true.
  - eexists. reflexivity.
  - symmetry. apply List.forallb_forall. exact Hb.
Qed.

Lemma round2_opt_rounded (x : option Q) :
  both rounded_to_cents x (round2_opt x).
Proof. destruct x as [q|]; simpl; [apply round2_spec|exact I]. Qed.

(** C7.  On the empty series the computation returns the empty dict,
    the explicit mark of no data: it does not raise, and what it returns
    is not a populated summary, whatever the fields of that summary. *)
Theorem empty_series_no_data :
  calculate_statistics [] = Ok None
  /\ (forall e, calculate_statistics [] <> Raise e)
  /\ (forall s, calculate_statistics [] <> Ok (Some s)).
Proof.
  split; [reflexivity|]. split; intros x H; discriminate H.
Qed.

(** C3, as the code has it.  For a series that is not empty (and
    whose time stamps are in range) a summary is returned, and its mean,
    minimum, maximum, 95th and 99th percentile are the exact values
    rounded to two decimals, and its standard deviation is the square
    root of the exact sample variance rounded to two decimals (a NaN
    stays a NaN). *)
Theorem summary_rounded_to_cents (trends : list TrendPoint) :
  trends <> [] ->
  (forall p, In p trends -> in_bounds (clock p) = true) ->
  exists s,
    calculate_statistics trends = Ok (Some s)
    /\ both rounded_to_cents (mean (column value_avg trends)) (avg_monthly s)
    /\ both rounded_to_cents (col_min (column value_min trends))
                             (min_absolute s)
    /\ both rounded_to_cents (col_max (column value_max trends))
                             (max_absolute s)
    /\ both rounded_to_cents (quantile (95 # 100) (column value_avg trends))
                             (p95 s)
    /\ both rounded_to_cents (quantile (99 # 100) (column value_avg trends))
                             (p99 s)
    /\ both sqrt_rounded_to_cents (variance (column value_avg trends))
                                  (std_deviation s).
Proof.
  intros Hne Hb. destruct (calculate_statistics_returns trends Hne Hb) as [s H].
  exists s. split; [exact H|].
  apply calculate_statistics_populated in H. destruct H as [_ ->].
  cbn [avg_monthly min_absolute max_absolute p95 p99 std_deviation].
  repeat (split; [apply round2_opt_rounded|]).
  unfold round2_std.
  destruct (variance (column value_avg trends)) as [v|] eqn:E; simpl;
    [|exact I].
  apply round2_sqrt_spec. apply (variance_nonneg _ _ E).
Qed.

Lemma summary_rounded_to_cents_witness :
  exists s,
    calculate_statistics thirds = Ok (Some s)
    /\ both rounded_to_cents (mean (column value_avg thirds)) (avg_monthly s)
    /\ both rounded_to_cents (col_min (column value_min thirds))
                             (min_absolute s)
    /\ both rounded_to_cents (col_max (column value_max thirds))
                             (max_absolute s)
    /\ both rounded_to_cents (quantile (95 # 100) (column value_avg thirds))
                             (p95 s)
    /\ both rounded_to_cents (quantile (99 # 100) (column value_avg thirds))
                             (p99 s)
    /\ both sqrt_rounded_to_cents (variance (column value_avg thirds))
                                  (std_deviation s).
Proof.
  apply summary_rounded_to_cents.
  - discriminate.
  - intros p [<-|[<-|[<-|[]]]]; reflexivity.
Defined.

(** The mean of [thirds] is one third, and the summary holds 0.33. *)
Lemma mean_is_rounded_inside_engine :
  mean (column value_avg thirds) = Some (1 # 3)
  /\ (exists s, calculate_statistics thirds = Ok (Some s)
                /\ avg_monthly s = Some (33 # 100))
  /\ ~ (33 # 100 == 1 # 3).
Proof.
  split; [reflexivity|]. split.
  - eexists. split; [vm_compute; reflexivity|reflexivity].
  - intros H. discriminate H.
Qed.

(** Minimum, mean and maximum of the columns of well-formed points. *)
Lemma columns_ordered (trends : list TrendPoint) :
  trends <> [] ->
  (forall p, In p trends -> well_formed p) ->
  exists lo m hi,
    col_min (column value_min trends) = Some lo
    /\ mean (column value_avg trends) = Some m
    /\ col_max (column value_max trends) = Some hi
    /\ lo <= m /\ m <= hi.
Proof.
  intros Hne Hwf.
  assert (forall field,
             (forall p, In p trends -> exists v, field p = Some v) ->
             dropna (column field trends) <> []) as Hcol.
  { intros field Hf. destruct trends as [|p ps]; [contradiction|].
    destruct (Hf p (or_introl eq_refl)) as [v Ev].
    unfold column. cbn [List.map]. rewrite Ev. discriminate. }
  assert (dropna (column value_min trends) <> []) as Hmin.
  { apply Hcol. intros p Hp. destruct (Hwf p Hp) as (_ & lo & _ & _ & E & _).
    exists lo; exact E. }
  assert (dropna (column value_avg trends) <> []) as Havg.
  { apply Hcol. intros p Hp.
    destruct (Hwf p Hp) as (_ & _ & av & _ & _ & E & _). exists av; exact E. }
  assert (dropna (column value_max trends) <> []) as Hmax.
  { apply Hcol. intros p Hp.
    destruct (Hwf p Hp) as (_ & _ & _ & hi & _ & _ & E & _).
    exists hi; exact E. }
  destruct (col_min (column value_min trends)) as [lo|] eqn:Elo;
    [|unfold col_min in Elo;
      destruct (dropna (column value_min trends)); [contradiction|discriminate]].
  destruct (mean (column value_avg trends)) as [m|] eqn:Em;
    [|unfold mean in Em;
      destruct (dropna (column value_avg trends)); [contradiction|discriminate]].
  destruct (col_max (column value_max trends)) as [hi|] eqn:Ehi;
    [|unfold col_max in Ehi;
      destruct (dropna (column value_max trends)); [contradiction|discriminate]].
  exists lo, m, hi. repeat (split; [reflexivity|]).
  destruct (col_min_spec _ _ Elo) as [_ Hlo].
  destruct (col_max_spec _ _ Ehi) as [_ Hhi].
  apply (mean_between _ _ _ _ Em).
  intros x Hx. apply in_column in Hx. destruct Hx as (p & v & Hp & Ev & ->).
  destruct (Hwf p Hp) as (_ & a & b & c & Ea & Eb & Ec & Hab & Hbc).
  rewrite Eb in Ev. injection Ev as <-.
  rewrite Qred_correct. split.
  - apply Qle_trans with a; [|exact Hab].
    rewrite <- (Qred_correct a). apply Hlo. apply in_column.
    exists p, a. auto.
  - apply Qle_trans with c; [exact Hbc|].
    rewrite <- (Qred_correct c). apply Hhi. apply in_column.
    exists p, c. auto.
Qed.



End Summary.

(** ** Grouping and ranking *)

Section Ranking.
Import TrendAnalyzer.

Context {K : Type}.
Variable leb : K -> K -> bool.
Variable eqb : K -> K -> bool.
Variable lt : K -> K -> Prop.
Hypothesis eqb_eq : forall a b, eqb a b = true <-> a = b.
Hypothesis leb_spec : forall a b, leb a b = true <-> lt a b \/ a = b.
Hypothesis lt_irrefl : forall a, ~ lt a a.
Hypothesis lt_trans : forall a b c, lt a b -> lt b c -> lt a c.
Hypothesis lt_total : forall a b, lt a b \/ a = b \/ lt b a.

Lemma insert_key_In (k x : K) (ks : list K) :
  In x (insert_key leb eqb k ks) <-> x = k \/ In x ks.
Proof.
  induction ks as [|k' t IH]; simpl.
  - split; intros [H|H]; auto.
  - destruct (eqb k k') eqn:E.
    + apply eqb_eq in E. subst k'. simpl. split; [auto|].
      intros [H|H]; [left; auto|exact H].
    + destruct (leb k k'); simpl; [split; intros [H|H]; auto|].
      rewrite IH. split; intros H; decompose [or] H; auto.
Qed.

Lemma insert_key_sorted (k : K) (ks : list K) :
  StronglySorted lt ks -> StronglySorted lt (insert_key leb eqb k ks).
Proof.
  induction ks as [|k' t IH]; intros Hs; simpl.
  - repeat constructor.
  - inversion Hs as [|? ? Ht Hk']; subst.
    destruct (eqb k k') eqn:E; [exact Hs|].
    assert (k <> k') as Hne.
    { intros Heq. apply eqb_eq in Heq. congruence. }
    destruct (leb k k') eqn:L.
    + apply leb_spec in L. destruct L as [L|L]; [|contradiction].
      constructor; [exact Hs|]. constructor; [exact L|].
      revert Hk'. apply List.Forall_impl. intros y Hy.
      exact (lt_trans _ _ _ L Hy).
    + assert (lt k' k) as G.
      { destruct (lt_total k k') as [H|[H|H]]; [|contradiction|exact H].
        assert (leb k k' = true) by (apply leb_spec; left; exact H).
        congruence. }
      constructor; [apply IH, Ht|].
      apply List.Forall_forall. intros y Hy. apply (proj1 (insert_key_In _ _ _)) in Hy.
      destruct Hy as [->|Hy]; [exact G|].
      exact (proj1 (List.Forall_forall _ _) Hk' y Hy).
Qed.

Lemma group_keys_In (x : K) (keys : list K) :
  In x (group_keys leb eqb keys) <-> In x keys.
Proof.
  induction keys as [|k t IH]; simpl; [tauto|].
  rewrite insert_key_In, IH. split; intros [H|H]; auto.
Qed.

Lemma group_keys_sorted (keys : list K) :
  StronglySorted lt (group_keys leb eqb keys).
Proof.
  induction keys as [|k t IH]; simpl; [constructor|].
  apply insert_key_sorted, IH.
Qed.

Lemma groupby_mean_keys (rows : list (K * option Q)) :
  List.map fst (groupby_mean leb eqb rows)
  = group_keys leb eqb (List.map fst rows).
Proof.
  unfold groupby_mean. rewrite List.map_map. simpl. apply List.map_id.
Qed.


(** *** The entries with a value, the NaN entries *)





(** *** The stable descending sort *)





(** *** The order of nlargest *)






(** *** Grouping the points of a series *)

Variable key : TrendPoint -> K.



End Ranking.

(** ** Peak hours and peak days *)

Section Peaks.
Import TrendAnalyzer.

Lemma Z_leb_spec (a b : Z) : Z.leb a b = true <-> a < b \/ a = b.
Proof. rewrite Z.leb_le. lia. Qed.

Lemma Z_lt_total (a b : Z) : a < b \/ a = b \/ b < a.
Proof. lia. Qed.

Lemma name_lt_compare (a b : string) :
  name_lt a b <-> String.compare a b = Lt.
Proof.
  unfold name_lt, String.ltb.
  destruct (String.compare a b); split; congruence.
Qed.

Lemma name_leb_spec (a b : string) :
  String.leb a b = true <-> name_lt a b \/ a = b.
Proof.
  rewrite name_lt_compare. unfold String.leb.
  destruct (String.compare a b) eqn:E.
  - apply String_as_OT.cmp_eq in E. tauto.
  - tauto.
  - split; [discriminate|]. intros [H|H]; [discriminate|].
    apply String_as_OT.cmp_eq in H. unfold String_as_OT.cmp in H. congruence.
Qed.

Lemma name_lt_irrefl (a : string) : ~ name_lt a a.
Proof.
  rewrite name_lt_compare.
  assert (String.compare a a = Eq) as E
    by (apply String_as_OT.cmp_eq; reflexivity).
  congruence.
Qed.

Lemma name_lt_trans (a b c : string) :
  name_lt a b -> name_lt b c -> name_lt a c.
Proof.
  rewrite !name_lt_compare. intros H1 H2.
  apply String_as_OT.cmp_lt. apply String_as_OT.cmp_lt in H1, H2.
  exact (String_as_OT.lt_trans _ _ _ H1 H2).
Qed.

Lemma name_lt_total (a b : string) : name_lt a b \/ a = b \/ name_lt b a.
Proof.
  rewrite !name_lt_compare.
  destruct (String.compare a b) eqn:E.
  - right; left. apply String_as_OT.cmp_eq, E.
  - left; reflexivity.
  - right; right. rewrite String.compare_antisym, E. reflexivity.
Qed.

Lemma hour_of_range (c : Z) : 0 <= hour_of c <= 23.
Proof.
  unfold hour_of.
  pose proof (Z.mod_pos_bound c 86400 ltac:(lia)) as H.
  split; [apply Z.div_pos; lia|].
  apply Z.lt_succ_r. apply Z.div_lt_upper_bound; lia.
Qed.





End Peaks.


(** ** Invariance under reordering *)

Section Reordering.
Import TrendAnalyzer.
#[local] Open Scope Q_scope.









(** *** Sorting *)



Lemma Qle_bool_false (x y : Q) : Qle_bool x y = false -> y < x.
Proof.
  intros H. destruct (Qlt_le_dec y x) as [L|L]; [exact L|].
  apply Qle_bool_iff in L. congruence.
Qed.





(** *** Variance *)




(** *** Time stamps *)

Lemma fold_min_spec (cs : list Z) :
  forall c : Z,
    In (fold_left Z.min cs c) (c :: cs)
    /\ forall x, In x (c :: cs) -> (fold_left Z.min cs c <= x)%Z.
Proof.
  induction cs as [|d t IH]; intros c; simpl.
  - split; [left; reflexivity|]. intros x [<-|[]]. lia.
  - destruct (IH (Z.min c d)) as [Hin Hlb]. split.
    + destruct Hin as [Hin|Hin]; [|right; right; exact Hin].
      rewrite <- Hin. destruct (Z.min_spec c d) as [[_ ->]|[_ ->]]; auto.
    + intros x [<-|[<-|Hx]].
      * pose proof (Hlb (Z.min c d) (or_introl eq_refl)). lia.
      * pose proof (Hlb (Z.min c d) (or_introl eq_refl)). lia.
      * apply Hlb. right; exact Hx.
Qed.





End Reordering.

Section GroupingReordered.
Import TrendAnalyzer.

Context {K : Type}.
Variable leb : K -> K -> bool.
Variable eqb : K -> K -> bool.
Variable lt : K -> K -> Prop.
Hypothesis eqb_eq : forall a b, eqb a b = true <-> a = b.
Hypothesis leb_spec : forall a b, leb a b = true <-> lt a b \/ a = b.
Hypothesis lt_irrefl : forall a, ~ lt a a.
Hypothesis lt_trans : forall a b c, lt a b -> lt b c -> lt a c.
Hypothesis lt_total : forall a b, lt a b \/ a = b \/ lt b a.




End GroupingReordered.

Section OrderInvariance.
Import TrendAnalyzer.





End OrderInvariance.

(** ** The windows of the three periods *)

Section TimeWindows.
Import PyDatetime TimeRange.

(** The first day of a month is one day after the last day of the
    month before. *)
Lemma year_length (y : Z) :
  _days_before_year (y + 1)
  = _days_before_year y + 365 + (if _is_leap y then 1 else 0).
Proof.
  unfold _days_before_year, _is_leap. cbv zeta.
  replace (y + 1 - 1) with y by lia.
  destruct (Z.eqb_spec (y mod 4) 0) as [H4|H4];
    destruct (Z.eqb_spec (y mod 100) 0) as [H100|H100];
    destruct (Z.eqb_spec (y mod 400) 0) as [H400|H400];
    cbn [negb andb orb]; Z.div_mod_to_equations; lia.
Qed.

Lemma month_length (y m : Z) :
  2 <= m <= 12 ->
  _days_before_month y (m - 1) + _days_in_month y (m - 1)
  = _days_before_month y m.
Proof.
  intros Hm. unfold _days_before_month, _days_in_month.
  assert (1 <= m <= 12) as Hm' by lia.
  destruct (month_cases m Hm') as [H|H]; repeat (destruct H as [H|H]);
    subst m; try lia; destruct (_is_leap y); reflexivity.
Qed.

Lemma last_day_then_first (y m : Z) :
  1 <= m <= 12 ->
  _ymd2ord (fst (month_before y m)) (snd (month_before y m))
           (_days_in_month (fst (month_before y m)) (snd (month_before y m)))
  + 1
  = _ymd2ord y m 1.
Proof.
  intros Hm. unfold month_before.
  destruct (Z.eqb_spec m 1) as [->|Hm1]; cbn [fst snd].
  - pose proof (year_length (y - 1)) as Hyl.
    replace (y - 1 + 1) with y in Hyl by lia.
    assert (_days_before_month (y - 1) 12
            = 334 + (if _is_leap (y - 1) then 1 else 0)) as Hdec
      by (unfold _days_before_month; destruct (_is_leap (y - 1)); reflexivity).
    assert (_days_in_month (y - 1) 12 = 31) as H31 by reflexivity.
    assert (_days_before_month y 1 = 0) as Hjan
      by (unfold _days_before_month; destruct (_is_leap y); reflexivity).
    unfold _ymd2ord. rewrite Hyl, Hdec, H31, Hjan. lia.
  - pose proof (month_length y m ltac:(lia)) as Hml.
    unfold _ymd2ord. lia.
Qed.


Lemma resolve_current_month (int_timestamp : datetime -> Z)
    (py_int : string -> option Z) (now : datetime) :
  valid now = true ->
  resolve int_timestamp py_int now "current_month"
  = Ok (int_timestamp (mkdatetime (year now) (month now) 1 0 0 0 0),
        int_timestamp now).
Proof.
  intros Hv. unfold resolve.
  change (ChartDownloader.calculate_time_range "current_month")
    with (Ok ("now/M", "now")%string).
  unfold bind at 1. cbn [fst snd]. unfold _convert_time_range, parse_time.
  change (String.eqb "now/M" "now") with false.
  change (String.eqb "now/M" "now-30d") with false.
  change (String.eqb "now/M" "now-1M/M") with false.
  change (String.eqb "now/M" "now/M") with true.
  change (String.eqb "now" "now") with true.
  cbv iota. rewrite (replace_first_midnight_ok now Hv). reflexivity.
Qed.

Lemma resolve_previous_month (int_timestamp : datetime -> Z)
    (py_int : string -> option Z) (now : datetime) :
  valid now = true ->
  (year now, month now) <> (1, 1) ->
  resolve int_timestamp py_int now "previous_month"
  = Ok (int_timestamp
          (first_instant_of (month_before (year now) (month now))),
        int_timestamp
          (last_instant_of (month_before (year now) (month now)))).
Proof.
  intros Hv Hne. unfold resolve.
  change (ChartDownloader.calculate_time_range "previous_month")
    with (Ok ("now-1M/M", "now-1M/M")%string).
  unfold bind at 1. cbn [fst snd]. unfold _convert_time_range.
  rewrite (first_of_prev_month _ _ _ Hv Hne).
  rewrite (last_of_prev_month _ _ _ Hv Hne).
  reflexivity.
Qed.


Lemma utc_last_of_month_before (y m : Z) :
  1 <= m <= 12 ->
  utc_timestamp (last_instant_of (month_before y m)) + 1
  = utc_timestamp (mkdatetime y m 1 0 0 0 0).
Proof.
  intros Hm. pose proof (last_day_then_first y m Hm) as H.
  unfold utc_timestamp, toordinal, last_instant_of.
  cbn [year month day hour minute second]. lia.
Qed.

Lemma utc_month_before_length (y m : Z) :
  utc_timestamp (last_instant_of (month_before y m)) + 1
  - utc_timestamp (first_instant_of (month_before y m))
  = 86400 * _days_in_month (fst (month_before y m)) (snd (month_before y m)).
Proof.
  unfold utc_timestamp, toordinal, last_instant_of, first_instant_of, _ymd2ord.
  cbn [year month day hour minute second]. lia.
Qed.



(** X2.  On a host whose local time is UTC, the window of the previous
    month ends one second before the window of the current month starts,
    and from its start to the start of the current month there are as
    many whole days as the month before has. *)
Theorem previous_month_meets_current_month (py_int : string -> option Z)
    (now : datetime) :
  valid now = true ->
  (year now, month now) <> (1, 1) ->
  exists prev_from prev_to cur_from cur_to,
    resolve utc_timestamp py_int now "previous_month"
    = Ok (prev_from, prev_to)
    /\ resolve utc_timestamp py_int now "current_month"
       = Ok (cur_from, cur_to)
    /\ prev_to + 1 = cur_from
    /\ cur_from - prev_from
       = 86400 * _days_in_month (fst (month_before (year now) (month now)))
                                (snd (month_before (year now) (month now))).
Proof.
  intros Hv Hne. destruct (valid_fields now Hv) as (Hy & Hm & Hd).
  rewrite (resolve_previous_month _ _ _ Hv Hne).
  rewrite (resolve_current_month _ _ _ Hv).
  do 4 eexists. split; [reflexivity|]. split; [reflexivity|].
  pose proof (utc_last_of_month_before (year now) (month now) Hm) as Hlast.
  pose proof (utc_month_before_length (year now) (month now)) as Hlen.
  lia.
Qed.

Lemma previous_month_meets_current_month_witness :
  exists prev_from prev_to cur_from cur_to,
    resolve utc_timestamp (fun _ => None) (mkdatetime 2024 3 31 13 45 10 250)
            "previous_month"
    = Ok (prev_from, prev_to)
    /\ resolve utc_timestamp (fun _ => None)
               (mkdatetime 2024 3 31 13 45 10 250) "current_month"
       = Ok (cur_from, cur_to)
    /\ prev_to + 1 = cur_from
    /\ cur_from - prev_from
       = 86400 * _days_in_month (fst (month_before 2024 3))
                                (snd (month_before 2024 3)).
Proof.
  apply (previous_month_meets_current_month
           (fun _ => None) (mkdatetime 2024 3 31 13 45 10 250)).
  - reflexivity.
  - discriminate.
Defined.

(** X3.  For a valid [now] that has a month before it, a period
    either is one of the three of the dialog and resolves to a window, or
    is refused with [ValueError]: no other name is understood, and no
    other error arises. *)
Theorem resolve_known_periods_only (int_timestamp : datetime -> Z)
    (py_int : string -> option Z) (now : datetime) (period : string) :
  valid now = true ->
  (year now, month now) <> (1, 1) ->
  (In period ["last_30_days"; "previous_month"; "current_month"]%string
   /\ exists window, resolve int_timestamp py_int now period = Ok window)
  \/ (~ In period ["last_30_days"; "previous_month"; "current_month"]%string
      /\ resolve int_timestamp py_int now period = Raise ValueError).
Proof.
  intros Hv Hne.
  destruct (in_dec string_dec period
              ["last_30_days"; "previous_month"; "current_month"]%string)
    as [Hin|Hnot]; [left|right]; (split; [assumption|]).
  - destruct Hin as [<-|[<-|[<-|[]]]].
    + eexists. reflexivity.
    + rewrite (resolve_previous_month _ _ _ Hv Hne). eexists. reflexivity.
    + rewrite (resolve_current_month _ _ _ Hv). eexists. reflexivity.
  - unfold resolve, ChartDownloader.calculate_time_range.
    destruct (String.eqb_spec period "last_30_days") as [->|_];
      [exfalso; apply Hnot; left; reflexivity|].
    destruct (String.eqb_spec period "previous_month") as [->|_];
      [exfalso; apply Hnot; right; left; reflexivity|].
    destruct (String.eqb_spec period "current_month") as [->|_];
      [exfalso; apply Hnot; right; right; left; reflexivity|].
    reflexivity.
Qed.

Lemma resolve_known_periods_only_witness :
  (In "last_7_days"%string
      ["last_30_days"; "previous_month"; "current_month"]%string
   /\ exists window,
        resolve utc_timestamp (fun _ => None)
                (mkdatetime 2024 3 31 13 45 10 250) "last_7_days"
        = Ok window)
  \/ (~ In "last_7_days"%string
          ["last_30_days"; "previous_month"; "current_month"]%string
      /\ resolve utc_timestamp (fun _ => None)
                 (mkdatetime 2024 3 31 13 45 10 250) "last_7_days"
         = Raise ValueError).
Proof.
  apply resolve_known_periods_only.
  - reflexivity.
  - discriminate.
Defined.

End TimeWindows.

(** ** What rendering does to the generator and to the files *)

Section RenderEffects.
Import TrendAnalyzer PdfGenerator.

Variable py_strip : string -> string.
Variable py_upper : string -> string.
Variable newlines_to_spaces : string -> string.
Variable str_of_float : option Q -> string.
Variable date_info : nat -> string.
Variable file_timestamp : string.
Variable path_join : string -> string -> string.
Variable chart_raises : list TrendPoint -> string -> bool.
Variable build_raises : string -> list flowable -> bool.

Abbreviation host_flowables :=
  (host_flowables py_strip py_upper newlines_to_spaces str_of_float
                  date_info chart_raises).
Abbreviation hosts_loop :=
  (hosts_loop py_strip py_upper newlines_to_spaces str_of_float
              date_info chart_raises).
Abbreviation build_story :=
  (build_story py_strip py_upper newlines_to_spaces str_of_float
               date_info chart_raises).
Abbreviation generate_report :=
  (generate_report py_strip py_upper newlines_to_spaces str_of_float
                   date_info file_timestamp path_join chart_raises
                   build_raises).

Lemma last_cons_default {A : Type} (l : list A) :
  forall a b d d' : A, List.last (a :: l) d = List.last (b :: a :: l) d'.
Proof.
  induction l as [|x l IH]; intros a b d d'; [reflexivity|].
  change (List.last (x :: l) d = List.last (a :: x :: l) d').
  apply IH.
Qed.

(** The loop leaves [current_host] at the last host it visited. *)
Lemma hosts_loop_current_host (hosts : list (string * list ItemData)) :
  forall (g : Generator) (host_idx : nat) (story : list flowable),
    current_host (fst (hosts_loop g host_idx hosts story))
    = List.last (List.map fst hosts) (current_host g).
Proof.
  induction hosts as [|[h xs] rest IH]; intros g host_idx story;
    [reflexivity|].
  cbn [PdfGenerator.hosts_loop]. rewrite IH.
  cbn [List.map fst]. destruct rest as [|[h' xs'] rest]; [reflexivity|].
  cbn [List.map fst]. apply last_cons_default.
Qed.

Lemma group_by_host_names (items : list ItemData) :
  List.map fst (group_by_host items) = first_seen (List.map host items).
Proof.
  rewrite group_by_host_partition. unfold partition_by_host.
  rewrite List.map_map. apply List.map_id.
Qed.

(** The story of the hosts from one position on does not depend on
    the host that was current before. *)
Lemma hosts_loop_story (hosts : list (string * list ItemData)) :
  forall (g : Generator) (h0 : string) (host_idx : nat)
         (story : list flowable),
    snd (hosts_loop (set_current_host g h0) host_idx hosts story)
    = snd (hosts_loop g host_idx hosts story).
Proof.
  destruct hosts as [|[h xs] rest]; intros g h0 host_idx story; reflexivity.
Qed.

(** X4.  Rendering leaves the generator as it was but for
    [current_host], which ends as the last host in the order of first
    occurrence (and stays as it was when there is no entry); this holds
    whether or not the document could be built. *)
Theorem render_moves_only_current_host (g : Generator) (fs : FileSystem)
    (report_name : string) :
  let g' := snd (fst (generate_report g fs report_name)) in
  current_host g'
  = List.last (first_seen (List.map host (items_data g))) (current_host g)
  /\ items_data g' = items_data g /\ output_dir g' = output_dir g
  /\ report_config g' = report_config g
  /\ report_defaults g' = report_defaults g
  /\ host_configs g' = host_configs g.
Proof.
  cbv zeta. unfold PdfGenerator.generate_report.
  destruct (items_data g) as [|x t] eqn:E.
  - cbn [fst snd]. rewrite E. repeat split; reflexivity.
  - unfold PdfGenerator.build_story.
    pose proof (hosts_loop_frame py_strip py_upper newlines_to_spaces
                  str_of_float date_info chart_raises
                  (group_by_host (items_data g)) g 0%nat []) as Hf.
    pose proof (hosts_loop_current_host (group_by_host (items_data g))
                  g 0%nat []) as Hc.
    rewrite group_by_host_names in Hc. cbv zeta in Hf.
    destruct (hosts_loop g 0 (group_by_host (items_data g)) [])
      as [g' story].
    cbn [fst snd] in Hf, Hc. rewrite E in Hf, Hc.
    match goal with |- context [if ?b then _ else _] => destruct b end;
      cbn [fst snd]; (split; [exact Hc|exact Hf]).
Qed.

(** X5.  The story that rendering builds does not depend on the host
    that was current before: the loop sets the current host before it
    writes the section of a host, so every section is written with the
    configuration of its own host. *)
Theorem story_ignores_previous_host (g : Generator) (h0 : string) :
  snd (build_story (set_current_host g h0)) = snd (build_story g).
Proof.
  unfold PdfGenerator.build_story. apply hosts_loop_story.
Qed.

Hypothesis path_join_named :
  forall dir name : string, name <> ""%string -> path_join dir name <> ""%string.

Lemma cons_neq {A : Type} (x : A) (l : list A) : x :: l <> l.
Proof.
  intros H. apply (f_equal (@List.length A)) in H. simpl in H. lia.
Qed.

(** X6.  (The join of a directory and a file name that is not empty
    is not empty.)  The path that rendering returns tells whether a file was
    written: it is empty exactly when the file system is as before, and
    otherwise the one new file is at that path and holds the story. *)
Theorem render_path_tells_written (g : Generator) (fs : FileSystem)
    (report_name : string) :
  let path := fst (fst (generate_report g fs report_name)) in
  let fs' := snd (generate_report g fs report_name) in
  (path = ""%string <-> fs' = fs)
  /\ (path <> ""%string ->
      fs' = (path, snd (build_story g)) :: fs /\ items_data g <> []
      /\ build_raises path (snd (build_story g)) = false).
Proof.
  cbv zeta. unfold PdfGenerator.generate_report.
  destruct (items_data g) as [|x t] eqn:E.
  - cbn [fst snd]. split; [tauto|]. intros H. contradiction H. reflexivity.
  - destruct (build_story g) as [g' story]. cbn [snd].
    assert (path_join (output_dir g)
              (report_name ++ "_" ++ file_timestamp ++ ".pdf")%string
            <> ""%string) as Hp.
    { apply path_join_named. destruct report_name; discriminate. }
    destruct (build_raises _ story) eqn:Eb; cbn [fst snd].
    + split; [tauto|]. intros H. contradiction H. reflexivity.
    + split.
      * split; [intros H; contradiction|].
        intros H. exfalso. exact (cons_neq _ _ H).
      * intros _. split; [reflexivity|]. split; [discriminate|exact Eb].
Qed.

Lemma builtin_default_nonblank (key : string) :
  In key ["incidentes"; "riesgos"; "alertas"; "dim_rendimiento";
          "dim_contingencia"; "dim_soporte"; "dim_actualizaciones";
          "dim_respaldos"]%string ->
  nonblank (default ""%string (default_report_defaults !! key)) = true.
Proof.
  intros H. repeat (destruct H as [<-|H]; [vm_compute; reflexivity|]).
  destruct H.
Qed.

(** X7.  As long as the defaults are the built-in ones, which
    [set_report_config] keeps when it is given no defaults or an empty
    dict of defaults, the text shown for each of the eight configurable
    statements is never blank: a value that is missing or blank after
    stripping gives way to the default text. *)
Theorem blank_config_falls_back (g : Generator)
    (config : gmap string string) (defaults : option (gmap string string))
    (configs : gmap string (gmap string string)) (key : string) :
  report_defaults g = default_report_defaults ->
  defaults = None \/ defaults = Some ∅ ->
  In key ["incidentes"; "riesgos"; "alertas"; "dim_rendimiento";
          "dim_contingencia"; "dim_soporte"; "dim_actualizaciones";
          "dim_respaldos"]%string ->
  let g' := set_host_configs (set_report_config g config defaults) configs in
  nonblank (_get_config_value py_strip g' key) = true
  /\ nonblank (_get_host_config_value py_strip g' key) = true.
Proof.
  intros Hd Hdef Hkey g'.
  assert (report_defaults g' = default_report_defaults) as Hd'.
  { unfold g'. cbn [report_defaults set_host_configs set_report_config].
    destruct Hdef as [->| ->]; [exact Hd|].
    destruct (decide (∅ = ∅)) as [_|Hn]; [exact Hd|contradiction Hn; reflexivity]. }
  pose proof (builtin_default_nonblank key Hkey) as Hnb.
  unfold _get_config_value, _get_host_config_value. cbv zeta.
  rewrite Hd'. split.
  - destruct (nonblank (py_strip (default ""%string (report_config g' !! key))))
      eqn:E; [exact E|exact Hnb].
  - match goal with
    | |- nonblank (if nonblank ?v then _ else _) = true =>
        destruct (nonblank v) eqn:E; [exact E|exact Hnb]
    end.
Qed.

End RenderEffects.

Lemma render_path_tells_written_witness :
  let path :=
    fst (fst (PdfGenerator.generate_report_quiet
                PdfGenerator.one_entry [] "informe_ejecutivo")) in
  let fs' :=
    snd (PdfGenerator.generate_report_quiet
           PdfGenerator.one_entry [] "informe_ejecutivo") in
  (path = ""%string <-> fs' = [])
  /\ (path <> ""%string ->
      fs' = [(path,
              snd (PdfGenerator.build_story
                     (fun s => s) (fun s => s) (fun s => s)
                     (fun _ => "0.0"%string)
                     (fun _ => "Reporte generado: 1 de enero de 2024"%string)
                     (fun _ _ => false) PdfGenerator.one_entry))]
      /\ PdfGenerator.items_data PdfGenerator.one_entry <> []
      /\ false = false).
Proof.
  apply (render_path_tells_written
           (fun s => s) (fun s => s) (fun s => s) (fun _ => "0.0"%string)
           (fun _ => "Reporte generado: 1 de enero de 2024"%string)
           "20240101_000000"%string
           (fun dir name => (dir ++ "/" ++ name)%string)
           (fun _ _ => false) (fun _ _ => false)).
  intros dir name _. destruct dir; discriminate.
Defined.

Lemma blank_config_falls_back_witness :
  PdfGenerator.nonblank
    (PdfGenerator._get_config_value (fun s => s)
       (PdfGenerator.set_host_configs
          (PdfGenerator.set_report_config (PdfGenerator.init "out") ∅ None) ∅)
       "riesgos")
  = true
  /\ PdfGenerator.nonblank
       (PdfGenerator._get_host_config_value (fun s => s)
          (PdfGenerator.set_host_configs
             (PdfGenerator.set_report_config (PdfGenerator.init "out") ∅ None)
             ∅)
          "riesgos")
     = true.
Proof.
  apply (blank_config_falls_back (fun s => s) (PdfGenerator.init "out") ∅ None
           ∅ "riesgos").
  - reflexivity.
  - left; reflexivity.
  - right; left; reflexivity.
Defined.

(** ** Processing and downloading the chart images *)

Section ImageProcessing.
Import ChartDownloader.

Variable image_open : list N -> option Image.
Variable path_join : pystr -> pystr -> pystr.
Variable makedirs_raises : pystr -> bool.
Variable save_raises : pystr -> Image -> bool.

Lemma split_point_range (h : Z) : 0 <= h -> 0 <= split_point h <= h.
Proof.
  intros Hh. unfold split_point. split.
  - apply Z.div_pos; lia.
  - apply Z.div_le_upper_bound; lia.
Qed.

Lemma in_firstn {A : Type} (n : nat) (l : list A) (x : A) :
  In x (firstn n l) -> In x l.
Proof.
  intros H. rewrite <- (firstn_skipn n l). apply in_or_app. left. exact H.
Qed.

Lemma in_skipn {A : Type} (n : nat) (l : list A) (x : A) :
  In x (skipn n l) -> In x l.
Proof.
  intros H. rewrite <- (firstn_skipn n l). apply in_or_app. right. exact H.
Qed.

(** Cropping the full width keeps the rows as they are. *)
Lemma full_width_rows (w : Z) (l : list (list N)) :
  (forall row, In row l -> Z.of_nat (List.length row) = w) ->
  List.map (fun row => firstn (Z.to_nat (w - 0)) (skipn (Z.to_nat 0) row)) l
  = l.
Proof.
  intros Hw. rewrite <- (List.map_id l) at 2. apply List.map_ext_in.
  intros row Hrow. cbn [Z.to_nat skipn].
  apply firstn_all2. specialize (Hw row Hrow). lia.
Qed.

Lemma process_image_returns (fs fs' : ImageFiles) (image_bytes : list N)
    (item_name output_dir chart_path legend_path : pystr) :
  process_image image_open path_join makedirs_raises save_raises
                fs image_bytes item_name output_dir
  = (Some (chart_path, legend_path), fs') ->
  exists image,
    image_open image_bytes = Some image
    /\ chart_path
       = path_join output_dir
           (_sanitize_filename item_name ++ of_string "_grafico_superior.png")
    /\ legend_path
       = path_join output_dir
           (_sanitize_filename item_name ++ of_string "_datos_leyenda.png")
    /\ fs'
       = (legend_path,
          crop image 0 (split_point (height image)) (width image)
               (height image))
         :: (chart_path,
             crop image 0 0 (width image) (split_point (height image)))
         :: fs.
Proof.
  unfold process_image, save. cbv zeta.
  destruct (makedirs_raises output_dir); [discriminate|].
  destruct (image_open image_bytes) as [image|]; [|discriminate].
  destruct (save_raises _ _); [discriminate|].
  destruct (save_raises _ _); [discriminate|].
  intros H. injection H as <- <- <-. exists image. repeat split.
Qed.

(** X8.  When processing returns, it has written two images, chart
    first, that split the rows of the decoded image between them: the
    chart has the upper three quarters of the rows (rounded down), the
    legend has the rest, both in full width, and no row is lost or
    written twice. *)
Theorem process_image_splits_rows (fs fs' : ImageFiles)
    (image_bytes : list N) (item_name output_dir : pystr)
    (image : Image) (chart_path legend_path : pystr) :
  image_open image_bytes = Some image ->
  (forall row, In row (rows image) ->
               Z.of_nat (List.length row) = width image) ->
  process_image image_open path_join makedirs_raises save_raises
                fs image_bytes item_name output_dir
  = (Some (chart_path, legend_path), fs') ->
  exists chart legend,
    fs' = (legend_path, legend) :: (chart_path, chart) :: fs
    /\ rows chart ++ rows legend = rows image
    /\ width chart = width image /\ width legend = width image
    /\ height chart = height image * 3 / 4
    /\ height chart + height legend = height image.
Proof.
  intros Hopen Hw H.
  destruct (process_image_returns _ _ _ _ _ _ _ H)
    as (image' & Hopen' & _ & _ & ->).
  rewrite Hopen in Hopen'. injection Hopen' as <-.
  eexists; eexists. split; [reflexivity|].
  assert (0 <= height image) as Hh by (unfold height; lia).
  pose proof (split_point_range (height image) Hh) as Hsp.
  set (k := split_point (height image)) in *.
  assert (rows (crop image 0 0 (width image) k)
          = firstn (Z.to_nat k) (rows image)) as Hchart.
  { unfold crop. cbn [rows]. rewrite full_width_rows.
    - replace (k - 0) with k by lia. reflexivity.
    - intros row Hrow. apply Hw.
      cbn [Z.to_nat skipn] in Hrow. exact (in_firstn _ _ _ Hrow). }
  assert (rows (crop image 0 k (width image) (height image))
          = skipn (Z.to_nat k) (rows image)) as Hlegend.
  { unfold crop. cbn [rows]. rewrite full_width_rows.
    - apply firstn_all2. rewrite length_skipn. unfold height. lia.
    - intros row Hrow. apply Hw.
      exact (in_skipn _ _ _ (in_firstn _ _ _ Hrow)). }
  split; [rewrite Hchart; etransitivity;
          [apply f_equal; exact Hlegend|apply firstn_skipn]|].
  split; [cbn [crop width]; lia|]. split; [cbn [crop width]; lia|].
  assert (height (crop image 0 0 (width image) k) = k) as Hhc.
  { unfold height at 1. rewrite Hchart, length_firstn. unfold height in Hsp.
    lia. }
  assert (height (crop image 0 k (width image) (height image))
          = height image - k) as Hhl.
  { unfold height at 1. etransitivity;
      [apply f_equal, f_equal; exact Hlegend|].
    rewrite length_skipn. unfold height in *. lia. }
  split; [exact Hhc|]. lia.
Qed.

Lemma clean_chars (s : pystr) :
  forallb (fun c => negb (is_invalid_char c) && negb (is_space c)) s = true ->
  forall c, In c s -> clean c.
Proof.
  intros H c Hc.
  apply (proj1 (List.forallb_forall _ s) H) in Hc.
  apply andb_prop in Hc. destruct Hc as [Hi Hs].
  apply negb_true_iff in Hi, Hs. split; assumption.
Qed.

Lemma sanitized_length (name : pystr) :
  (List.length (_sanitize_filename name) <= 100)%nat.
Proof.
  unfold _sanitize_filename.
  etransitivity; [apply strip_length|]. apply firstn_le_length.
Qed.

(** X9.  The two files that processing writes are named by the
    sanitized item name followed by a fixed ending: the two names differ,
    have at most 121 characters, and hold no white space and none of the
    characters that the sanitizer replaces, so neither names a file
    outside the output directory. *)
Theorem image_files_named_safely (fs fs' : ImageFiles)
    (image_bytes : list N) (item_name output_dir : pystr)
    (chart_path legend_path : pystr) :
  process_image image_open path_join makedirs_raises save_raises
                fs image_bytes item_name output_dir
  = (Some (chart_path, legend_path), fs') ->
  exists chart_name legend_name,
    chart_path = path_join output_dir chart_name
    /\ legend_path = path_join output_dir legend_name
    /\ chart_name <> legend_name
    /\ (forall c, In c chart_name \/ In c legend_name -> clean c)
    /\ (List.length chart_name <= 121)%nat
    /\ (List.length legend_name <= 121)%nat.
Proof.
  intros H.
  destruct (process_image_returns _ _ _ _ _ _ _ H)
    as (image & _ & -> & -> & _).
  eexists; eexists. split; [reflexivity|]. split; [reflexivity|].
  pose proof (sanitized_length item_name) as Hlen.
  split; [|split; [|split]].
  - intros E. apply app_inv_head in E. discriminate E.
  - intros c [Hc|Hc]; apply in_app_or in Hc;
      (destruct Hc as [Hc|Hc];
       [exact (sanitized_clean _ _ Hc)
       |revert c Hc; apply clean_chars; reflexivity]).
  - rewrite length_app.
    change (List.length (of_string "_grafico_superior.png")) with 21%nat. lia.
  - rewrite length_app.
    change (List.length (of_string "_datos_leyenda.png")) with 18%nat. lia.
Qed.

End ImageProcessing.

Lemma process_image_splits_rows_witness :
  exists chart legend,
    [(ChartDownloader.of_string "out/cpu_datos_leyenda.png",
      ChartDownloader.mkimage 2 [[7; 8]%N]);
     (ChartDownloader.of_string "out/cpu_grafico_superior.png",
      ChartDownloader.mkimage 2 [[1; 2]; [3; 4]; [5; 6]]%N)]
    = [(ChartDownloader.of_string "out/cpu_datos_leyenda.png", legend);
       (ChartDownloader.of_string "out/cpu_grafico_superior.png", chart)]
    /\ ChartDownloader.rows chart ++ ChartDownloader.rows legend
       = ChartDownloader.rows
           (ChartDownloader.mkimage 2 [[1; 2]; [3; 4]; [5; 6]; [7; 8]]%N)
    /\ ChartDownloader.width chart = 2 /\ ChartDownloader.width legend = 2
    /\ ChartDownloader.height chart = 4 * 3 / 4
    /\ ChartDownloader.height chart + ChartDownloader.height legend = 4.
Proof.
  apply (process_image_splits_rows
           (fun _ => Some (ChartDownloader.mkimage
                             2 [[1; 2]; [3; 4]; [5; 6]; [7; 8]]%N))
           (fun dir name => dir ++ [47%N] ++ name)
           (fun _ => false) (fun _ _ => false)
           []
           [(ChartDownloader.of_string "out/cpu_datos_leyenda.png",
             ChartDownloader.mkimage 2 [[7; 8]%N]);
            (ChartDownloader.of_string "out/cpu_grafico_superior.png",
             ChartDownloader.mkimage 2 [[1; 2]; [3; 4]; [5; 6]]%N)]
           [] (ChartDownloader.of_string "cpu")
           (ChartDownloader.of_string "out")
           (ChartDownloader.mkimage 2 [[1; 2]; [3; 4]; [5; 6]; [7; 8]]%N)
           (ChartDownloader.of_string "out/cpu_grafico_superior.png")
           (ChartDownloader.of_string "out/cpu_datos_leyenda.png")).
  - reflexivity.
  - intros row [<-|[<-|[<-|[<-|[]]]]]; reflexivity.
  - reflexivity.
Defined.

Lemma image_files_named_safely_witness :
  exists chart_name legend_name,
    ChartDownloader.of_string "out/cpu_grafico_superior.png"
    = ChartDownloader.of_string "out" ++ [47%N] ++ chart_name
    /\ ChartDownloader.of_string "out/cpu_datos_leyenda.png"
       = ChartDownloader.of_string "out" ++ [47%N] ++ legend_name
    /\ chart_name <> legend_name
    /\ (forall c, In c chart_name \/ In c legend_name ->
                  ChartDownloader.clean c)
    /\ (List.length chart_name <= 121)%nat
    /\ (List.length legend_name <= 121)%nat.
Proof.
  apply (image_files_named_safely
           (fun _ => Some (ChartDownloader.mkimage
                             2 [[1; 2]; [3; 4]; [5; 6]; [7; 8]]%N))
           (fun dir name => dir ++ [47%N] ++ name)
           (fun _ => false) (fun _ _ => false)
           []
           [(ChartDownloader.of_string "out/cpu_datos_leyenda.png",
             ChartDownloader.mkimage 2 [[7; 8]%N]);
            (ChartDownloader.of_string "out/cpu_grafico_superior.png",
             ChartDownloader.mkimage 2 [[1; 2]; [3; 4]; [5; 6]]%N)]
           [] (ChartDownloader.of_string "cpu")
           (ChartDownloader.of_string "out")
           (ChartDownloader.of_string "out/cpu_grafico_superior.png")
           (ChartDownloader.of_string "out/cpu_datos_leyenda.png")).
  reflexivity.
Defined.

(** ** Downloading a chart *)

Section Downloading.
Import ChartDownloader.

Variable session_get : string -> option Response.

Lemma try_download_chart_spec (requests : list string)
    (base_chart_url item_id time_from time_to : string) (width height : Z) :
  let url := chart_url base_chart_url item_id time_from time_to width height in
  let result :=
    fst (_try_download_chart session_get requests base_chart_url item_id
                             time_from time_to width height) in
  snd (_try_download_chart session_get requests base_chart_url item_id
                           time_from time_to width height)
  = requests ++ [url]
  /\ match result with
     | Some body => served_image session_get url body
     | None => forall body, ~ served_image session_get url body
     end.
Proof.
  cbv zeta. unfold _try_download_chart. cbv zeta.
  set (url := chart_url _ _ _ _ _ _).
  destruct (session_get url) as [response|] eqn:E.
  - destruct (Z.eqb_spec (status_code response) 200) as [Hs|Hs]; cbn [negb].
    + destruct (contains "image" (content_type response)) eqn:Ec;
        cbn [fst snd]; (split; [reflexivity|]).
      * exists response. repeat split; assumption.
      * intros body (r & Hr & _ & Hc & _). rewrite E in Hr.
        injection Hr as <-. congruence.
    + cbn [fst snd]. split; [reflexivity|].
      intros body (r & Hr & Hst & _). rewrite E in Hr.
      injection Hr as <-. contradiction.
  - cbn [fst snd]. split; [reflexivity|].
    intros body (r & Hr & _). rewrite E in Hr. discriminate Hr.
Qed.

(** X10.  A download asks the current chart endpoint first and the
    legacy endpoint only when the first gave no image or an empty one;
    it makes no other request.  What it returns is the body of a response
    with status 200 and an image content type, from the endpoint asked
    last: an error page or a login page is never handed on as image
    data. *)
Theorem download_chart_endpoints (requests : list string)
    (base_url item_id time_from time_to : string) (width height : Z) :
  let first :=
    chart_url (base_url ++ "/chart.php") item_id time_from time_to
              width height in
  let legacy :=
    chart_url (base_url ++ "/chart2.php") item_id time_from time_to
              width height in
  let result :=
    fst (download_chart session_get requests base_url item_id
                        time_from time_to width height) in
  let asked :=
    snd (download_chart session_get requests base_url item_id
                        time_from time_to width height) in
  (exists body,
      body <> [] /\ served_image session_get first body
      /\ result = Some body /\ asked = requests ++ [first])
  \/ ((forall body, served_image session_get first body -> body = [])
      /\ asked = requests ++ [first; legacy]
      /\ match result with
         | Some body => served_image session_get legacy body
         | None => forall body, ~ served_image session_get legacy body
         end).
Proof.
  cbv zeta. unfold download_chart.
  pose proof (try_download_chart_spec requests (base_url ++ "/chart.php")
                item_id time_from time_to width height) as H1.
  cbv zeta in H1.
  destruct (_try_download_chart session_get requests
              (base_url ++ "/chart.php") item_id time_from time_to
              width height) as [r1 log1].
  cbn [fst snd] in H1. destruct H1 as [-> H1].
  pose proof (try_download_chart_spec
                (requests
                 ++ [chart_url (base_url ++ "/chart.php") item_id time_from
                       time_to width height])
                (base_url ++ "/chart2.php")
                item_id time_from time_to width height) as H2.
  cbv zeta in H2. rewrite <- app_assoc in H2. cbn [List.app] in H2.
  destruct r1 as [[|b body]|]; cbn [truthy].
  - right. split; [|exact H2].
    intros body (r & Hr & _ & _ & Hb).
    destruct H1 as (r' & Hr' & _ & _ & Hb'). congruence.
  - left. exists (b :: body). cbn [fst snd].
    split; [discriminate|]. split; [exact H1|]. split; reflexivity.
  - right. split; [|exact H2].
    intros body Hb. exfalso. exact (H1 body Hb).
Qed.

End Downloading.

(** ** Percentiles *)

Section Percentiles.
Import TrendAnalyzer.
#[local] Open Scope Q_scope.

Lemma insert_asc_In (x z : Q) (l : list Q) :
  In z (insert_asc x l) <-> z = x \/ In z l.
Proof.
  induction l as [|y t IH]; simpl; [intuition congruence|].
  destruct (Qle_bool x y); simpl; [intuition congruence|].
  rewrite IH. tauto.
Qed.

Lemma sort_asc_In (z : Q) (xs : list Q) : In z (sort_asc xs) <-> In z xs.
Proof.
  induction xs as [|x xs IH]; simpl; [tauto|].
  rewrite insert_asc_In, IH. split; (intros [H|H]; [left; congruence|right; exact H]).
Qed.

Lemma insert_asc_sorted (x : Q) (l : list Q) :
  StronglySorted Qle l -> StronglySorted Qle (insert_asc x l).
Proof.
  induction l as [|y t IH]; simpl; intros Hs.
  - constructor; constructor.
  - inversion Hs as [|? ? Ht Hy]; subst.
    destruct (Qle_bool x y) eqn:E.
    + apply Qle_bool_iff in E. constructor; [exact Hs|].
      constructor; [exact E|].
      apply List.Forall_forall. intros z Hz.
      apply Qle_trans with y; [exact E|].
      exact (proj1 (List.Forall_forall _ _) Hy z Hz).
    + apply Qle_bool_false in E. constructor; [apply IH, Ht|].
      apply List.Forall_forall. intros z Hz.
      apply insert_asc_In in Hz. destruct Hz as [->|Hz].
      * apply Qlt_le_weak, E.
      * exact (proj1 (List.Forall_forall _ _) Hy z Hz).
Qed.

Lemma sort_asc_sorted (xs : list Q) : StronglySorted Qle (sort_asc xs).
Proof.
  induction xs as [|x xs IH]; simpl; [constructor|].
  apply insert_asc_sorted, IH.
Qed.

Lemma nth_sorted (l : list Q) (d : Q) :
  StronglySorted Qle l ->
  forall i j : nat, (i <= j < List.length l)%nat -> nth i l d <= nth j l d.
Proof.
  induction 1 as [|a l Hs IH Hf]; intros i j Hij; simpl in Hij; [lia|].
  destruct i as [|i], j as [|j]; simpl; try lia.
  - apply Qle_refl.
  - apply (proj1 (List.Forall_forall _ _) Hf). apply nth_In. lia.
  - apply IH. lia.
Qed.

Lemma interpolation_between (a b g : Q) :
  a <= b -> 0 <= g -> g <= 1 ->
  a <= a + (b - a) * g /\ a + (b - a) * g <= b.
Proof. intros Hab H0 H1. split; nra. Qed.

Lemma interpolation_mono (a b g g' : Q) :
  a <= b -> g <= g' -> a + (b - a) * g <= a + (b - a) * g'.
Proof. intros Hab Hg. nra. Qed.

(** The position of a quantile on [m + 1] sorted values. *)
Lemma position_bounds (m : nat) (q : Q) :
  0 <= q -> q <= 1 ->
  let h := inject_Z (Z.of_nat m) * q in
  (0 <= Qfloor h <= Z.of_nat m)%Z
  /\ 0 <= h - inject_Z (Qfloor h) /\ h - inject_Z (Qfloor h) <= 1.
Proof.
  intros H0 H1 h.
  assert (0 <= inject_Z (Z.of_nat m)) as Hm.
  { change 0 with (inject_Z 0). rewrite <- Zle_Qle. lia. }
  assert (0 <= h) as Hh0 by (unfold h; nra).
  assert (h <= inject_Z (Z.of_nat m)) as Hh1 by (unfold h; nra).
  destruct (floor_bounds h) as [Hf1 Hf2].
  repeat split.
  - change 0%Z with (Qfloor 0). apply Qfloor_resp_le, Hh0.
  - rewrite <- (Qfloor_Z (Z.of_nat m)). apply Qfloor_resp_le, Hh1.
  - lra.
  - lra.
Qed.

Lemma quantile_value (q : Q) (col : list (option Q)) (x : Q) (xs : list Q) :
  sort_asc (dropna col) = x :: xs ->
  let h := inject_Z (Z.of_nat (List.length xs)) * q in
  let lo := Z.to_nat (Qfloor h) in
  quantile q col
  = Some (Qred (nth lo (x :: xs) x
                + (nth (Nat.min (S lo) (List.length xs)) (x :: xs) x
                   - nth lo (x :: xs) x)
                  * (h - inject_Z (Qfloor h)))).
Proof.
  intros E. unfold quantile. rewrite E. cbv zeta.
  cbn [List.length]. rewrite Nat.sub_succ, Nat.sub_0_r. reflexivity.
Qed.

Lemma some_eq {A : Type} (a b : A) : Some a = Some b -> a = b.
Proof. congruence. Qed.

(** A quantile lies between the two sorted values it interpolates. *)
Lemma quantile_between (q : Q) (col : list (option Q)) (v : Q) :
  0 <= q -> q <= 1 -> quantile q col = Some v ->
  exists a b, In a (dropna col) /\ In b (dropna col) /\ a <= v /\ v <= b.
Proof.
  intros H0 H1 Hv.
  destruct (sort_asc (dropna col)) as [|x xs] eqn:E;
    [unfold quantile in Hv; rewrite E in Hv; discriminate|].
  rewrite (quantile_value q col x xs E) in Hv. cbv zeta in Hv.
  apply some_eq in Hv. subst v.
  destruct (position_bounds (List.length xs) q H0 H1)
    as ([Hk0 Hk1] & Hg0 & Hg1).
  remember (inject_Z (Z.of_nat (List.length xs)) * q) as h eqn:Eh.
  remember (Z.to_nat (Qfloor h)) as lo eqn:Elo.
  assert (lo <= List.length xs)%nat as Hlo by (clear - Elo Hk0 Hk1; lia).
  pose proof (sort_asc_sorted (dropna col)) as Hs. rewrite E in Hs.
  assert (nth lo (x :: xs) x
          <= nth (Nat.min (S lo) (List.length xs)) (x :: xs) x) as Hab
    by (apply nth_sorted; [exact Hs|cbn [List.length]; lia]).
  exists (nth lo (x :: xs) x),
         (nth (Nat.min (S lo) (List.length xs)) (x :: xs) x).
  split; [|split].
  - apply sort_asc_In. rewrite E. apply nth_In. cbn [List.length]. lia.
  - apply sort_asc_In. rewrite E. apply nth_In. cbn [List.length]. lia.
  - rewrite Qred_correct. apply interpolation_between; assumption.
Qed.

Lemma quantile_mono (q q' : Q) (col : list (option Q)) (v v' : Q) :
  0 <= q -> q <= q' -> q' <= 1 ->
  quantile q col = Some v -> quantile q' col = Some v' -> v <= v'.
Proof.
  intros H0 Hqq H1 Hv Hv'.
  destruct (sort_asc (dropna col)) as [|x xs] eqn:E;
    [unfold quantile in Hv; rewrite E in Hv; discriminate|].
  rewrite (quantile_value q col x xs E) in Hv.
  rewrite (quantile_value q' col x xs E) in Hv'.
  cbv zeta in Hv, Hv'. apply some_eq in Hv, Hv'. subst v v'.
  assert (q <= 1) as Hq1 by lra. assert (0 <= q') as Hq0 by lra.
  destruct (position_bounds (List.length xs) q H0 Hq1)
    as ([Hk0 Hk1] & Hg0 & Hg1).
  destruct (position_bounds (List.length xs) q' Hq0 H1)
    as ([Hk0' Hk1'] & Hg0' & Hg1').
  assert (0 <= inject_Z (Z.of_nat (List.length xs))) as Hm.
  { change 0 with (inject_Z 0). rewrite <- Zle_Qle. lia. }
  assert (inject_Z (Z.of_nat (List.length xs)) * q
          <= inject_Z (Z.of_nat (List.length xs)) * q') as Hhh by nra.
  remember (inject_Z (Z.of_nat (List.length xs)) * q) as h eqn:Eh.
  remember (inject_Z (Z.of_nat (List.length xs)) * q') as h' eqn:Eh'.
  pose proof (Qfloor_resp_le _ _ Hhh) as Hkk.
  remember (Z.to_nat (Qfloor h)) as lo eqn:Elo.
  remember (Z.to_nat (Qfloor h')) as lo' eqn:Elo'.
  pose proof (sort_asc_sorted (dropna col)) as Hs. rewrite E in Hs.
  assert (forall i j, (i <= j <= List.length xs)%nat ->
                      nth i (x :: xs) x <= nth j (x :: xs) x) as Hnth
    by (intros i j Hij; apply nth_sorted; [exact Hs|cbn [List.length]; lia]).
  rewrite !Qred_correct.
  assert (lo <= List.length xs)%nat as Hlo by (clear - Elo Hk0 Hk1; lia).
  assert (lo' <= List.length xs)%nat as Hlo'
    by (clear - Elo' Hk0' Hk1'; lia).
  destruct (Z.eq_dec (Qfloor h) (Qfloor h')) as [Ek|Nk].
  - assert (lo' = lo) as -> by congruence.
    apply interpolation_mono; [apply Hnth; lia|].
    rewrite Ek. lra.
  - assert (lo < lo')%nat as Hlt by (clear - Elo Elo' Hk0 Hkk Nk; lia).
    apply Qle_trans with (nth (Nat.min (S lo) (List.length xs)) (x :: xs) x).
    + apply interpolation_between; [apply Hnth; lia| |]; assumption.
    + apply Qle_trans with (nth lo' (x :: xs) x).
      * apply Hnth. lia.
      * apply interpolation_between; [apply Hnth; lia| |]; assumption.
Qed.

Lemma quantile_defined (q q' : Q) (col : list (option Q)) :
  quantile q col = None -> quantile q' col = None.
Proof.
  unfold quantile. destruct (sort_asc (dropna col)); [reflexivity|discriminate].
Qed.

(** X11.  In the summary of a series that is not empty, the 95th
    percentile is at most the 99th; both are numbers, or both are NaN
    (when no average parses). *)
Theorem percentiles_ordered (trends : list TrendPoint) :
  trends <> [] ->
  (forall p, In p trends -> in_bounds (clock p) = true) ->
  exists s,
    calculate_statistics trends = Ok (Some s)
    /\ both Qle (p95 s) (p99 s).
Proof.
  intros Hne Hb. destruct (calculate_statistics_returns trends Hne Hb) as [s H].
  exists s. split; [exact H|].
  apply calculate_statistics_populated in H. destruct H as [_ ->].
  cbn [p95 p99].
  destruct (quantile (95 # 100) (column value_avg trends)) as [a|] eqn:Ea.
  - destruct (quantile (99 # 100) (column value_avg trends)) as [b|] eqn:Eb.
    + simpl. apply round2_mono.
      apply (quantile_mono (95 # 100) (99 # 100)
               (column value_avg trends) a b); try assumption;
        unfold Qle; simpl; lia.
    + rewrite (quantile_defined _ (95 # 100) _ Eb) in Ea. discriminate.
  - rewrite (quantile_defined _ (99 # 100) _ Ea). exact I.
Qed.

Lemma percentiles_ordered_witness :
  exists s,
    calculate_statistics thirds = Ok (Some s)
    /\ both Qle (p95 s) (p99 s).
Proof.
  apply percentiles_ordered.
  - discriminate.
  - intros p [<-|[<-|[<-|[]]]]; reflexivity.
Defined.

(** The averages of well-formed points lie between the least minimum
    and the greatest maximum. *)
Lemma averages_between (trends : list TrendPoint) (lo hi x : Q) :
  (forall p, In p trends -> well_formed p) ->
  col_min (column value_min trends) = Some lo ->
  col_max (column value_max trends) = Some hi ->
  In x (dropna (column value_avg trends)) -> lo <= x /\ x <= hi.
Proof.
  intros Hwf Elo Ehi Hx.
  destruct (col_min_spec _ _ Elo) as [_ Hlo].
  destruct (col_max_spec _ _ Ehi) as [_ Hhi].
  apply in_column in Hx. destruct Hx as (p & v & Hp & Ev & ->).
  destruct (Hwf p Hp) as (_ & a & b & c & Ea & Eb & Ec & Hab & Hbc).
  rewrite Eb in Ev. injection Ev as <-.
  rewrite Qred_correct. split.
  - apply Qle_trans with a; [|exact Hab].
    rewrite <- (Qred_correct a). apply Hlo. apply in_column.
    exists p, a. auto.
  - apply Qle_trans with c; [exact Hbc|].
    rewrite <- (Qred_correct c). apply Hhi. apply in_column.
    exists p, c. auto.
Qed.

(** X12.  For a series that is not empty and whose points are all
    well formed (three values that parse, minimum at most average at most
    maximum, a time stamp in range), the percentiles of the summary lie
    between its minimum and its maximum. *)
Theorem percentiles_within_extremes (trends : list TrendPoint) :
  trends <> [] ->
  (forall p, In p trends -> well_formed p) ->
  exists s lo a b hi,
    calculate_statistics trends = Ok (Some s)
    /\ min_absolute s = Some lo /\ p95 s = Some a /\ p99 s = Some b
    /\ max_absolute s = Some hi
    /\ lo <= a /\ a <= b /\ b <= hi.
Proof.
  intros Hne Hwf.
  destruct (columns_ordered trends Hne Hwf)
    as (lo & m & hi & Elo & Em & Ehi & _ & _).
  assert (forall p, In p trends -> in_bounds (clock p) = true) as Hb
    by (intros p Hp; apply (Hwf p Hp)).
  destruct (calculate_statistics_returns trends Hne Hb) as [s H].
  pose proof H as Hs.
  apply calculate_statistics_populated in Hs. destruct Hs as [_ Hs].
  destruct (quantile (95 # 100) (column value_avg trends)) as [a|] eqn:Ea;
    [|unfold mean in Em; unfold quantile in Ea;
      destruct (dropna (column value_avg trends)) as [|y ys];
      [discriminate Em|];
      destruct (sort_asc (y :: ys)) eqn:E; [|discriminate Ea];
      assert (In y (sort_asc (y :: ys))) as Hin
        by (apply sort_asc_In; left; reflexivity);
      rewrite E in Hin; destruct Hin].
  destruct (quantile (99 # 100) (column value_avg trends)) as [b|] eqn:Eb;
    [|rewrite (quantile_defined _ (95 # 100) _ Eb) in Ea; discriminate].
  exists s, (round2 lo), (round2 a), (round2 b), (round2 hi).
  split; [exact H|]. subst s.
  cbn [min_absolute p95 p99 max_absolute]. rewrite ?Elo, ?Ea, ?Eb, ?Ehi.
  repeat (split; [reflexivity|]).
  assert (0 <= 95 # 100) as H0 by (unfold Qle; simpl; lia).
  assert (95 # 100 <= 99 # 100) as H1 by (unfold Qle; simpl; lia).
  assert (99 # 100 <= 1) as H2 by (unfold Qle; simpl; lia).
  assert (95 # 100 <= 1) as H3 by (unfold Qle; simpl; lia).
  assert (0 <= 99 # 100) as H4 by (unfold Qle; simpl; lia).
  destruct (quantile_between _ _ _ H0 H3 Ea) as (x & _ & Hx & _ & Hxa & _).
  destruct (quantile_between _ _ _ H4 H2 Eb) as (_ & y & _ & Hy & _ & Hby).
  destruct (averages_between trends lo hi x Hwf Elo Ehi Hx) as [Hlx _].
  destruct (averages_between trends lo hi y Hwf Elo Ehi Hy) as [_ Hyh].
  split; [apply round2_mono; lra|].
  split; [apply round2_mono, (quantile_mono _ _ _ a b H0 H1 H2 Ea Eb)|].
  apply round2_mono. lra.
Qed.

Lemma percentiles_within_extremes_witness :
  exists s lo a b hi,
    calculate_statistics monday_friday = Ok (Some s)
    /\ min_absolute s = Some lo /\ p95 s = Some a /\ p99 s = Some b
    /\ max_absolute s = Some hi
    /\ lo <= a /\ a <= b /\ b <= hi.
Proof.
  apply percentiles_within_extremes.
  - discriminate.
  - intros p [<-|[<-|[]]]; (split; [reflexivity|]);
      exists 5, 10, 15; repeat split; discriminate.
Defined.

(** X13.  In the summary of a series that is not empty, the
    standard deviation is NaN exactly when fewer than two averages parse
    (a series of a single point has none), and otherwise it is a number
    that is not negative. *)
Theorem std_deviation_needs_two (trends : list TrendPoint) :
  trends <> [] ->
  (forall p, In p trends -> in_bounds (clock p) = true) ->
  exists s,
    calculate_statistics trends = Ok (Some s)
    /\ (std_deviation s = None
        <-> (List.length (dropna (column value_avg trends)) < 2)%nat)
    /\ (forall x, std_deviation s = Some x -> 0 <= x).
Proof.
  intros Hne Hb. destruct (calculate_statistics_returns trends Hne Hb) as [s H].
  exists s. split; [exact H|].
  apply calculate_statistics_populated in H. destruct H as [_ ->].
  cbn [std_deviation]. unfold round2_std. split.
  - unfold variance.
    destruct (dropna (column value_avg trends)) as [|a [|b t]];
      cbn [option_map List.length]; split; intros H; try reflexivity;
      try lia; discriminate H.
  - intros x Hx.
    destruct (variance (column value_avg trends)) as [v|] eqn:Ev;
      [|discriminate Hx].
    cbn [option_map] in Hx. apply some_eq in Hx. subst x.
    exact (proj1 (proj2 (round2_sqrt_spec v (variance_nonneg _ _ Ev)))).
Qed.

Lemma std_deviation_needs_two_witness :
  exists s,
    calculate_statistics thirds = Ok (Some s)
    /\ (std_deviation s = None
        <-> (List.length (dropna (column value_avg thirds)) < 2)%nat)
    /\ (forall x, std_deviation s = Some x -> 0 <= x).
Proof.
  apply std_deviation_needs_two.
  - discriminate.
  - intros p [<-|[<-|[<-|[]]]]; reflexivity.
Defined.

End Percentiles.

(** ** The peak lists *)

Section PeakLists.
Import TrendAnalyzer.

Context {K : Type}.
Variable leb : K -> K -> bool.
Variable eqb : K -> K -> bool.
Variable lt : K -> K -> Prop.
Hypothesis eqb_eq : forall a b, eqb a b = true <-> a = b.
Hypothesis leb_spec : forall a b, leb a b = true <-> lt a b \/ a = b.
Hypothesis lt_irrefl : forall a, ~ lt a a.
Hypothesis lt_trans : forall a b c, lt a b -> lt b c -> lt a c.
Hypothesis lt_total : forall a b, lt a b \/ a = b \/ lt b a.

Lemma ascending_NoDup (l : list K) : StronglySorted lt l -> List.NoDup l.
Proof.
  induction 1 as [|a l Hs IH Hf]; constructor; [|exact IH].
  intros Hin. apply (lt_irrefl a).
  exact (proj1 (List.Forall_forall _ _) Hf a Hin).
Qed.

Lemma insert_desc_perm (e : K * Q) (l : list (K * Q)) :
  Permutation (insert_desc e l) (e :: l).
Proof.
  induction l as [|e' t IH]; simpl; [reflexivity|].
  destruct (Qle_bool (snd e') (snd e)); [reflexivity|].
  rewrite IH. apply perm_swap.
Qed.

Lemma sort_desc_perm (l : list (K * Q)) : Permutation (sort_desc l) l.
Proof.
  induction l as [|e t IH]; simpl; [reflexivity|].
  rewrite insert_desc_perm, IH. reflexivity.
Qed.

Lemma index_split (s : list (K * option Q)) :
  Permutation (List.map fst (with_value s) ++ nan_index s) (List.map fst s).
Proof.
  induction s as [|[k [v|]] t IH]; simpl; [reflexivity| |].
  - apply perm_skip, IH.
  - rewrite <- IH. symmetry. apply Permutation_middle.
Qed.

Lemma nlargest_all (s : list (K * option Q)) :
  Permutation (List.map fst (sort_desc (with_value s)) ++ nan_index s)
              (List.map fst s).
Proof.
  rewrite <- (index_split s). apply Permutation_app_tail.
  apply Permutation_map, sort_desc_perm.
Qed.

Lemma NoDup_firstn {A : Type} (n : nat) (l : list A) :
  List.NoDup l -> List.NoDup (firstn n l).
Proof.
  intros H. rewrite <- (firstn_skipn n l) in H.
  exact (NoDup_app_remove_r _ _ H).
Qed.

(** The labels that [nlargest] takes from a grouped series are
    distinct, and they are [n] unless there are fewer groups. *)
Lemma nlargest_index_distinct (n : nat) (rows : list (K * option Q)) :
  List.NoDup (nlargest_index n (groupby_mean leb eqb rows))
  /\ List.length (nlargest_index n (groupby_mean leb eqb rows))
     = Nat.min n (List.length (group_keys leb eqb (List.map fst rows)))
  /\ List.NoDup (group_keys leb eqb (List.map fst rows)).
Proof.
  pose proof (nlargest_all (groupby_mean leb eqb rows)) as Hp.
  rewrite groupby_mean_keys in Hp.
  assert (List.NoDup (group_keys leb eqb (List.map fst rows))) as Hk.
  { apply ascending_NoDup.
    apply (group_keys_sorted leb eqb lt eqb_eq leb_spec lt_trans lt_total). }
  unfold nlargest_index. split; [|split; [|exact Hk]].
  - apply NoDup_firstn.
    exact (Permutation_NoDup (Permutation_sym Hp) Hk).
  - rewrite length_firstn. rewrite (Permutation_length Hp). reflexivity.
Qed.

End PeakLists.

Section PeakListsOfSummary.
Import TrendAnalyzer.

Lemma fmt_hour_inj (h h' : Z) :
  0 <= h <= 23 -> 0 <= h' <= 23 -> fmt_hour h = fmt_hour h' -> h = h'.
Proof.
  set (back := fun s : string =>
                 match s with
                 | String a (String b _) =>
                     (Z.of_nat (nat_of_ascii a) - 48) * 10
                     + (Z.of_nat (nat_of_ascii b) - 48)
                 | _ => 0
                 end).
  assert (forall x, 0 <= x <= 23 -> back (fmt_hour x) = x) as Hback.
  { intros x Hx.
    assert (x = 0 \/ x = 1 \/ x = 2 \/ x = 3 \/ x = 4 \/ x = 5 \/ x = 6
            \/ x = 7 \/ x = 8 \/ x = 9 \/ x = 10 \/ x = 11 \/ x = 12
            \/ x = 13 \/ x = 14 \/ x = 15 \/ x = 16 \/ x = 17 \/ x = 18
            \/ x = 19 \/ x = 20 \/ x = 21 \/ x = 22 \/ x = 23) as Hc by lia.
    repeat (destruct Hc as [->|Hc]; [reflexivity|]). subst x. reflexivity. }
  intros Hh Hh' E. rewrite <- (Hback h Hh), <- (Hback h' Hh'), E. reflexivity.
Qed.

Lemma NoDup_map_on {A B : Type} (f : A -> B) (l : list A) :
  (forall x y, In x l -> In y l -> f x = f y -> x = y) ->
  List.NoDup l -> List.NoDup (List.map f l).
Proof.
  intros Hinj Hnd. induction Hnd as [|a l Ha Hnd IH]; simpl; constructor.
  - intros Hin. apply in_map_iff in Hin. destruct Hin as (y & Ey & Hy).
    apply Ha. rewrite (Hinj a y); [exact Hy|left; reflexivity|right; exact Hy|].
    symmetry. exact Ey.
  - apply IH. intros x y Hx Hy. apply Hinj; right; assumption.
Qed.

(** X14.  In the summary of a series that is not empty, no hour and
    no day is listed twice among the peaks; there are at least one and at
    most three of each, and fewer than three only when the series has
    fewer than three distinct hours (or days of the week). *)
Theorem peak_lists_distinct (trends : list TrendPoint) :
  trends <> [] ->
  (forall p, In p trends -> in_bounds (clock p) = true) ->
  exists s hours days,
    calculate_statistics trends = Ok (Some s)
    /\ List.NoDup hours
    /\ (forall h, In h hours <-> exists p, In p trends /\ hour_of (clock p) = h)
    /\ List.NoDup days
    /\ (forall d, In d days
                  <-> exists p, In p trends /\ day_name_of (clock p) = d)
    /\ List.NoDup (peak_hours s) /\ List.NoDup (peak_days s)
    /\ List.length (peak_hours s) = Nat.min 3 (List.length hours)
    /\ List.length (peak_days s) = Nat.min 3 (List.length days)
    /\ (1 <= List.length (peak_hours s))%nat
    /\ (1 <= List.length (peak_days s))%nat.
Proof.
  intros Hne Hb. destruct (calculate_statistics_returns trends Hne Hb) as [s H].
  pose proof H as Hs.
  apply calculate_statistics_populated in Hs. destruct Hs as [_ Hs].
  set (hrows := List.map (fun p => (hour_of (clock p),
                                    to_numeric (value_avg p))) trends).
  set (drows := List.map (fun p => (day_name_of (clock p),
                                    to_numeric (value_avg p))) trends).
  destruct (nlargest_index_distinct Z.leb Z.eqb Z.lt Z.eqb_eq Z_leb_spec
              Z.lt_irrefl Z.lt_trans Z_lt_total 3 hrows)
    as (Hh1 & Hh2 & Hh3).
  destruct (nlargest_index_distinct String.leb String.eqb name_lt
              String.eqb_eq name_leb_spec name_lt_irrefl name_lt_trans
              name_lt_total 3 drows)
    as (Hd1 & Hd2 & Hd3).
  assert (forall h, In h (group_keys Z.leb Z.eqb (List.map fst hrows))
                    <-> exists p, In p trends /\ hour_of (clock p) = h) as Hhk.
  { intros h. rewrite (group_keys_In Z.leb Z.eqb Z.eqb_eq).
    unfold hrows. rewrite List.map_map. cbn [fst]. rewrite in_map_iff.
    split; intros (p & A & B); exists p; tauto. }
  assert (forall d, In d (group_keys String.leb String.eqb
                            (List.map fst drows))
                    <-> exists p, In p trends /\ day_name_of (clock p) = d)
    as Hdk.
  { intros d. rewrite (group_keys_In String.leb String.eqb String.eqb_eq).
    unfold drows. rewrite List.map_map. cbn [fst]. rewrite in_map_iff.
    split; intros (p & A & B); exists p; tauto. }
  assert (forall {A : Type} (l : list A) (x : A),
             In x l -> (1 <= Nat.min 3 (List.length l))%nat) as Hone.
  { intros A l x Hx. destruct l; [destruct Hx|simpl; lia]. }
  assert (exists p0, In p0 trends) as [p0 Hp0]
    by (destruct trends as [|p0 ps];
        [contradiction|exists p0; left; reflexivity]).
  exists s, (group_keys Z.leb Z.eqb (List.map fst hrows)),
         (group_keys String.leb String.eqb (List.map fst drows)).
  split; [exact H|]. split; [exact Hh3|]. split; [exact Hhk|].
  split; [exact Hd3|]. split; [exact Hdk|].
  rewrite Hs. cbn [peak_hours peak_days]. fold hrows drows.
  unfold hourly_avg, daily_avg. fold hrows drows.
  split; [|split; [exact Hd1|]].
  - apply NoDup_map_on; [|exact Hh1].
    assert (forall x, In x (nlargest_index 3 (groupby_mean Z.leb Z.eqb hrows))
                      -> 0 <= x <= 23) as Hrange.
    { intros x Hx. unfold nlargest_index in Hx. apply in_firstn in Hx.
      apply (Permutation_in _ (nlargest_all (groupby_mean Z.leb Z.eqb hrows)))
        in Hx.
      rewrite groupby_mean_keys in Hx. apply Hhk in Hx.
      destruct Hx as (p & _ & <-). apply hour_of_range. }
    intros x y Hx Hy. apply fmt_hour_inj; apply Hrange; assumption.
  - rewrite length_map, Hh2, Hd2.
    split; [reflexivity|]. split; [reflexivity|]. split.
    + apply (Hone _ _ (hour_of (clock p0))). apply Hhk. exists p0. tauto.
    + apply (Hone _ _ (day_name_of (clock p0))). apply Hdk. exists p0. tauto.
Qed.

Lemma peak_lists_distinct_witness :
  exists s hours days,
    calculate_statistics monday_friday = Ok (Some s)
    /\ List.NoDup hours
    /\ (forall h, In h hours
                  <-> exists p, In p monday_friday /\ hour_of (clock p) = h)
    /\ List.NoDup days
    /\ (forall d, In d days
                  <-> exists p, In p monday_friday
                                /\ day_name_of (clock p) = d)
    /\ List.NoDup (peak_hours s) /\ List.NoDup (peak_days s)
    /\ List.length (peak_hours s) = Nat.min 3 (List.length hours)
    /\ List.length (peak_days s) = Nat.min 3 (List.length days)
    /\ (1 <= List.length (peak_hours s))%nat
    /\ (1 <= List.length (peak_days s))%nat.
Proof.
  apply peak_lists_distinct.
  - discriminate.
  - intros p [<-|[<-|[]]]; reflexivity.
Defined.

End PeakListsOfSummary.

(** ** The analysis of one item *)

Section FileStem.
Import ChartDownloader TrendAnalyzer.

Lemma replace_char_In (old new c : N) (s : pystr) :
  In c (replace_char old new s) -> c = new \/ (c <> old /\ In c s).
Proof.
  unfold replace_char. intros H. apply in_map_iff in H.
  destruct H as (x & E & Hx).
  destruct (N.eqb x old) eqn:Ex; [left; congruence|].
  apply N.eqb_neq in Ex. right. subst c. split; assumption.
Qed.

Lemma replace_char_absent (old new : N) (s : pystr) :
  ~ In old s -> replace_char old new s = s.
Proof.
  intros H. unfold replace_char. rewrite <- (List.map_id s) at 2.
  apply List.map_ext_in. intros c Hc.
  destruct (N.eqb c old) eqn:Ec; [|reflexivity].
  apply N.eqb_eq in Ec. subst c. contradiction.
Qed.

(** X15.  The stem of the files of an item has at most 50 characters
    and holds no space and no slash; its characters are those of the host
    name, an underscore and the item name, in order, each space and slash
    turned into an underscore; a name without spaces and slashes that is
    short enough is kept as it is. *)
Theorem safe_name_bounds (host_name item_name : pystr) :
  let name := host_name ++ [underscore] ++ item_name in
  (List.length (safe_name host_name item_name) <= 50)%nat
  /\ ~ In 32%N (safe_name host_name item_name)
  /\ ~ In 47%N (safe_name host_name item_name)
  /\ safe_name host_name item_name
     = firstn 50
         (List.map (fun c => if (c =? 32)%N || (c =? 47)%N then underscore
                             else c) name)
  /\ (~ In 32%N name -> ~ In 47%N name -> (List.length name <= 50)%nat ->
      safe_name host_name item_name = name).
Proof.
  cbv zeta. unfold safe_name.
  set (name := host_name ++ [underscore] ++ item_name).
  split; [apply firstn_le_length|]. split; [|split; [|split]].
  - intros H. apply in_firstn in H.
    apply replace_char_In in H. destruct H as [H|[_ H]]; [discriminate H|].
    apply replace_char_In in H. destruct H as [H|[H _]];
      [discriminate H|contradiction H; reflexivity].
  - intros H. apply in_firstn in H.
    apply replace_char_In in H. destruct H as [H|[H _]];
      [discriminate H|contradiction H; reflexivity].
  - f_equal. unfold replace_char. rewrite List.map_map.
    apply List.map_ext. intros c.
    destruct (N.eqb c 32) eqn:E32; [|reflexivity].
    apply N.eqb_eq in E32. subst c. reflexivity.
  - intros H32 H47 Hlen.
    rewrite (replace_char_absent 32 95 name H32).
    rewrite (replace_char_absent 47 95 name H47).
    apply firstn_all2, Hlen.
Qed.

End FileStem.

Section AnalysisPipeline.
Import ChartDownloader PyDatetime TimeRange TrendAnalyzer.

Variable int_timestamp : datetime -> Z.
Variable py_int : string -> option Z.
Variable now : datetime.
Variable api_trend_get : string -> Z -> Z -> option (list TrendPoint).
Variable deepseek_api_key : option pystr.
Variable deepseek : Summary -> reply.
Variable path_join : pystr -> pystr -> pystr.
Variable csv_raises : pystr -> list TrendPoint -> bool.
Variable txt_raises
  : pystr -> pystr -> option Stats -> pystr -> pystr -> bool.

Abbreviation get_trends :=
  (get_trends int_timestamp py_int now api_trend_get).
Abbreviation get_ai_conclusion :=
  (get_ai_conclusion deepseek_api_key deepseek).
Abbreviation analyze_item :=
  (analyze_item int_timestamp py_int now api_trend_get deepseek_api_key
                deepseek path_join csv_raises txt_raises).

(** X16.  When the time range converts and the trend API fails or has
    no row for it, the analysis returns the empty dict, no conclusion and
    no trends, and it neither writes a file nor asks the language
    model. *)
Theorem analyze_item_without_data (log : list event) (item_id : string)
    (item_name host_name : pystr) (time_from time_to : string)
    (period_name output_dir : pystr) (from_ts to_ts : Z) :
  _convert_time_range int_timestamp py_int now time_from time_to
  = Ok (from_ts, to_ts) ->
  api_trend_get item_id from_ts to_ts = None
  \/ api_trend_get item_id from_ts to_ts = Some [] ->
  analyze_item log item_id item_name host_name time_from time_to
               period_name output_dir
  = (Returned (None, None, []), log).
Proof.
  intros Hc Ha. unfold TrendAnalyzer.analyze_item, TrendAnalyzer.get_trends.
  rewrite Hc. destruct Ha as [-> | ->]; reflexivity.
Qed.

(** X17.  When the analysis returns trends, they are the rows that the
    trend API gave for the converted range, the statistics are the
    populated summary of these rows, and what it did to the world is, in
    this order: it wrote the CSV file with a header and one row per trend,
    asked the language model if and only if an API key is set, and wrote
    the conclusion file if and only if the conclusion is not empty.
    Without an API key there is no conclusion. *)
Theorem analyze_item_with_data (log log' : list event) (item_id : string)
    (item_name host_name : pystr) (time_from time_to : string)
    (period_name output_dir : pystr) (stats : option Stats)
    (conclusion : option pystr) (trends : list TrendPoint) :
  analyze_item log item_id item_name host_name time_from time_to
               period_name output_dir
  = (Returned (stats, conclusion, trends), log') ->
  trends <> [] ->
  exists from_ts to_ts s,
    _convert_time_range int_timestamp py_int now time_from time_to
    = Ok (from_ts, to_ts)
    /\ api_trend_get item_id from_ts to_ts = Some trends
    /\ calculate_statistics trends = Ok (Some s) /\ stats = Some s
    /\ log'
       = log
         ++ [WriteCsv (path_join output_dir
                         (safe_name host_name item_name
                          ++ of_string "_trends.csv"))
                      (S (List.length trends))]
         ++ (if nonempty deepseek_api_key
             then [AskModel (generate_summary_json item_name host_name stats
                               period_name)]
             else [])
         ++ (if nonempty conclusion
             then [WriteConclusion
                     (path_join output_dir
                        (safe_name host_name item_name
                         ++ of_string "_conclusion.txt"))
                     (default [] conclusion)]
             else [])
    /\ (nonempty deepseek_api_key = false -> conclusion = None).
Proof.
  unfold TrendAnalyzer.analyze_item, TrendAnalyzer.get_trends.
  destruct (_convert_time_range int_timestamp py_int now time_from time_to)
    as [[from_ts to_ts]|e] eqn:Hc; [|discriminate].
  destruct (api_trend_get item_id from_ts to_ts) as [[|p ps]|] eqn:Ha;
    try (intros H Hne; injection H as <- <- <- <-; contradiction Hne;
         reflexivity).
  unfold save_csv. cbv zeta.
  destruct (csv_raises _ _) eqn:Hw1; cbv beta iota; [discriminate|].
  destruct (calculate_statistics (p :: ps)) as [st|e] eqn:Hs;
    cbv beta iota; [|discriminate].
  assert (exists s, st = Some s) as [s ->].
  { destruct st as [s|]; [exists s; reflexivity|].
    unfold calculate_statistics in Hs.
    destruct (forallb _ (p :: ps)); discriminate Hs. }
  unfold TrendAnalyzer.get_ai_conclusion.
  destruct (nonempty deepseek_api_key) eqn:Hk; cbn [negb];
    cbv beta iota zeta.
  - destruct (deepseek _) as [text| |] eqn:Hd; cbv beta iota;
      [| |discriminate].
    + destruct (strip_space text) as [|c t] eqn:Et; cbv beta iota.
      * intros H Hne. injection H as <- <- <- <-.
        exists from_ts, to_ts, s.
        split; [reflexivity|]. split; [exact Ha|]. split; [exact Hs|].
        split; [reflexivity|].
        split; [|intros Hf; discriminate Hf].
        cbn [nonempty default]. rewrite ?app_nil_r, <- ?app_assoc.
        reflexivity.
      * unfold save_conclusion_txt. cbv zeta.
        destruct (txt_raises
                    (path_join output_dir
                       (safe_name host_name item_name
                        ++ of_string "_conclusion.txt"))
                    (c :: t) (Some s) item_name host_name) eqn:Hw2;
          cbv beta iota; [discriminate|].
        intros H Hne. injection H as <- <- <- <-.
        exists from_ts, to_ts, s.
        split; [reflexivity|]. split; [exact Ha|]. split; [exact Hs|].
        split; [reflexivity|].
        split; [|intros Hf; discriminate Hf].
        cbn [nonempty default]. rewrite ?app_nil_r, <- ?app_assoc.
        reflexivity.
    + intros H Hne. injection H as <- <- <- <-.
      exists from_ts, to_ts, s.
        split; [reflexivity|]. split; [exact Ha|]. split; [exact Hs|].
        split; [reflexivity|].
      split; [|intros Hf; discriminate Hf].
      cbn [nonempty default]. rewrite ?app_nil_r, <- ?app_assoc.
      reflexivity.
  - intros H Hne. injection H as <- <- <- <-.
    exists from_ts, to_ts, s.
        split; [reflexivity|]. split; [exact Ha|]. split; [exact Hs|].
        split; [reflexivity|].
    split; [|reflexivity].
    cbn [nonempty default]. rewrite ?app_nil_r, <- ?app_assoc.
    reflexivity.
Qed.

End AnalysisPipeline.

Lemma analyze_item_without_data_witness :
  TrendAnalyzer.analyze_item
    TimeRange.utc_timestamp (fun _ => None)
    (PyDatetime.mkdatetime 2024 3 31 13 45 10 250)
    (fun _ _ _ => None) None (fun _ => TrendAnalyzer.Caught)
    (fun dir name => dir ++ [47%N] ++ name) (fun _ _ => false)
      (fun _ _ _ _ _ => false)
    [] "42" (ChartDownloader.of_string "CPU") (ChartDownloader.of_string "db01")
    "now-30d" "now" (ChartDownloader.of_string "30d")
    (ChartDownloader.of_string "out")
  = (TrendAnalyzer.Returned (None, None, []), []).
Proof.
  eapply analyze_item_without_data.
  - reflexivity.
  - left. reflexivity.
Defined.

Lemma analyze_item_with_data_witness :
  exists stats log',
    TrendAnalyzer.analyze_item
      TimeRange.utc_timestamp (fun _ => None)
      (PyDatetime.mkdatetime 2024 3 31 13 45 10 250)
      (fun _ _ _ => Some TrendAnalyzer.thirds) None
      (fun _ => TrendAnalyzer.Caught)
      (fun dir name => dir ++ [47%N] ++ name) (fun _ _ => false)
      (fun _ _ _ _ _ => false)
      [] "42" (ChartDownloader.of_string "CPU")
      (ChartDownloader.of_string "db01")
      "now-30d" "now" (ChartDownloader.of_string "30d")
      (ChartDownloader.of_string "out")
    = (TrendAnalyzer.Returned (stats, None, TrendAnalyzer.thirds), log')
    /\ exists (from_ts to_ts : Z) (s : TrendAnalyzer.Stats),
         TimeRange._convert_time_range
           TimeRange.utc_timestamp (fun _ => None)
           (PyDatetime.mkdatetime 2024 3 31 13 45 10 250) "now-30d" "now"
         = Ok (from_ts, to_ts)
         /\ Some TrendAnalyzer.thirds = Some TrendAnalyzer.thirds
         /\ TrendAnalyzer.calculate_statistics TrendAnalyzer.thirds
            = Ok (Some s)
         /\ stats = Some s
         /\ log'
            = [TrendAnalyzer.WriteCsv
                 (ChartDownloader.of_string "out/db01_CPU_trends.csv") 4]
         /\ (false = false -> @None ChartDownloader.pystr = None).
Proof.
  eexists. eexists. split; [vm_compute; reflexivity|].
  eapply (analyze_item_with_data
            TimeRange.utc_timestamp (fun _ => None)
            (PyDatetime.mkdatetime 2024 3 31 13 45 10 250)
            (fun _ _ _ => Some TrendAnalyzer.thirds) None
            (fun _ => TrendAnalyzer.Caught)
            (fun dir name => dir ++ [47%N] ++ name) (fun _ _ => false)
      (fun _ _ _ _ _ => false)
            [] _ "42" (ChartDownloader.of_string "CPU")
            (ChartDownloader.of_string "db01")
            "now-30d" "now" (ChartDownloader.of_string "30d")
            (ChartDownloader.of_string "out") _ None TrendAnalyzer.thirds).
  - vm_compute. reflexivity.
  - discriminate.
Defined.

(** ** The y axis of a chart *)

Section ChartAxis.
Import TrendAnalyzer PdfGenerator.
#[local] Open Scope Q_scope.



End ChartAxis.

(** ** The month named in the prompt *)

Section PromptMonth.
Import PyDatetime TrendAnalyzer.

(** The month and the day that [_ord2ymd] finds for the day [n]
    (counted from 0) of a year, leap or not. *)
Lemma day_of_year_checked :
  forallb
    (fun leapyear =>
       forallb
         (fun i =>
            let n := Z.of_nat i in
            let month := Z.shiftr (n + 50) 5 in
            let preceding :=
              index _DAYS_BEFORE_MONTH month
              + (if (month >? 2) && leapyear then 1 else 0) in
            let md :=
              if preceding >? n then
                (month - 1,
                 n - (preceding
                      - (index _DAYS_IN_MONTH (month - 1)
                         + (if (month - 1 =? 2) && leapyear then 1 else 0)))
                 + 1)
              else (month, n - preceding + 1) in
            (1 <=? fst md) && (fst md <=? 12) && (1 <=? snd md)
            && (snd md <=? (if (fst md =? 2) && leapyear then 29
                            else index _DAYS_IN_MONTH (fst md))))
         (seq 0 365))
    [true; false]
  = true.
Proof. vm_compute. reflexivity. Qed.

Lemma leap_year_of_parts (n400 n100 n4 n1 : Z) :
  0 <= n100 <= 3 -> 0 <= n4 <= 24 -> 0 <= n1 <= 3 ->
  _is_leap (n400 * 400 + 1 + n100 * 100 + n4 * 4 + n1)
  = (n1 =? 3) && (negb (n4 =? 24) || (n100 =? 3)).
Proof.
  intros H100 H4 H1. unfold _is_leap.
  set (y := n400 * 400 + 1 + n100 * 100 + n4 * 4 + n1).
  assert (y mod 4 = (n1 + 1) mod 4) as E4.
  { unfold y.
    replace (n400 * 400 + 1 + n100 * 100 + n4 * 4 + n1)
      with (n1 + 1 + (n400 * 100 + n100 * 25 + n4) * 4) by lia.
    apply Z.mod_add. lia. }
  assert (y mod 100 = (n4 * 4 + n1 + 1) mod 100) as E100.
  { unfold y.
    replace (n400 * 400 + 1 + n100 * 100 + n4 * 4 + n1)
      with (n4 * 4 + n1 + 1 + (n400 * 4 + n100) * 100) by lia.
    apply Z.mod_add. lia. }
  assert (y mod 400 = (n100 * 100 + n4 * 4 + n1 + 1) mod 400) as E400.
  { unfold y.
    replace (n400 * 400 + 1 + n100 * 100 + n4 * 4 + n1)
      with (n100 * 100 + n4 * 4 + n1 + 1 + n400 * 400) by lia.
    apply Z.mod_add. lia. }
  rewrite E4, E100, E400.
  destruct (Z.eqb_spec n1 3) as [->|N1];
    destruct (Z.eqb_spec n4 24) as [->|N4];
    destruct (Z.eqb_spec n100 3) as [->|N100];
    cbn [negb andb orb];
    repeat match goal with
           | |- context [?a mod ?b =? 0] =>
               destruct (Z.eqb_spec (a mod b) 0)
           end;
    cbn [negb andb orb]; try reflexivity; exfalso;
    Z.div_mod_to_equations; lia.
Qed.

(** The date of an ordinal is a date of the calendar. *)
Lemma ord2ymd_valid (N y m d : Z) :
  1 <= N <= MAXORDINAL -> _ord2ymd N = (y, m, d) ->
  1 <= y <= 9999 /\ 1 <= m <= 12 /\ 1 <= d <= _days_in_month y m
  /\ 365 * (y - 1) <= N - 1 /\ N - 1 <= 366 * y.
Proof.
  unfold MAXORDINAL, _ord2ymd, _DI400Y, _DI100Y, _DI4Y. cbv zeta.
  intros HN.
  set (n0 := N - 1).
  set (n400 := n0 / 146097). set (r400 := n0 mod 146097).
  set (n100 := r400 / 36524). set (r100 := r400 mod 36524).
  set (n4 := r100 / 1461). set (r4 := r100 mod 1461).
  set (n1 := r4 / 365). set (n := r4 mod 365).
  assert (n0 = 146097 * n400 + r400 /\ 0 <= r400 < 146097) as [E400 R400]
    by (unfold n400, r400; split;
        [apply Z.div_mod; lia|apply Z.mod_pos_bound; lia]).
  assert (r400 = 36524 * n100 + r100 /\ 0 <= r100 < 36524) as [E100 R100]
    by (unfold n100, r100; split;
        [apply Z.div_mod; lia|apply Z.mod_pos_bound; lia]).
  assert (r100 = 1461 * n4 + r4 /\ 0 <= r4 < 1461) as [E4 R4]
    by (unfold n4, r4; split;
        [apply Z.div_mod; lia|apply Z.mod_pos_bound; lia]).
  assert (r4 = 365 * n1 + n /\ 0 <= n < 365) as [E1 R1]
    by (unfold n1, n; split;
        [apply Z.div_mod; lia|apply Z.mod_pos_bound; lia]).
  assert (n0 = N - 1) as En0 by reflexivity.
  clearbody n0 n400 r400 n100 r100 n4 r4 n1 n.
  assert (0 <= n400 /\ 0 <= n100 <= 4 /\ 0 <= n4 <= 24 /\ 0 <= n1 <= 4)
    as (B400 & B100 & B4 & B1) by lia.
  destruct ((n1 =? 4) || (n100 =? 4)) eqn:Especial.
  - intros E. injection E as <- <- <-.
    apply orb_true_iff in Especial.
    rewrite !Z.eqb_eq in Especial.
    assert (_days_in_month
              (n400 * 400 + 1 + n100 * 100 + n4 * 4 + n1 - 1) 12 = 31) as ->
      by reflexivity.
    lia.
  - apply orb_false_iff in Especial. rewrite !Z.eqb_neq in Especial.
    assert (0 <= n100 <= 3) as B100' by lia.
    assert (0 <= n1 <= 3) as B1' by lia.
    pose proof (leap_year_of_parts n400 n100 n4 n1 B100' B4 B1') as Hleap.
    set (leapyear := (n1 =? 3) && (negb (n4 =? 24) || (n100 =? 3))) in *.
    set (year := n400 * 400 + 1 + n100 * 100 + n4 * 4 + n1) in *.
    assert (In leapyear [true; false]) as Hl
      by (destruct leapyear; simpl; auto).
    assert (In (Z.to_nat n) (seq 0 365)) as Hn by (apply in_seq; lia).
    pose proof (proj1 (List.forallb_forall _ _)
                  (proj1 (List.forallb_forall _ _) day_of_year_checked
                     leapyear Hl) (Z.to_nat n) Hn) as Hc.
    cbv beta zeta in Hc. rewrite Z2Nat.id in Hc by lia.
    intros E.
    destruct (index _DAYS_BEFORE_MONTH (Z.shiftr (n + 50) 5)
              + (if (Z.shiftr (n + 50) 5 >? 2) && leapyear then 1 else 0)
              >? n) eqn:Ep;
      injection E as <- <- <-; cbn [fst snd] in Hc;
      repeat (apply andb_prop in Hc; destruct Hc as [Hc ?]);
      unfold _days_in_month; rewrite Hleap;
      (assert (1 <= year <= 9999) by (unfold year; lia));
      (assert (365 * (year - 1) <= N - 1 /\ N - 1 <= 366 * year)
        by (unfold year; lia));
      lia.
Qed.

Lemma code_digit (k : Z) : code (digit k) = 48 + k mod 10.
Proof.
  unfold code, digit.
  pose proof (Z.mod_pos_bound k 10 ltac:(lia)) as Hk.
  rewrite nat_ascii_embedding by lia. lia.
Qed.

Lemma match_year_digits (y : Z) (rest : list ascii) :
  0 <= y <= 9999 ->
  match_year (digit (y / 1000) :: digit (y / 100) :: digit (y / 10)
              :: digit y :: rest)
  = Some (y, rest).
Proof.
  intros Hy. unfold match_year, digit_between, digit_value.
  rewrite !code_digit.
  pose proof (Z.mod_pos_bound (y / 1000) 10 ltac:(lia)).
  pose proof (Z.mod_pos_bound (y / 100) 10 ltac:(lia)).
  pose proof (Z.mod_pos_bound (y / 10) 10 ltac:(lia)).
  pose proof (Z.mod_pos_bound y 10 ltac:(lia)).
  repeat match goal with
         | |- context [?a <=? ?b] =>
             replace (a <=? b) with true by (symmetry; apply Z.leb_le; lia)
         end.
  cbn [andb]. f_equal. f_equal. Z.div_mod_to_equations. lia.
Qed.

(** Month and day, as [strftime] writes them, are read back. *)
Lemma month_day_checked :
  forallb
    (fun i =>
       forallb
         (fun j =>
            match match_month
                    (list_ascii_of_string
                       (fmt02 (Z.of_nat i) ++ "-" ++ fmt02 (Z.of_nat j)))
            with
            | Some (m, s) =>
                (m =? Z.of_nat i)
                && match match_day s with
                   | Some (d, []) => d =? Z.of_nat j
                   | _ => false
                   end
            | None => false
            end)
         (seq 1 31))
    (seq 1 12)
  = true.
Proof. vm_compute. reflexivity. Qed.

Lemma month_day_read_back (m d : Z) :
  1 <= m <= 12 -> 1 <= d <= 31 ->
  exists s,
    match_month (list_ascii_of_string (fmt02 m ++ "-" ++ fmt02 d))
    = Some (m, s)
    /\ match_day s = Some (d, []).
Proof.
  intros Hm Hd.
  assert (In (Z.to_nat m) (seq 1 12)) as Hi by (apply in_seq; lia).
  assert (In (Z.to_nat d) (seq 1 31)) as Hj by (apply in_seq; lia).
  pose proof (proj1 (List.forallb_forall _ _)
                (proj1 (List.forallb_forall _ _) month_day_checked
                   (Z.to_nat m) Hi) (Z.to_nat d) Hj) as Hc.
  cbv beta in Hc. rewrite !Z2Nat.id in Hc by lia.
  destruct (match_month (list_ascii_of_string (fmt02 m ++ "-" ++ fmt02 d)))
    as [[m' s]|]; [|discriminate Hc].
  apply andb_prop in Hc. destruct Hc as [Em Hc].
  apply Z.eqb_eq in Em. subst m'. exists s. split; [reflexivity|].
  destruct (match_day s) as [[d' [|c t]]|]; try discriminate Hc.
  apply Z.eqb_eq in Hc. subst d'. reflexivity.
Qed.

(** A date of four-digit year, as [strftime] writes it, is read back
    by [strptime]. *)
Lemma strptime_strftime (y m d : Z) :
  1 <= y <= 9999 -> 1 <= m <= 12 -> 1 <= d <= _days_in_month y m ->
  strptime_ymd (fmt04 y ++ "-" ++ fmt02 m ++ "-" ++ fmt02 d)
  = Some (y, m, d).
Proof.
  intros Hy Hm Hd.
  pose proof (days_in_month_range y m Hm) as Hdim.
  destruct (month_day_read_back m d Hm ltac:(lia)) as (s & Es & Ed).
  unfold strptime_ymd.
  change (list_ascii_of_string (fmt04 y ++ "-" ++ fmt02 m ++ "-" ++ fmt02 d))
    with (digit (y / 1000) :: digit (y / 100) :: digit (y / 10) :: digit y
          :: "-"%char
          :: list_ascii_of_string (fmt02 m ++ "-" ++ fmt02 d)).
  rewrite match_year_digits by lia.
  change (is_hyphen "-") with true. cbv iota.
  rewrite Es, Ed.
  replace (MINYEAR <=? y) with true
    by (symmetry; apply Z.leb_le; unfold MINYEAR; lia).
  replace (d <=? _days_in_month y m) with true
    by (symmetry; apply Z.leb_le; lia).
  reflexivity.
Qed.

Lemma in_bounds_ordinal (c : Z) :
  in_bounds c = true -> 612411 <= 719163 + c / 86400 <= 825914.
Proof.
  unfold in_bounds. intros H. apply andb_prop in H. destruct H as [H1 H2].
  apply Z.leb_le in H1, H2. Z.div_mod_to_equations. lia.
Qed.

(** For a time stamp in range, the text of [strftime] is read back
    as the date of the time stamp. *)
Lemma strptime_of_clock (c : Z) :
  in_bounds c = true ->
  strptime_ymd (strftime_ymd c) = Some (_ord2ymd (719163 + c / 86400))
  /\ 1 <= snd (fst (_ord2ymd (719163 + c / 86400))) <= 12.
Proof.
  intros Hb. pose proof (in_bounds_ordinal c Hb) as Hn.
  unfold strftime_ymd.
  destruct (_ord2ymd (719163 + c / 86400)) as [[y m] d] eqn:E.
  assert (1 <= 719163 + c / 86400 <= MAXORDINAL) as HN
    by (unfold MAXORDINAL; lia).
  destruct (ord2ymd_valid _ y m d HN E) as (Hy & Hm & Hd & _).
  split; [|exact Hm].
  apply strptime_strftime; assumption.
Qed.

(** X19.  For the summary of a series that is not empty, the month
    that the prompt names is the month of the date (in UTC) of the
    earliest trend, by its Spanish name; the phrase kept for a period
    that does not parse is never used. *)
Theorem prompt_names_month_of_earliest_trend (trends : list TrendPoint) :
  trends <> [] ->
  (forall p, In p trends -> in_bounds (clock p) = true) ->
  exists s p,
    calculate_statistics trends = Ok (Some s)
    /\ In p trends /\ (forall q, In q trends -> clock p <= clock q)
    /\ 1 <= snd (fst (_ord2ymd (719163 + clock p / 86400))) <= 12
    /\ prompt_month_name (Some s)
       = nth (Z.to_nat (snd (fst (_ord2ymd (719163 + clock p / 86400))) - 1))
             month_names ""%string
    /\ In (prompt_month_name (Some s)) month_names.
Proof.
  intros Hne Hb. destruct (calculate_statistics_returns trends Hne Hb) as [s H].
  pose proof H as Hs.
  apply calculate_statistics_populated in Hs. destruct Hs as [_ Hs].
  destruct trends as [|p0 ps]; [contradiction|].
  cbn [hd tl] in Hs.
  destruct (fold_min_spec (List.map clock ps) (clock p0)) as [Hin Hlow].
  change (fold_left Z.min (List.map clock ps) (clock p0))
    with (clock_min (clock p0) (List.map clock ps)) in Hin, Hlow.
  change (clock p0 :: List.map clock ps)
    with (List.map clock (p0 :: ps)) in Hin, Hlow.
  apply in_map_iff in Hin. destruct Hin as (p & Ep & Hp).
  exists s, p. split; [exact H|]. split; [exact Hp|].
  split; [intros q Hq; rewrite Ep; apply Hlow, in_map, Hq|].
  destruct (strptime_of_clock (clock p) (Hb p Hp)) as [Hparse Hm].
  split; [exact Hm|].
  assert (prompt_month_name (Some s)
          = nth (Z.to_nat
                   (snd (fst (_ord2ymd (719163 + clock p / 86400))) - 1))
                month_names ""%string) as Hname.
  { unfold prompt_month_name. cbv zeta. rewrite Hs. cbn [period_start].
    rewrite <- Ep, Hparse.
    destruct (_ord2ymd (719163 + clock p / 86400)) as [[y m] d].
    reflexivity. }
  split; [exact Hname|].
  rewrite Hname. apply nth_In.
  change (List.length month_names) with 12%nat. lia.
Qed.

Lemma prompt_names_month_of_earliest_trend_witness :
  exists s p,
    calculate_statistics monday_friday = Ok (Some s)
    /\ In p monday_friday
    /\ (forall q, In q monday_friday -> clock p <= clock q)
    /\ 1 <= snd (fst (_ord2ymd (719163 + clock p / 86400))) <= 12
    /\ prompt_month_name (Some s)
       = nth (Z.to_nat (snd (fst (_ord2ymd (719163 + clock p / 86400))) - 1))
             month_names ""%string
    /\ In (prompt_month_name (Some s)) month_names.
Proof.
  apply prompt_names_month_of_earliest_trend.
  - discriminate.
  - intros p [<-|[<-|[]]]; reflexivity.
Defined.

End PromptMonth.

(** ** Sanitizing a sanitized name *)

Section SanitizeTwice.
Import ChartDownloader.

Variable p : N -> bool.

Lemma sub_runs_shorter (b : bool) (s : pystr) :
  (List.length (sub_runs p b s) <= List.length s)%nat.
Proof.
  revert b. induction s as [|c t IH]; intros b; simpl; [lia|].
  destruct (p c); [destruct b|]; simpl;
    [pose proof (IH true)|pose proof (IH true)|pose proof (IH false)]; lia.
Qed.

(** A text without characters of the class is left as it is. *)
Lemma sub_runs_outside (b : bool) (s : pystr) :
  (forall c, In c s -> p c = false) -> sub_runs p b s = s.
Proof.
  revert b. induction s as [|c t IH]; intros b Hs; simpl; [reflexivity|].
  rewrite (Hs c (or_introl eq_refl)). f_equal.
  apply IH. intros x Hx. apply Hs. right. exact Hx.
Qed.

Lemma sub_class_outside (s : pystr) :
  (forall c, In c s -> p c = false) -> sub_class p s = s.
Proof.
  intros Hs. unfold sub_class. rewrite <- (List.map_id s) at 2.
  apply List.map_ext_in. intros c Hc. rewrite (Hs c Hc). reflexivity.
Qed.

Hypothesis underscore_in_class : p underscore = true.

(** Replacing the runs of underscores a second time changes
    nothing. *)
Lemma sub_runs_again (s : pystr) :
  forall b b' : bool,
    (b' = true -> b = true) ->
    sub_runs p b' (sub_runs p b s) = sub_runs p b s.
Proof.
  induction s as [|c t IH]; intros b b' Hb; simpl; [reflexivity|].
  destruct (p c) eqn:E.
  - destruct b.
    + apply IH. reflexivity.
    + destruct b'; [discriminate (Hb eq_refl)|].
      simpl. rewrite underscore_in_class. f_equal. apply IH. reflexivity.
  - simpl. rewrite E. f_equal. apply IH. discriminate.
Qed.

(** A text that the replacement leaves as it is has prefixes that
    it leaves as they are. *)
Lemma sub_runs_prefix (s : pystr) :
  forall (b : bool) (n : nat),
    sub_runs p b s = s -> sub_runs p b (firstn n s) = firstn n s.
Proof.
  induction s as [|c t IH]; intros b n H; [rewrite firstn_nil; reflexivity|].
  destruct n as [|n]; [reflexivity|].
  simpl in H. cbn [firstn sub_runs].
  destruct (p c) eqn:E.
  - destruct b.
    + exfalso. pose proof (sub_runs_shorter true t) as Hl.
      rewrite H in Hl. simpl in Hl. lia.
    + injection H as Hc Ht. f_equal; [exact Hc|apply IH; exact Ht].
  - injection H as Ht. f_equal. apply IH. exact Ht.
Qed.

End SanitizeTwice.

Section SanitizeIdempotent.
Import ChartDownloader.

Lemma lstrip_unchanged (c : N) (s : pystr) :
  (forall t, s <> c :: t) -> lstrip c s = s.
Proof.
  intros H. destruct s as [|x t]; [reflexivity|]. simpl.
  destruct (N.eqb_spec x c) as [E|_]; [|reflexivity].
  exfalso. apply (H t). rewrite E. reflexivity.
Qed.

Lemma rstrip_unchanged (c : N) (s : pystr) :
  (forall t, s <> t ++ [c]) -> rstrip c s = s.
Proof.
  intros H. unfold rstrip. rewrite lstrip_unchanged; [apply rev_involutive|].
  intros t E. apply (H (rev t)).
  rewrite <- (rev_involutive s), E. reflexivity.
Qed.

Lemma rstrip_prefix (c : N) (s : pystr) :
  rstrip c s = firstn (List.length (rstrip c s)) s.
Proof.
  destruct (rstrip_split c s) as [k Hk]. rewrite Hk at 3.
  rewrite firstn_app, Nat.sub_diag, firstn_all. cbn [firstn].
  rewrite app_nil_r. reflexivity.
Qed.

Lemma underscore_runs_lstrip (s : pystr) :
  sub_runs (N.eqb underscore) false s = s ->
  sub_runs (N.eqb underscore) false (lstrip underscore s)
  = lstrip underscore s.
Proof.
  destruct s as [|x t]; [reflexivity|]. intros H.
  cbn [lstrip]. destruct (N.eqb x underscore) eqn:Ex; [|exact H].
  apply N.eqb_eq in Ex. subst x.
  cbn [sub_runs] in H. rewrite N.eqb_refl in H. injection H as H.
  destruct t as [|y t']; [reflexivity|].
  cbn [sub_runs] in H. cbn [lstrip].
  destruct (N.eqb underscore y) eqn:Ey.
  - exfalso.
    pose proof (sub_runs_shorter (N.eqb underscore) true t') as Hl.
    rewrite H in Hl. cbn [List.length] in Hl. lia.
  - rewrite N.eqb_sym in Ey. rewrite Ey.
    cbn [sub_runs]. rewrite N.eqb_sym, Ey. exact H.
Qed.

(** X20.  Sanitizing is idempotent: a sanitized name is a name that
    the sanitizer leaves as it is. *)
Theorem sanitize_filename_idempotent (name : pystr) :
  _sanitize_filename (_sanitize_filename name) = _sanitize_filename name.
Proof.
  set (safe := _sanitize_filename name).
  assert (forall c, In c safe -> is_invalid_char c = false) as Hinv
    by (intros c Hc; apply (sanitized_clean name c Hc)).
  assert (forall c, In c safe -> is_space c = false) as Hsp
    by (intros c Hc; apply (sanitized_clean name c Hc)).
  assert (sub_runs (N.eqb underscore) false safe = safe) as Hruns.
  { unfold safe, _sanitize_filename, strip.
    rewrite rstrip_prefix.
    apply sub_runs_prefix.
    apply underscore_runs_lstrip.
    apply sub_runs_prefix.
    apply sub_runs_again; [reflexivity|discriminate]. }
  assert (firstn 100 safe = safe) as Hlen.
  { apply firstn_all2. unfold safe, _sanitize_filename.
    etransitivity; [apply strip_length|]. apply firstn_le_length. }
  assert (strip underscore safe = safe) as Hstrip.
  { unfold strip. rewrite (lstrip_unchanged underscore safe).
    - apply rstrip_unchanged. intros t. apply rstrip_last.
    - intros t. apply strip_head. }
  unfold _sanitize_filename at 1. fold safe.
  rewrite (sub_class_outside is_invalid_char safe Hinv).
  rewrite (sub_runs_outside is_space false safe Hsp).
  rewrite Hruns, Hlen. exact Hstrip.
Qed.

End SanitizeIdempotent.

(** ** Failures of the statistics and of the analysis *)

Section Failures.
Import ChartDownloader PyDatetime TimeRange TrendAnalyzer.

Lemma forallb_false {A : Type} (f : A -> bool) (l : list A) :
  forallb f l = false <-> exists x, In x l /\ f x = false.
Proof.
  induction l as [|a l IH]; simpl.
  - split; [discriminate|]. intros (x & [] & _).
  - destruct (f a) eqn:E; simpl.
    + rewrite IH. split.
      * intros (x & Hx & Hf). exists x. auto.
      * intros (x & [->|Hx] & Hf); [congruence|]. exists x. auto.
    + split; [|reflexivity]. intros _. exists a. auto.
Qed.

(** A time stamp out of range makes the statistics raise. *)
Lemma calculate_statistics_out_of_bounds (trends : list TrendPoint) :
  (exists p, In p trends /\ in_bounds (clock p) = false) ->
  calculate_statistics trends = Raise OutOfBoundsDatetime.
Proof.
  intros H. unfold calculate_statistics.
  destruct trends as [|p0 ps]; [destruct H as (p & [] & _)|].
  apply forallb_false in H. rewrite H. reflexivity.
Qed.


Variable int_timestamp : datetime -> Z.
Variable py_int : string -> option Z.
Variable now : datetime.
Variable api_trend_get : string -> Z -> Z -> option (list TrendPoint).
Variable deepseek_api_key : option pystr.
Variable deepseek : Summary -> reply.
Variable path_join : pystr -> pystr -> pystr.
Variable csv_raises : pystr -> list TrendPoint -> bool.
Variable txt_raises
  : pystr -> pystr -> option Stats -> pystr -> pystr -> bool.

(** X22.  When the trend API gives rows of which one has a time stamp
    out of range, the analysis raises; by then it has written the CSV
    file, and it has not asked the language model. *)
Theorem analyze_item_fails_after_csv (log : list event) (item_id : string)
    (item_name host_name : pystr) (time_from time_to : string)
    (period_name output_dir : pystr) (from_ts to_ts : Z)
    (trends : list TrendPoint) (p : TrendPoint) :
  _convert_time_range int_timestamp py_int now time_from time_to
  = Ok (from_ts, to_ts) ->
  api_trend_get item_id from_ts to_ts = Some trends ->
  In p trends -> in_bounds (clock p) = false ->
  csv_raises (path_join output_dir
                (safe_name host_name item_name ++ of_string "_trends.csv"))
             trends
  = false ->
  analyze_item int_timestamp py_int now api_trend_get deepseek_api_key
               deepseek path_join csv_raises txt_raises
               log item_id item_name host_name time_from time_to
               period_name output_dir
  = (Raised,
     log ++ [WriteCsv (path_join output_dir
                         (safe_name host_name item_name
                          ++ of_string "_trends.csv"))
                      (S (List.length trends))]).
Proof.
  intros Hc Ha Hp Hout Hw.
  assert (calculate_statistics trends = Raise OutOfBoundsDatetime) as Hs.
  { apply calculate_statistics_out_of_bounds. exists p. auto. }
  unfold analyze_item, get_trends. rewrite Hc, Ha.
  destruct trends as [|p0 ps]; [destruct Hp|].
  unfold save_csv. cbv zeta. rewrite Hw. cbv beta iota. rewrite Hs.
  reflexivity.
Qed.

Lemma lstrip_space_head (s : pystr) (c : N) (t : pystr) :
  lstrip_space s = c :: t -> is_space c = false.
Proof.
  induction s as [|x u IH]; cbn [lstrip_space]; [discriminate|].
  destruct (is_space x) eqn:E; [exact IH|].
  intros H. injection H as <- _. exact E.
Qed.

Lemma lstrip_space_suffix (s : pystr) :
  exists pre, s = pre ++ lstrip_space s.
Proof.
  induction s as [|x u [pre IH]]; cbn [lstrip_space]; [exists []; reflexivity|].
  destruct (is_space x).
  - exists (x :: pre). cbn [List.app]. f_equal. exact IH.
  - exists []. reflexivity.
Qed.

(** A stripped text neither starts nor ends with white space. *)
Lemma strip_space_ends (s : pystr) :
  (forall c t, strip_space s = c :: t -> is_space c = false)
  /\ (forall c t, strip_space s = t ++ [c] -> is_space c = false).
Proof.
  unfold strip_space. split; intros c t H.
  - apply (f_equal (@rev N)) in H. rewrite rev_involutive in H.
    cbn [rev] in H.
    destruct (lstrip_space_suffix (rev (lstrip_space s))) as [pre Hpre].
    rewrite H in Hpre. apply (f_equal (@rev N)) in Hpre.
    rewrite rev_involutive, !rev_app_distr in Hpre. cbn [rev List.app] in Hpre.
    exact (lstrip_space_head _ _ _ Hpre).
  - apply (f_equal (@rev N)) in H.
    rewrite rev_involutive, rev_app_distr in H. cbn [rev List.app] in H.
    exact (lstrip_space_head _ _ _ H).
Qed.

(** X23.  A conclusion that [get_ai_conclusion] returns is the text
    of the reply of the language model without the white space at its
    ends: it neither starts nor ends with a white-space character; it is
    returned only when an API key is set, after exactly one request. *)
Theorem get_ai_conclusion_stripped (log log' : list event)
    (summary : Summary) (text : pystr) :
  get_ai_conclusion deepseek_api_key deepseek log summary
  = (Returned (Some text), log') ->
  nonempty deepseek_api_key = true
  /\ log' = log ++ [AskModel summary]
  /\ (exists raw, deepseek summary = Content raw /\ text = strip_space raw)
  /\ (forall c t, text = c :: t -> is_space c = false)
  /\ (forall c t, text = t ++ [c] -> is_space c = false).
Proof.
  unfold get_ai_conclusion.
  destruct (nonempty deepseek_api_key); cbn [negb]; [|discriminate].
  cbv zeta. destruct (deepseek summary) as [raw| |] eqn:E; try discriminate.
  intros H. injection H as <- <-.
  split; [reflexivity|]. split; [reflexivity|].
  split; [exists raw; split; reflexivity|].
  apply strip_space_ends.
Qed.

End Failures.

Lemma analyze_item_fails_after_csv_witness :
  TrendAnalyzer.analyze_item
    TimeRange.utc_timestamp (fun _ => None)
    (PyDatetime.mkdatetime 2024 3 31 13 45 10 250)
    (fun _ _ _ =>
       Some [TrendAnalyzer.mkpoint 10000000000 60 (Some 1%Q) (Some 2%Q)
                                   (Some 3%Q)])
    None (fun _ => TrendAnalyzer.Caught)
    (fun dir name => dir ++ [47%N] ++ name) (fun _ _ => false)
      (fun _ _ _ _ _ => false)
    [] "42" (ChartDownloader.of_string "CPU") (ChartDownloader.of_string "db01")
    "now-30d" "now" (ChartDownloader.of_string "30d")
    (ChartDownloader.of_string "out")
  = (TrendAnalyzer.Raised,
     [] ++ [TrendAnalyzer.WriteCsv
              (ChartDownloader.of_string "out" ++ [47%N]
               ++ TrendAnalyzer.safe_name (ChartDownloader.of_string "db01")
                    (ChartDownloader.of_string "CPU")
               ++ ChartDownloader.of_string "_trends.csv")
              2]).
Proof.
  eapply (analyze_item_fails_after_csv
            TimeRange.utc_timestamp (fun _ => None)
            (PyDatetime.mkdatetime 2024 3 31 13 45 10 250)
            (fun _ _ _ =>
               Some [TrendAnalyzer.mkpoint 10000000000 60 (Some 1%Q)
                                           (Some 2%Q) (Some 3%Q)])
            None (fun _ => TrendAnalyzer.Caught)
            (fun dir name => dir ++ [47%N] ++ name) (fun _ _ => false)
      (fun _ _ _ _ _ => false)
            [] "42" (ChartDownloader.of_string "CPU")
            (ChartDownloader.of_string "db01")
            "now-30d" "now" (ChartDownloader.of_string "30d")
            (ChartDownloader.of_string "out") _ _
            [TrendAnalyzer.mkpoint 10000000000 60 (Some 1%Q) (Some 2%Q)
                                   (Some 3%Q)]
            (TrendAnalyzer.mkpoint 10000000000 60 (Some 1%Q) (Some 2%Q)
                                   (Some 3%Q))).
  - reflexivity.
  - reflexivity.
  - left. reflexivity.
  - reflexivity.
  - reflexivity.
Defined.

Lemma get_ai_conclusion_stripped_witness :
  TrendAnalyzer.nonempty (Some (ChartDownloader.of_string "key")) = true
  /\ [TrendAnalyzer.AskModel
        (TrendAnalyzer.mksummary [] [] [] None)]
     = [] ++ [TrendAnalyzer.AskModel (TrendAnalyzer.mksummary [] [] [] None)]
  /\ (exists raw,
         TrendAnalyzer.Content (ChartDownloader.of_string " ok ")
         = TrendAnalyzer.Content raw
         /\ ChartDownloader.of_string "ok" = TrendAnalyzer.strip_space raw)
  /\ (forall c t, ChartDownloader.of_string "ok" = c :: t ->
                  ChartDownloader.is_space c = false)
  /\ (forall c t, ChartDownloader.of_string "ok" = t ++ [c] ->
                  ChartDownloader.is_space c = false).
Proof.
  apply (get_ai_conclusion_stripped
           (Some (ChartDownloader.of_string "key"))
           (fun _ => TrendAnalyzer.Content (ChartDownloader.of_string " ok "))
           [] _ (TrendAnalyzer.mksummary [] [] [] None)
           (ChartDownloader.of_string "ok")).
  reflexivity.
Defined.

(** ** The full image *)

Section FullImage.
Import ChartDownloader.

Variable image_open : list N -> option Image.
Variable path_join : pystr -> pystr -> pystr.
Variable makedirs_raises : pystr -> bool.
Variable save_raises : pystr -> Image -> bool.

(** X24.  When [save_full_image] returns, it has written exactly one
    file, which holds the decoded image as it is (no row, no column
    removed); the file is named by the sanitized item name followed by a
    fixed ending, a name of clean characters that differs from the names
    of the two parts that [process_image] writes for the same item. *)
Theorem save_full_image_keeps_image (fs fs' : ImageFiles)
    (image_bytes : list N) (item_name output_dir full_path : pystr) :
  save_full_image image_open path_join makedirs_raises save_raises
                  fs image_bytes item_name output_dir
  = (Some full_path, fs') ->
  exists image full_name,
    image_open image_bytes = Some image
    /\ fs' = (full_path, image) :: fs
    /\ full_path = path_join output_dir full_name
    /\ (forall c, In c full_name -> clean c)
    /\ full_name
       <> _sanitize_filename item_name ++ of_string "_grafico_superior.png"
    /\ full_name
       <> _sanitize_filename item_name ++ of_string "_datos_leyenda.png".
Proof.
  unfold save_full_image, save. cbv zeta.
  destruct (makedirs_raises output_dir); [discriminate|].
  destruct (image_open image_bytes) as [image|]; [|discriminate].
  destruct (save_raises _ image); [discriminate|].
  intros H. injection H as <- <-.
  exists image, (_sanitize_filename item_name ++ of_string "_completo.png").
  split; [reflexivity|]. split; [reflexivity|]. split; [reflexivity|].
  split; [|split].
  - intros c Hc. apply in_app_or in Hc. destruct Hc as [Hc|Hc].
    + exact (sanitized_clean _ _ Hc).
    + revert c Hc. apply clean_chars. reflexivity.
  - intros E. apply app_inv_head in E. discriminate E.
  - intros E. apply app_inv_head in E. discriminate E.
Qed.

End FullImage.

Lemma save_full_image_keeps_image_witness :
  exists image full_name,
    Some (ChartDownloader.mkimage 2 [[1; 2]; [3; 4]]%N) = Some image
    /\ [(ChartDownloader.of_string "out/cpu_completo.png",
         ChartDownloader.mkimage 2 [[1; 2]; [3; 4]]%N)]
       = [(ChartDownloader.of_string "out/cpu_completo.png", image)]
    /\ ChartDownloader.of_string "out/cpu_completo.png"
       = ChartDownloader.of_string "out" ++ [47%N] ++ full_name
    /\ (forall c, In c full_name -> ChartDownloader.clean c)
    /\ full_name
       <> ChartDownloader._sanitize_filename (ChartDownloader.of_string "cpu")
          ++ ChartDownloader.of_string "_grafico_superior.png"
    /\ full_name
       <> ChartDownloader._sanitize_filename (ChartDownloader.of_string "cpu")
          ++ ChartDownloader.of_string "_datos_leyenda.png".
Proof.
  apply (save_full_image_keeps_image
           (fun _ => Some (ChartDownloader.mkimage 2 [[1; 2]; [3; 4]]%N))
           (fun dir name => dir ++ [47%N] ++ name)
           (fun _ => false) (fun _ _ => false)
           []
           [(ChartDownloader.of_string "out/cpu_completo.png",
             ChartDownloader.mkimage 2 [[1; 2]; [3; 4]]%N)]
           [] (ChartDownloader.of_string "cpu")
           (ChartDownloader.of_string "out")
           (ChartDownloader.of_string "out/cpu_completo.png")).
  reflexivity.
Defined.
